(** * SNpalet: the scan session controller of [src/components/Scanner.tsx]

    A shallow embedding of the [Scanner] React component and of the
    [scanners] table of [supabase/migrations/20251209123304_create_scanners_table.sql].

    The component's handlers are written in a small state-and-exception
    monad over a [World] that holds the React state, the [html5QrCodeRef]
    ref, the rows of the hosted store, the pending [setTimeout] timers, the
    console and the list of calls made to the outside (store requests,
    decode-engine calls, [confirm] prompts).  What the outside answers (the
    enumerated cameras, whether a request fails, what [confirm] returns) is
    read from an [Env] record over which the theorems quantify.

    Time is the [now] of the world, in milliseconds.  A handler runs to its
    end at one instant: an [await] takes no time and lets no other callback
    in.  [elapse] lets the clock run with no new event and fires the due
    timers in order.  A handler reads the state cells as they are when it
    runs. *)

From Stdlib Require Import List NArith String Ascii Bool Lia.
Import ListNotations.

Set Implicit Arguments.

(** ** JavaScript strings *)

Module JS.

(** A JS string is a sequence of UTF-16 code units. *)
Definition jsstring := list N.

(** A source literal (the literals of [Scanner.tsx] are ASCII). *)
Definition lit (s : string) : jsstring :=
  map N_of_ascii (list_ascii_of_string s).
Arguments lit : simpl never.

Fixpoint eqb (a b : jsstring) : bool :=
  match a, b with
  | [], [] => true
  | x :: a', y :: b' => N.eqb x y && eqb a' b'
  | _, _ => false
  end.

(** ECMAScript [WhiteSpace] and [LineTerminator] code points, the ones
    [String.prototype.trim] strips. *)
Definition isWhiteSpace (c : N) : bool :=
  (N.eqb c 9 || N.eqb c 10 || N.eqb c 11 || N.eqb c 12 || N.eqb c 13 ||
   N.eqb c 32 || N.eqb c 160 || N.eqb c 5760 ||
   (N.leb 8192 c && N.leb c 8202) ||
   N.eqb c 8232 || N.eqb c 8233 || N.eqb c 8239 || N.eqb c 8287 ||
   N.eqb c 12288 || N.eqb c 65279)%bool.

Fixpoint trimStart (s : jsstring) : jsstring :=
  match s with
  | [] => []
  | c :: r => if isWhiteSpace c then trimStart r else s
  end.

Definition trimEnd (s : jsstring) : jsstring := rev (trimStart (rev s)).

(** [s.trim()] *)
Definition trim (s : jsstring) : jsstring := trimEnd (trimStart s).

(** Truthiness of a string: the empty string is the only falsy one. *)
Definition truthy (s : jsstring) : bool :=
  match s with [] => false | _ :: _ => true end.

Fixpoint startsWith (s p : jsstring) {struct p} : bool :=
  match p, s with
  | [], _ => true
  | _ :: _, [] => false
  | y :: p', x :: s' => N.eqb x y && startsWith s' p'
  end.

(** [s.includes(p)] *)
Fixpoint includes (s p : jsstring) : bool :=
  startsWith s p ||
  match s with
  | [] => false
  | _ :: s' => includes s' p
  end.

End JS.

Import JS.

(** ** Data model *)

(** The authenticated user of [useAuth()]; only [user.id] is read. *)
Module User.
Record t := { id : jsstring }.
End User.

(** [Product] of [../types]: the columns the component renders. *)
Module Product.
Record t := {
  serial_number : jsstring;
  product_name : jsstring;
  product_code : jsstring;
  packaging : jsstring;
  production_order : jsstring;
  production_date : jsstring;
  production_time : jsstring;
  location : jsstring
}.
End Product.

(** The [method] parameter of [saveScanHistory]. *)
Inductive ScanMethod := camera | manual | excel.

(** A row of [scan_history], as [saveScanHistory] inserts it. *)
Module ScanHistory.
Record t := {
  user_id : jsstring;
  serial_number : jsstring;
  scan_method : ScanMethod
}.
End ScanHistory.

(** A row of the [scanners] table (migration, lines 20-30).  The columns
    without [NOT NULL] are optional; timestamps are instants in
    milliseconds. *)
Module ScannerRow.
Record t := {
  id : jsstring;                    (* uuid PRIMARY KEY DEFAULT gen_random_uuid() *)
  user_id : jsstring;               (* uuid NOT NULL *)
  scanner_name : jsstring;          (* text NOT NULL *)
  scanner_type : option jsstring;   (* text DEFAULT 'camera' *)
  device_info : option jsstring;    (* text *)
  is_active : option bool;          (* boolean DEFAULT true *)
  created_at : option N;            (* timestamptz DEFAULT now() *)
  last_used_at : option N           (* timestamptz *)
}.
End ScannerRow.

(** The object [registerCurrentScanner] passes to [upsert]. *)
Module ScannerPayload.
Record t := {
  user_id : jsstring;
  scanner_name : jsstring;
  scanner_type : jsstring;
  device_info : jsstring;
  is_active : bool;
  last_used_at : N
}.
End ScannerPayload.

(** [deviceInfo] of [registerCurrentScanner], before [JSON.stringify]. *)
Record DeviceInfo := {
  userAgent : jsstring;
  platform : jsstring;
  timestamp : N
}.

(** An entry of [Html5Qrcode.getCameras()]. *)
Module CameraDevice.
Record t := { id : jsstring; label : jsstring }.
End CameraDevice.

(** The configuration object passed to [Html5Qrcode.start]. *)
Record ScanConfig := {
  fps : N;
  qrbox_width : N;
  qrbox_height : N;
  aspectRatio : N
}.

(** The [Html5Qrcode] instance held by [html5QrCodeRef]. *)
Module Html5Qrcode.
Record t := { isScanning : bool }.
End Html5Qrcode.

(** ['idle' | 'detecting' | 'success' | 'error'] *)
Inductive ScanStatus := StatusIdle | StatusDetecting | StatusSuccess | StatusError.

(** A thrown value: an [Error] instance, the error object of a store
    response, or any other value (with its [String(err)]). *)
Inductive Thrown :=
| ErrorObject (message : jsstring)
| PostgrestError (code message : jsstring)
| OtherValue (asString : jsstring).

(** The hosted store: the three tables the component reaches. *)
Module Store.
Record t := {
  products : list Product.t;
  scan_history : list ScanHistory.t;
  scanners : list ScannerRow.t
}.
End Store.

(** The requests the component sends to the store. *)
Inductive Request :=
| SelectProductBySerial (serialNumber : jsstring)
| InsertScanHistory (row : ScanHistory.t)
| SelectActiveScanners (userId : jsstring)
| UpsertScanner (payload : ScannerPayload.t)
| DeleteScanner (scannerId : jsstring) (userId : option jsstring).

(** [{ data, error }] *)
Record Response (A : Type) := {
  data : option A;
  error : option Thrown
}.

(** Everything the component calls outside itself, in call order. *)
Inductive Call :=
| StoreCall (r : Request)
| ConfirmCall (message : jsstring)
| NewHtml5Qrcode (elementId : jsstring)
| GetCameras
| EngineStart (cameraId : jsstring) (config : ScanConfig)
| EngineStop.

Inductive ConsoleLevel := LevelError | LevelLog.

Record ConsoleEntry := {
  level : ConsoleLevel;
  text : jsstring;
  value : Thrown
}.

(** The callbacks the component hands to [setTimeout]. *)
Inductive TimerAction :=
| ResetStatus                               (* () => setScanStatus('idle') *)
| DebouncedLookup (decodedText : jsstring)  (* lines 163-167 *)
| ClearError.                               (* () => setError(''), line 73 *)

Record Timer := { due : N; action : TimerAction }.

(** The [useState] cells of the component. *)
Module State.
Record t := {
  cameraActive : bool;
  manualSN : jsstring;
  scannedProduct : option Product.t;
  scanStatus : ScanStatus;
  error : jsstring;
  scanners : list ScannerRow.t;
  showScannerModal : bool;
  scannerSearchInput : jsstring;
  loadingScanners : bool
}.

(** The initial values of lines 18-26. *)
Definition initial : t := {|
  cameraActive := false;
  manualSN := [];
  scannedProduct := None;
  scanStatus := StatusIdle;
  error := [];
  scanners := [];
  showScannerModal := false;
  scannerSearchInput := [];
  loadingScanners := false
|}.
End State.

(** What the outside answers.  [fault r] is the transport or query failure
    of request [r], if any; [getCameras] rejects ([inl]) or resolves to the
    camera array or to a nullish value ([inr None]). *)
Record Env := {
  fault : Request -> option Thrown;
  confirm : jsstring -> bool;
  new_Html5Qrcode : jsstring -> option Thrown;
  getCameras : Thrown + option (list CameraDevice.t);
  start : jsstring -> ScanConfig -> option Thrown;
  stop : option Thrown;
  navigator_userAgent : jsstring;
  navigator_platform : jsstring;
  toLocaleDateString : N -> jsstring;
  JSON_stringify : DeviceInfo -> jsstring;
  gen_random_uuid : jsstring
}.

Record World := {
  state : State.t;
  html5QrCodeRef : option Html5Qrcode.t;
  user : option User.t;
  db : Store.t;
  timers : list Timer;
  now : N;
  console : list ConsoleEntry;
  calls : list Call;
  env : Env
}.

Definition with_state (f : State.t -> State.t) (w : World) : World :=
  {| state := f (state w); html5QrCodeRef := html5QrCodeRef w; user := user w;
     db := db w; timers := timers w; now := now w; console := console w;
     calls := calls w; env := env w |}.

Definition with_ref (r : option Html5Qrcode.t) (w : World) : World :=
  {| state := state w; html5QrCodeRef := r; user := user w;
     db := db w; timers := timers w; now := now w; console := console w;
     calls := calls w; env := env w |}.

Definition with_db (d : Store.t) (w : World) : World :=
  {| state := state w; html5QrCodeRef := html5QrCodeRef w; user := user w;
     db := d; timers := timers w; now := now w; console := console w;
     calls := calls w; env := env w |}.

Definition with_timers (ts : list Timer) (w : World) : World :=
  {| state := state w; html5QrCodeRef := html5QrCodeRef w; user := user w;
     db := db w; timers := ts; now := now w; console := console w;
     calls := calls w; env := env w |}.

Definition with_now (t : N) (w : World) : World :=
  {| state := state w; html5QrCodeRef := html5QrCodeRef w; user := user w;
     db := db w; timers := timers w; now := t; console := console w;
     calls := calls w; env := env w |}.

Definition with_console (c : list ConsoleEntry) (w : World) : World :=
  {| state := state w; html5QrCodeRef := html5QrCodeRef w; user := user w;
     db := db w; timers := timers w; now := now w; console := c;
     calls := calls w; env := env w |}.

Definition with_calls (c : list Call) (w : World) : World :=
  {| state := state w; html5QrCodeRef := html5QrCodeRef w; user := user w;
     db := db w; timers := timers w; now := now w; console := console w;
     calls := c; env := env w |}.

Definition with_env (e : Env) (w : World) : World :=
  {| state := state w; html5QrCodeRef := html5QrCodeRef w; user := user w;
     db := db w; timers := timers w; now := now w; console := console w;
     calls := calls w; env := e |}.

(** ** The monad of the handlers: state over [World], with exceptions *)

Inductive Outcome (A : Type) :=
| Returned (a : A)
| Threw (e : Thrown).
Arguments Threw {A} e.

Definition M (A : Type) := World -> Outcome A * World.

Definition ret {A} (a : A) : M A := fun w => (Returned a, w).

Definition bind {A B} (m : M A) (k : A -> M B) : M B :=
  fun w =>
    match m w with
    | (Returned a, w') => k a w'
    | (Threw e, w') => (Threw e, w')
    end.

Definition throw {A} (e : Thrown) : M A := fun w => (Threw e, w).

(** [try { body } catch (err) { handler }] *)
Definition try_catch {A} (body : M A) (handler : Thrown -> M A) : M A :=
  fun w =>
    match body w with
    | (Returned a, w') => (Returned a, w')
    | (Threw e, w') => handler e w'
    end.

(** [try { body } finally { final }] *)
Definition try_finally {A} (body : M A) (final : M unit) : M A :=
  fun w =>
    match body w with
    | (r, w') =>
        match final w' with
        | (Returned _, w'') => (r, w'')
        | (Threw e, w'') => (Threw e, w'')
        end
    end.

Definition gets {A} (f : World -> A) : M A := fun w => (Returned (f w), w).
Definition modify (f : World -> World) : M unit := fun w => (Returned tt, f w).

Definition exec {A} (m : M A) (w : World) : World := snd (m w).
Definition outcome {A} (m : M A) (w : World) : Outcome A := fst (m w).

Declare Scope handler_scope.
Delimit Scope handler_scope with handler.
Notation "x <- m ;; k" := (bind m (fun x => k))
  (at level 61, m at next level, right associativity) : handler_scope.
Notation "m ;; k" := (bind m (fun _ => k))
  (at level 61, right associativity) : handler_scope.
Local Open Scope handler_scope.

(** ** React state setters, console, timers *)

Definition setCameraActive (b : bool) : M unit :=
  modify (with_state (fun s => {|
    State.cameraActive := b; State.manualSN := State.manualSN s;
    State.scannedProduct := State.scannedProduct s; State.scanStatus := State.scanStatus s;
    State.error := State.error s; State.scanners := State.scanners s;
    State.showScannerModal := State.showScannerModal s;
    State.scannerSearchInput := State.scannerSearchInput s;
    State.loadingScanners := State.loadingScanners s |})).

Definition setManualSN (v : jsstring) : M unit :=
  modify (with_state (fun s => {|
    State.cameraActive := State.cameraActive s; State.manualSN := v;
    State.scannedProduct := State.scannedProduct s; State.scanStatus := State.scanStatus s;
    State.error := State.error s; State.scanners := State.scanners s;
    State.showScannerModal := State.showScannerModal s;
    State.scannerSearchInput := State.scannerSearchInput s;
    State.loadingScanners := State.loadingScanners s |})).

Definition setScannedProduct (p : option Product.t) : M unit :=
  modify (with_state (fun s => {|
    State.cameraActive := State.cameraActive s; State.manualSN := State.manualSN s;
    State.scannedProduct := p; State.scanStatus := State.scanStatus s;
    State.error := State.error s; State.scanners := State.scanners s;
    State.showScannerModal := State.showScannerModal s;
    State.scannerSearchInput := State.scannerSearchInput s;
    State.loadingScanners := State.loadingScanners s |})).

Definition setScanStatus (st : ScanStatus) : M unit :=
  modify (with_state (fun s => {|
    State.cameraActive := State.cameraActive s; State.manualSN := State.manualSN s;
    State.scannedProduct := State.scannedProduct s; State.scanStatus := st;
    State.error := State.error s; State.scanners := State.scanners s;
    State.showScannerModal := State.showScannerModal s;
    State.scannerSearchInput := State.scannerSearchInput s;
    State.loadingScanners := State.loadingScanners s |})).

Definition setError (m : jsstring) : M unit :=
  modify (with_state (fun s => {|
    State.cameraActive := State.cameraActive s; State.manualSN := State.manualSN s;
    State.scannedProduct := State.scannedProduct s; State.scanStatus := State.scanStatus s;
    State.error := m; State.scanners := State.scanners s;
    State.showScannerModal := State.showScannerModal s;
    State.scannerSearchInput := State.scannerSearchInput s;
    State.loadingScanners := State.loadingScanners s |})).

Definition setScanners (l : list ScannerRow.t) : M unit :=
  modify (with_state (fun s => {|
    State.cameraActive := State.cameraActive s; State.manualSN := State.manualSN s;
    State.scannedProduct := State.scannedProduct s; State.scanStatus := State.scanStatus s;
    State.error := State.error s; State.scanners := l;
    State.showScannerModal := State.showScannerModal s;
    State.scannerSearchInput := State.scannerSearchInput s;
    State.loadingScanners := State.loadingScanners s |})).

Definition setShowScannerModal (b : bool) : M unit :=
  modify (with_state (fun s => {|
    State.cameraActive := State.cameraActive s; State.manualSN := State.manualSN s;
    State.scannedProduct := State.scannedProduct s; State.scanStatus := State.scanStatus s;
    State.error := State.error s; State.scanners := State.scanners s;
    State.showScannerModal := b;
    State.scannerSearchInput := State.scannerSearchInput s;
    State.loadingScanners := State.loadingScanners s |})).

Definition setLoadingScanners (b : bool) : M unit :=
  modify (with_state (fun s => {|
    State.cameraActive := State.cameraActive s; State.manualSN := State.manualSN s;
    State.scannedProduct := State.scannedProduct s; State.scanStatus := State.scanStatus s;
    State.error := State.error s; State.scanners := State.scanners s;
    State.showScannerModal := State.showScannerModal s;
    State.scannerSearchInput := State.scannerSearchInput s;
    State.loadingScanners := b |})).

Definition console_error (label : jsstring) (err : Thrown) : M unit :=
  modify (fun w => with_console
    (console w ++ [{| level := LevelError; text := label; value := err |}]) w).

Definition console_log (label : jsstring) (err : Thrown) : M unit :=
  modify (fun w => with_console
    (console w ++ [{| level := LevelLog; text := label; value := err |}]) w).

(** [setTimeout(callback, delay)]: the callback is due [delay] ms from now. *)
Definition setTimeout (callback : TimerAction) (delay : N) : M unit :=
  modify (fun w => with_timers
    (timers w ++ [{| due := now w + delay; action := callback |}]) w).

Definition call (c : Call) : M unit :=
  modify (fun w => with_calls (calls w ++ [c]) w).

(** ** The store *)

(** A request is recorded, then either fails as the environment says, with
    the store untouched, or runs [run] on the tables. *)
Definition issue {A} (r : Request) (run : World -> Response A * Store.t)
  : M (Response A) :=
  call (StoreCall r) ;;
  f <- gets (fun w => fault (env w) r) ;;
  match f with
  | Some e => ret {| data := None; error := Some e |}
  | None =>
      res <- gets run ;;
      modify (with_db (snd res)) ;;
      ret (fst res)
  end.

Definition multiple_rows : Thrown :=
  PostgrestError (lit "PGRST116")
    (lit "JSON object requested, multiple (or no) rows returned").

(** The rows of [products] whose [serial_number] equals [sn]. *)
Definition matching (sn : jsstring) (d : Store.t) : list Product.t :=
  filter (fun p => JS.eqb (Product.serial_number p) sn) (Store.products d).

(** [from('products').select('*').eq('serial_number', sn).maybeSingle()]:
    no row gives [data = null], one row gives the row, more give an error. *)
Definition select_product (serialNumber : jsstring) : M (Response Product.t) :=
  issue (SelectProductBySerial serialNumber) (fun w =>
    match matching serialNumber (db w) with
    | [] => ({| data := None; error := None |}, db w)
    | [p] => ({| data := Some p; error := None |}, db w)
    | _ :: _ :: _ => ({| data := None; error := Some multiple_rows |}, db w)
    end).

(** [from('scan_history').insert(row)] *)
Definition insert_scan_history (row : ScanHistory.t) : M (Response unit) :=
  issue (InsertScanHistory row) (fun w =>
    ({| data := None; error := None |},
     {| Store.products := Store.products (db w);
        Store.scan_history := Store.scan_history (db w) ++ [row];
        Store.scanners := Store.scanners (db w) |})).

(** [ORDER BY last_used_at DESC NULLS LAST]: [a] may stand before [b]. *)
Definition last_used_before (a b : ScannerRow.t) : bool :=
  match ScannerRow.last_used_at a, ScannerRow.last_used_at b with
  | Some x, Some y => N.leb y x
  | Some _, None => true
  | None, Some _ => false
  | None, None => true
  end.

Fixpoint insert_ordered (r : ScannerRow.t) (l : list ScannerRow.t) : list ScannerRow.t :=
  match l with
  | [] => [r]
  | x :: l' => if last_used_before r x then r :: l else x :: insert_ordered r l'
  end.

(** One order the store may answer in.  Rows that tie on [last_used_at],
    or that both have none, come in an order the query leaves open: the
    properties below use this order only as a permutation of the rows that
    is sorted by [last_used_before]. *)
Definition order_by_last_used (l : list ScannerRow.t) : list ScannerRow.t :=
  fold_right insert_ordered [] l.

(** [from('scanners').select('*').eq('user_id', uid).eq('is_active', true)
    .order('last_used_at', { ascending: false, nullsFirst: false })] *)
Definition select_active_scanners (uid : jsstring) : M (Response (list ScannerRow.t)) :=
  issue (SelectActiveScanners uid) (fun w =>
    ({| data := Some (order_by_last_used
          (filter (fun r => JS.eqb (ScannerRow.user_id r) uid &&
                            match ScannerRow.is_active r with
                            | Some true => true
                            | _ => false
                            end)
                  (Store.scanners (db w))));
        error := None |}, db w)).

(** The store's answer to a row that breaks [UNIQUE(user_id,
    scanner_name)], and to one that breaks the primary key; the name of
    the constraint stands in double quotes (code unit 34). *)
Definition unique_violation : Thrown :=
  PostgrestError (lit "23505")
    (lit "duplicate key value violates unique constraint " ++ [34%N] ++
     lit "scanners_user_id_scanner_name_key" ++ [34%N]).

Definition primary_key_violation : Thrown :=
  PostgrestError (lit "23505")
    (lit "duplicate key value violates unique constraint " ++ [34%N] ++
     lit "scanners_pkey" ++ [34%N]).

Definition invalid_uuid : Thrown :=
  PostgrestError (lit "22P02") (lit "invalid input syntax for type uuid").

(** The row an insert of [p] creates: [id] and [created_at] take their
    column defaults. *)
Definition new_row (newId : jsstring) (t : N) (p : ScannerPayload.t) : ScannerRow.t :=
  {| ScannerRow.id := newId;
     ScannerRow.user_id := ScannerPayload.user_id p;
     ScannerRow.scanner_name := ScannerPayload.scanner_name p;
     ScannerRow.scanner_type := Some (ScannerPayload.scanner_type p);
     ScannerRow.device_info := Some (ScannerPayload.device_info p);
     ScannerRow.is_active := Some (ScannerPayload.is_active p);
     ScannerRow.created_at := Some t;
     ScannerRow.last_used_at := Some (ScannerPayload.last_used_at p) |}.

(** The row an update of [old] by [p] leaves: the payload's columns are
    overwritten, the others kept. *)
Definition updated_row (old : ScannerRow.t) (p : ScannerPayload.t) : ScannerRow.t :=
  {| ScannerRow.id := ScannerRow.id old;
     ScannerRow.user_id := ScannerPayload.user_id p;
     ScannerRow.scanner_name := ScannerPayload.scanner_name p;
     ScannerRow.scanner_type := Some (ScannerPayload.scanner_type p);
     ScannerRow.device_info := Some (ScannerPayload.device_info p);
     ScannerRow.is_active := Some (ScannerPayload.is_active p);
     ScannerRow.created_at := ScannerRow.created_at old;
     ScannerRow.last_used_at := Some (ScannerPayload.last_used_at p) |}.

(** [PRIMARY KEY (id)] *)
Definition same_id (i : jsstring) (r : ScannerRow.t) : bool :=
  JS.eqb (ScannerRow.id r) i.

(** [UNIQUE (user_id, scanner_name)] *)
Definition same_owner_and_name (uid name : jsstring) (r : ScannerRow.t) : bool :=
  JS.eqb (ScannerRow.user_id r) uid && JS.eqb (ScannerRow.scanner_name r) name.

(** The columns an upsert resolves conflicts on.  A call that names no
    [onConflict] columns resolves on the primary key. *)
Inductive ConflictTarget := OnPrimaryKey | OnOwnerAndName.

(** [INSERT ... ON CONFLICT (target) DO UPDATE] on the [scanners] table.
    The payload of the component carries no [id], so the new row's [id] is
    the generated [newId].  A row that conflicts on the target is updated;
    a violation of the other constraint is an error and changes nothing. *)
Definition upsert_rows (target : ConflictTarget) (newId : jsstring) (t : N)
    (p : ScannerPayload.t) (rows : list ScannerRow.t)
  : Thrown + list ScannerRow.t :=
  let uid := ScannerPayload.user_id p in
  let name := ScannerPayload.scanner_name p in
  match target with
  | OnPrimaryKey =>
      if existsb (same_id newId) rows then
        if existsb (fun r => same_owner_and_name uid name r && negb (same_id newId r)) rows
        then inl unique_violation
        else inr (map (fun r => if same_id newId r then updated_row r p else r) rows)
      else if existsb (same_owner_and_name uid name) rows then inl unique_violation
      else inr (rows ++ [new_row newId t p])
  | OnOwnerAndName =>
      if existsb (same_owner_and_name uid name) rows then
        inr (map (fun r => if same_owner_and_name uid name r then updated_row r p else r) rows)
      else if existsb (same_id newId) rows then inl primary_key_violation
      else inr (rows ++ [new_row newId t p])
  end.

(** [from('scanners').upsert(payload)], as line 117 calls it: one argument,
    no [onConflict] option. *)
Definition upsert_scanner (payload : ScannerPayload.t) : M (Response unit) :=
  issue (UpsertScanner payload) (fun w =>
    match upsert_rows OnPrimaryKey (gen_random_uuid (env w)) (now w) payload
            (Store.scanners (db w)) with
    | inl e => ({| data := None; error := Some e |}, db w)
    | inr rows =>
        ({| data := None; error := None |},
         {| Store.products := Store.products (db w);
            Store.scan_history := Store.scan_history (db w);
            Store.scanners := rows |})
    end).

(** [from('scanners').delete().eq('id', scannerId).eq('user_id', user?.id)].
    Without a user the filter value is [undefined], which is no uuid. *)
Definition delete_scanner (scannerId : jsstring) (uid : option jsstring)
  : M (Response unit) :=
  issue (DeleteScanner scannerId uid) (fun w =>
    match uid with
    | None => ({| data := None; error := Some invalid_uuid |}, db w)
    | Some u =>
        ({| data := None; error := None |},
         {| Store.products := Store.products (db w);
            Store.scan_history := Store.scan_history (db w);
            Store.scanners :=
              filter (fun r => negb (same_id scannerId r && JS.eqb (ScannerRow.user_id r) u))
                     (Store.scanners (db w)) |})
    end).

(** ** The decode engine *)

(** [if (!html5QrCodeRef.current) html5QrCodeRef.current = new Html5Qrcode('qr-reader')] *)
Definition ensure_engine : M unit :=
  r <- gets html5QrCodeRef ;;
  match r with
  | Some _ => ret tt
  | None =>
      call (NewHtml5Qrcode (lit "qr-reader")) ;;
      f <- gets (fun w => new_Html5Qrcode (env w) (lit "qr-reader")) ;;
      match f with
      | Some e => throw e
      | None => modify (with_ref (Some {| Html5Qrcode.isScanning := false |}))
      end
  end.

(** The engine can be had: the ref holds one, or the constructor does not
    throw. *)
Definition engine_ready (w : World) : Prop :=
  html5QrCodeRef w = None -> new_Html5Qrcode (env w) (lit "qr-reader") = None.

(** [await Html5Qrcode.getCameras()] *)
Definition Html5Qrcode_getCameras : M (option (list CameraDevice.t)) :=
  call GetCameras ;;
  r <- gets (fun w => getCameras (env w)) ;;
  match r with
  | inl e => throw e
  | inr cameras => ret cameras
  end.

Definition type_error : Thrown :=
  ErrorObject (lit "Cannot read properties of undefined").

(** [await html5QrCodeRef.current.start(cameraId, config, onDecode, onFailure)] *)
Definition engine_start (cameraId : jsstring) (config : ScanConfig) : M unit :=
  r <- gets html5QrCodeRef ;;
  match r with
  | None => throw type_error
  | Some _ =>
      call (EngineStart cameraId config) ;;
      f <- gets (fun w => start (env w) cameraId config) ;;
      match f with
      | Some e => throw e
      | None => modify (with_ref (Some {| Html5Qrcode.isScanning := true |}))
      end
  end.

(** [await html5QrCodeRef.current.stop()] *)
Definition engine_stop : M unit :=
  call EngineStop ;;
  f <- gets (fun w => stop (env w)) ;;
  match f with
  | Some e => throw e
  | None => modify (with_ref (Some {| Html5Qrcode.isScanning := false |}))
  end.

(** ** The handlers of [Scanner.tsx] *)

(** Lines 235-247. *)
Definition saveScanHistory (serialNumber : jsstring) (method : ScanMethod) : M unit :=
  u <- gets user ;;
  match u with
  | None => ret tt
  | Some usr =>
      try_catch
        (insert_scan_history
           {| ScanHistory.user_id := User.id usr;
              ScanHistory.serial_number := serialNumber;
              ScanHistory.scan_method := method |} ;;
         ret tt)
        (fun err => console_error (lit "Error saving scan history:") err)
  end.

(** Lines 203-233. *)
Definition searchProduct (serialNumber : jsstring) : M unit :=
  try_catch
    (res <- select_product serialNumber ;;
     match error res with
     | Some searchError => throw searchError
     | None =>
         match data res with
         | Some p =>
             setScannedProduct (Some p) ;;
             setScanStatus StatusSuccess ;;
             saveScanHistory serialNumber camera ;;
             setTimeout ResetStatus 2000
         | None =>
             setScanStatus StatusError ;;
             setError (lit "Produk tidak ditemukan di database") ;;
             setScannedProduct None ;;
             setTimeout ResetStatus 2000
         end
     end)
    (fun err =>
       setScanStatus StatusError ;;
       setError (lit "Error searching product") ;;
       console_error (lit "Search error:") err).

(** Lines 249-255.  The lookup is not awaited; the cell it leaves for
    [setManualSN] is one it does not touch. *)
Definition handleManualSearch : M unit :=
  sn <- gets (fun w => State.manualSN (state w)) ;;
  if truthy (trim sn) then
    searchProduct (trim sn) ;;
    setManualSN []
  else ret tt.

(** Lines 36-55. *)
Definition loadScanners : M unit :=
  u <- gets user ;;
  match u with
  | None => ret tt
  | Some usr =>
      try_finally
        (try_catch
           (setLoadingScanners true ;;
            res <- select_active_scanners (User.id usr) ;;
            match data res with
            | Some rows => setScanners rows
            | None => ret tt
            end)
           (fun err => console_error (lit "Error loading scanners:") err))
        (setLoadingScanners false)
  end.

(** The name line 113 gives the profile: ["Camera-"] and today's date. *)
Definition scannerName_at (w : World) : jsstring :=
  lit "Camera-" ++ toLocaleDateString (env w) (now w).

(** The [deviceInfo] object of lines 107-111. *)
Definition deviceInfo_at (w : World) : DeviceInfo :=
  {| userAgent := navigator_userAgent (env w);
     platform := navigator_platform (env w);
     timestamp := now w |}.

(** The object of lines 117-124. *)
Definition registration_payload (usr : User.t) (w : World) : ScannerPayload.t :=
  {| ScannerPayload.user_id := User.id usr;
     ScannerPayload.scanner_name := scannerName_at w;
     ScannerPayload.scanner_type := lit "camera";
     ScannerPayload.device_info := JSON_stringify (env w) (deviceInfo_at w);
     ScannerPayload.is_active := true;
     ScannerPayload.last_used_at := now w |}.

(** Lines 103-134. *)
Definition registerCurrentScanner : M unit :=
  u <- gets user ;;
  match u with
  | None => ret tt
  | Some usr =>
      try_catch
        (payload <- gets (registration_payload usr) ;;
         res <- upsert_scanner payload ;;
         match error res with
         | Some insertError => throw insertError
         | None =>
             loadScanners ;;
             setShowScannerModal false
         end)
        (fun err =>
           console_error (lit "Error registering scanner:") err ;;
           setError (lit "Failed to register scanner"))
  end.

(** The decode callback of lines 161-168. *)
Definition onDecode (decodedText : jsstring) : M unit :=
  setScanStatus StatusDetecting ;;
  setTimeout (DebouncedLookup decodedText) 300.

(** The configuration of lines 156-160. *)
Definition scanConfig : ScanConfig :=
  {| fps := 10; qrbox_width := 300; qrbox_height := 300; aspectRatio := 1 |}.

(** Line 176: [err instanceof Error ? err.message : String(err)].  The
    error object of a store response is a plain object, no [Error]. *)
Definition errorMessage (err : Thrown) : jsstring :=
  match err with
  | ErrorObject m => m
  | PostgrestError _ _ => lit "[object Object]"
  | OtherValue s => s
  end.

(** Lines 136-189. *)
Definition startCamera : M unit :=
  try_catch
    (setCameraActive true ;;
     setScanStatus StatusIdle ;;
     setError [] ;;
     ensure_engine ;;
     cameras <- Html5Qrcode_getCameras ;;
     match cameras with
     | None | Some [] => throw (ErrorObject (lit "No cameras found on this device"))
     | Some cams =>
         match nth_error cams (List.length cams - 1) with
         | None => throw type_error
         | Some cam =>
             engine_start (CameraDevice.id cam) scanConfig ;;
             registerCurrentScanner
         end
     end)
    (fun err =>
       let msg := errorMessage err in
       (if includes msg (lit "camera") || includes msg (lit "permission")
           || includes msg (lit "Permission denied")
        then setError (lit "Camera permission denied. Please allow camera access in your browser settings and try again.")
        else if includes msg (lit "No cameras")
        then setError (lit "No camera found on this device. Please check your device has a working camera.")
        else setError (lit "Failed to access camera. Please check your permissions and device settings.")) ;;
       setCameraActive false ;;
       console_error (lit "Camera error:") err).

(** Line 193: [html5QrCodeRef.current && html5QrCodeRef.current.isScanning]. *)
Definition scanning (w : World) : bool :=
  match html5QrCodeRef w with
  | Some q => Html5Qrcode.isScanning q
  | None => false
  end.

(** Lines 191-201. *)
Definition stopCamera : M unit :=
  try_catch
    (r <- gets html5QrCodeRef ;;
     match r with
     | Some q => if Html5Qrcode.isScanning q then engine_stop else ret tt
     | None => ret tt
     end)
    (fun err => console_log (lit "Error stopping camera:") err) ;;
  setCameraActive false ;;
  setScanStatus StatusIdle.

Definition delete_prompt : jsstring :=
  lit "Are you sure you want to delete this scanner? This action cannot be undone.".

(** Lines 81-101. *)
Definition deleteScannerInfo (scannerId : jsstring) : M unit :=
  call (ConfirmCall delete_prompt) ;;
  ok <- gets (fun w => confirm (env w) delete_prompt) ;;
  if negb ok then ret tt
  else
    try_catch
      (uid <- gets (fun w => option_map User.id (user w)) ;;
       res <- delete_scanner scannerId uid ;;
       match error res with
       | Some deleteError => throw deleteError
       | None =>
           l <- gets (fun w => State.scanners (state w)) ;;
           setScanners (filter (fun s => negb (JS.eqb (ScannerRow.id s) scannerId)) l) ;;
           setError []
       end)
      (fun err =>
         console_error (lit "Error deleting scanner:") err ;;
         setError (lit "Failed to delete scanner")).

(** ** Timers *)

(** What a due callback does. *)
Definition fire (a : TimerAction) : M unit :=
  match a with
  | ResetStatus => setScanStatus StatusIdle
  | DebouncedLookup decodedText =>
      if truthy (trim decodedText) then searchProduct (trim decodedText)
      else ret tt
  | ClearError => setError []
  end.

(** The pending timer that is due first (the one set first, among equals),
    and the others. *)
Fixpoint next_timer (ts : list Timer) : option (Timer * list Timer) :=
  match ts with
  | [] => None
  | t :: r =>
      match next_timer r with
      | None => Some (t, [])
      | Some (t', r') =>
          if N.leb (due t) (due t') then Some (t, r) else Some (t', t :: r')
      end
  end.

(** Let the clock run to [until] with no new event: the due callbacks run
    in order, each at its due time.  [None] when [fuel] callbacks did not
    exhaust the due timers. *)
Fixpoint elapse (fuel : nat) (until : N) (w : World) : option World :=
  match next_timer (timers w) with
  | None => Some (with_now (N.max (now w) until) w)
  | Some (t, rest) =>
      if N.leb (due t) until then
        match fuel with
        | O => None
        | S fuel' =>
            elapse fuel' until
              (exec (fire (action t))
                 (with_now (N.max (now w) (due t)) (with_timers rest w)))
        end
      else Some (with_now (N.max (now w) until) w)
  end.

(** ** Concrete worlds *)

(** An environment in which nothing fails: no request faults, [confirm] is
    answered yes, one camera is enumerated. *)
Definition calm : Env := {|
  fault := fun _ => None;
  confirm := fun _ => true;
  new_Html5Qrcode := fun _ => None;
  getCameras := inr (Some [{| CameraDevice.id := lit "cam0"; CameraDevice.label := lit "Back" |}]);
  start := fun _ _ => None;
  stop := None;
  navigator_userAgent := lit "Mozilla/5.0";
  navigator_platform := lit "Linux";
  toLocaleDateString := fun _ => lit "12/9/2025";
  JSON_stringify := fun _ => lit "{}";
  gen_random_uuid := lit "00000000-0000-4000-8000-000000000001"
|}.

(** [e], but every store request fails with [err]. *)
Definition failing_store (err : Thrown) (e : Env) : Env := {|
  fault := fun _ => Some err;
  confirm := confirm e; new_Html5Qrcode := new_Html5Qrcode e;
  getCameras := getCameras e; start := start e; stop := stop e;
  navigator_userAgent := navigator_userAgent e;
  navigator_platform := navigator_platform e;
  toLocaleDateString := toLocaleDateString e;
  JSON_stringify := JSON_stringify e;
  gen_random_uuid := gen_random_uuid e
|}.

(** [e], but [getCameras] answers [r]. *)
Definition enumerating (r : Thrown + option (list CameraDevice.t)) (e : Env) : Env := {|
  fault := fault e;
  confirm := confirm e; new_Html5Qrcode := new_Html5Qrcode e;
  getCameras := r; start := start e; stop := stop e;
  navigator_userAgent := navigator_userAgent e;
  navigator_platform := navigator_platform e;
  toLocaleDateString := toLocaleDateString e;
  JSON_stringify := JSON_stringify e;
  gen_random_uuid := gen_random_uuid e
|}.

(** [e], but the engine's [stop] answers [r]. *)
Definition stopping (r : option Thrown) (e : Env) : Env := {|
  fault := fault e;
  confirm := confirm e; new_Html5Qrcode := new_Html5Qrcode e;
  getCameras := getCameras e; start := start e; stop := r;
  navigator_userAgent := navigator_userAgent e;
  navigator_platform := navigator_platform e;
  toLocaleDateString := toLocaleDateString e;
  JSON_stringify := JSON_stringify e;
  gen_random_uuid := gen_random_uuid e
|}.

(** [e], but [confirm] answers [b]. *)
Definition answering (b : bool) (e : Env) : Env := {|
  fault := fault e;
  confirm := fun _ => b; new_Html5Qrcode := new_Html5Qrcode e;
  getCameras := getCameras e; start := start e; stop := stop e;
  navigator_userAgent := navigator_userAgent e;
  navigator_platform := navigator_platform e;
  toLocaleDateString := toLocaleDateString e;
  JSON_stringify := JSON_stringify e;
  gen_random_uuid := gen_random_uuid e
|}.

Definition failed_to_fetch : Thrown := OtherValue (lit "TypeError: Failed to fetch").

Definition widget : Product.t := {|
  Product.serial_number := lit "SN-001";
  Product.product_name := lit "Widget";
  Product.product_code := lit "W-1";
  Product.packaging := lit "Box";
  Product.production_order := lit "PO-1";
  Product.production_date := lit "2025-12-09";
  Product.production_time := lit "08:00";
  Product.location := lit "A1"
|}.

Definition alice : User.t := {| User.id := lit "alice" |}.

(** The component just mounted, for user [u], over store [d]. *)
Definition mounted (e : Env) (u : option User.t) (d : Store.t) : World := {|
  state := State.initial;
  html5QrCodeRef := None;
  user := u;
  db := d;
  timers := [];
  now := 0;
  console := [];
  calls := [];
  env := e
|}.

(** Scenario A of the specification: the store holds ["SN-001"]. *)
Definition scenarioA : World :=
  exec (setManualSN (lit "SN-001"))
    (mounted calm (Some alice)
       {| Store.products := [widget]; Store.scan_history := []; Store.scanners := [] |}).

(** Scenario A, with the store unreachable. *)
Definition offline : World :=
  with_env (failing_store failed_to_fetch calm) scenarioA.

Definition empty_store : Store.t :=
  {| Store.products := []; Store.scan_history := []; Store.scanners := [] |}.

(** Three spaces. *)
Definition blank : jsstring := lit "   ".

(** Scenario C of the specification: no camera is enumerated. *)
Definition scenarioC : World :=
  mounted (enumerating (inr (Some [])) calm) (Some alice) empty_store.

Definition front_camera : CameraDevice.t :=
  {| CameraDevice.id := lit "cam-front"; CameraDevice.label := lit "Front" |}.

Definition back_camera : CameraDevice.t :=
  {| CameraDevice.id := lit "cam-back"; CameraDevice.label := lit "Back" |}.

(** A device that enumerates its front camera first and its back camera
    last. *)
Definition two_cameras : World :=
  mounted (enumerating (inr (Some [front_camera; back_camera])) calm)
    (Some alice) empty_store.

(** The camera is running, and the engine's [stop] will throw. *)
Definition stuck_camera : World :=
  with_env (stopping (Some (OtherValue (lit "Cannot stop, scanner is not running or paused."))) calm)
    (exec startCamera two_cameras).

Definition scanner_abc : ScannerRow.t := {|
  ScannerRow.id := lit "abc";
  ScannerRow.user_id := lit "alice";
  ScannerRow.scanner_name := lit "Camera-12/9/2025";
  ScannerRow.scanner_type := Some (lit "camera");
  ScannerRow.device_info := Some (lit "{}");
  ScannerRow.is_active := Some true;
  ScannerRow.created_at := Some 1000%N;
  ScannerRow.last_used_at := Some 1000%N
|}.

Definition scanner_def : ScannerRow.t := {|
  ScannerRow.id := lit "def";
  ScannerRow.user_id := lit "alice";
  ScannerRow.scanner_name := lit "Camera-12/8/2025";
  ScannerRow.scanner_type := Some (lit "camera");
  ScannerRow.device_info := Some (lit "{}");
  ScannerRow.is_active := Some true;
  ScannerRow.created_at := Some 500%N;
  ScannerRow.last_used_at := Some 500%N
|}.

Definition two_scanners : Store.t :=
  {| Store.products := []; Store.scan_history := [];
     Store.scanners := [scanner_abc; scanner_def] |}.

(** Alice has two profiles, both loaded in the view; [confirm] answers [b]. *)
Definition managing (b : bool) : World :=
  exec (setScanners [scanner_abc; scanner_def])
    (mounted (answering b calm) (Some alice) two_scanners).

(** Alice starts the camera again on the day her profile
    ["Camera-12/9/2025"] was made. *)
Definition same_day : World :=
  with_now 5000 (mounted calm (Some alice) two_scanners).
From Stdlib Require Import Sorting.Sorted Sorting.Permutation.

(** ** The effects of the component *)

(** Lines 30-34: the effect that runs when [user] is set. *)
Definition userEffect : M unit :=
  u <- gets user ;;
  match u with
  | Some _ => loadScanners
  | None => ret tt
  end.

(** Lines 257-265: the cleanup that runs when the component unmounts;
    [stop().catch(...)] logs a rejection. *)
Definition unmountCleanup : M unit :=
  r <- gets html5QrCodeRef ;;
  match r with
  | Some q =>
      if Html5Qrcode.isScanning q then
        try_catch engine_stop
          (fun err => console_log (lit "Error stopping scanner on unmount:") err)
      else ret tt
  | None => ret tt
  end.

(** ** What the component renders (lines 267-487) *)

(** The three status banners of lines 308-327. *)
Inductive Badge :=
| DetectingBadge          (* "Detecting..." *)
| BarcodeDetectedBadge    (* "Barcode Detected!" *)
| ProductNotFoundBadge.   (* "Product Not Found" *)

(** Lines 282-329: the start button, or the reader with its banners. *)
Inductive CameraPane :=
| StartButton
| QrReader (badges : list Badge).

(** Lines 451-474: the body of the scanner modal. *)
Inductive ScannerModalBody :=
| LoadingScannersText
| NoScannersText
| ScannerCards (cards : list ScannerRow.t).

Record View := {
  cameraPane : CameraPane;
  manualInput : jsstring;                               (* line 339 *)
  productCard : option Product.t;                       (* lines 353-407 *)
  errorBox : option jsstring;                           (* lines 409-413 *)
  scannerModal : option (jsstring * ScannerModalBody)   (* lines 415-485 *)
}.

Definition is_detecting (st : ScanStatus) : bool :=
  match st with StatusDetecting => true | _ => false end.

Definition is_success (st : ScanStatus) : bool :=
  match st with StatusSuccess => true | _ => false end.

Definition is_error (st : ScanStatus) : bool :=
  match st with StatusError => true | _ => false end.

Definition render (s : State.t) : View := {|
  cameraPane :=
    if negb (State.cameraActive s) then StartButton
    else QrReader
      ((if is_detecting (State.scanStatus s) then [DetectingBadge] else []) ++
       (if is_success (State.scanStatus s) then [BarcodeDetectedBadge] else []) ++
       (if is_error (State.scanStatus s) then [ProductNotFoundBadge] else []));
  manualInput := State.manualSN s;
  productCard := State.scannedProduct s;
  errorBox :=
    if truthy (State.error s) &&
       match State.scannedProduct s with None => true | Some _ => false end
    then Some (State.error s) else None;
  scannerModal :=
    if State.showScannerModal s then
      Some (State.scannerSearchInput s,
            if State.loadingScanners s then LoadingScannersText
            else match State.scanners s with
                 | [] => NoScannersText
                 | _ :: _ => ScannerCards (State.scanners s)
                 end)
    else None
|}.

(** ** The scanner search (lines 57-79) *)

Definition setScannerSearchInput (v : jsstring) : M unit :=
  modify (with_state (fun s => {|
    State.cameraActive := State.cameraActive s; State.manualSN := State.manualSN s;
    State.scannedProduct := State.scannedProduct s; State.scanStatus := State.scanStatus s;
    State.error := State.error s; State.scanners := State.scanners s;
    State.showScannerModal := State.showScannerModal s;
    State.scannerSearchInput := v;
    State.loadingScanners := State.loadingScanners s |})).

(** What the search adds to the world: the store's [ILIKE] (text, then
    pattern), the failure of a search request if any, and the search
    requests sent (user id and pattern). *)
Record Page := {
  world : World;
  ilike : jsstring -> jsstring -> bool;
  search_fault : option jsstring -> jsstring -> option Thrown;
  searches : list (option jsstring * jsstring)
}.

Definition with_world (w : World) (p : Page) : Page :=
  {| world := w; ilike := ilike p; search_fault := search_fault p;
     searches := searches p |}.

Definition with_searches (l : list (option jsstring * jsstring)) (p : Page) : Page :=
  {| world := world p; ilike := ilike p; search_fault := search_fault p;
     searches := l |}.

(** The handlers' monad, over a [Page]. *)
Definition P (A : Type) := Page -> Outcome A * Page.

Definition retP {A} (a : A) : P A := fun p => (Returned a, p).

Definition bindP {A B} (m : P A) (k : A -> P B) : P B :=
  fun p =>
    match m p with
    | (Returned a, p') => k a p'
    | (Threw e, p') => (Threw e, p')
    end.

Definition throwP {A} (e : Thrown) : P A := fun p => (Threw e, p).

Definition try_catchP {A} (body : P A) (handler : Thrown -> P A) : P A :=
  fun p =>
    match body p with
    | (Returned a, p') => (Returned a, p')
    | (Threw e, p') => handler e p'
    end.

Definition getsP {A} (f : Page -> A) : P A := fun p => (Returned (f p), p).
Definition modifyP (f : Page -> Page) : P unit := fun p => (Returned tt, f p).

(** A handler of the world, run on the page's world. *)
Definition inWorld {A} (m : M A) : P A :=
  fun p =>
    match m (world p) with
    | (r, w') => (r, with_world w' p)
    end.

Definition execP {A} (m : P A) (p : Page) : Page := snd (m p).
Definition outcomeP {A} (m : P A) (p : Page) : Outcome A := fst (m p).

Declare Scope page_scope.
Delimit Scope page_scope with page.
Notation "x <- m ;; k" := (bindP m (fun x => k))
  (at level 61, m at next level, right associativity) : page_scope.
Notation "m ;; k" := (bindP m (fun _ => k))
  (at level 61, right associativity) : page_scope.

(** [ORDER BY created_at DESC], nulls first: [a] may stand before [b]. *)
Definition created_before (a b : ScannerRow.t) : bool :=
  match ScannerRow.created_at a, ScannerRow.created_at b with
  | Some x, Some y => N.leb y x
  | None, _ => true
  | Some _, None => false
  end.

Fixpoint insert_by_created (r : ScannerRow.t) (l : list ScannerRow.t) : list ScannerRow.t :=
  match l with
  | [] => [r]
  | x :: l' => if created_before r x then r :: l else x :: insert_by_created r l'
  end.

Definition order_by_created (l : list ScannerRow.t) : list ScannerRow.t :=
  fold_right insert_by_created [] l.

(** The rows the search asks for: the user's, with a name like [pattern]. *)
Definition like_rows (p : Page) (u pattern : jsstring) : list ScannerRow.t :=
  filter (fun r => JS.eqb (ScannerRow.user_id r) u &&
                   ilike p (ScannerRow.scanner_name r) pattern)
         (Store.scanners (db (world p))).

(** [from('scanners').select('*').eq('user_id', user?.id)
    .ilike('scanner_name', pattern).order('created_at', { ascending: false })] *)
Definition select_scanners_like (uid : option jsstring) (pattern : jsstring)
  : P (Response (list ScannerRow.t)) :=
  (modifyP (fun p => with_searches (searches p ++ [(uid, pattern)]) p) ;;
   f <- getsP (fun p => search_fault p uid pattern) ;;
   match f with
   | Some e => retP {| data := None; error := Some e |}
   | None =>
       match uid with
       | None => retP {| data := None; error := Some invalid_uuid |}
       | Some u =>
           rows <- getsP (fun p => order_by_created (like_rows p u pattern)) ;;
           retP {| data := Some rows; error := None |}
       end
   end)%page.

(** The pattern of line 65 and the message of line 72, both built from
    the input as typed. *)
Definition like_pattern (searchName : jsstring) : jsstring :=
  lit "%" ++ searchName ++ lit "%".

Definition not_found_message (searchName : jsstring) : jsstring :=
  lit "Scanner " ++ [34%N] ++ searchName ++ [34%N] ++ lit " not found".

(** Lines 57-79. *)
Definition searchScannerInfo (searchName : jsstring) : P unit :=
  if negb (truthy (trim searchName)) then retP tt
  else
    try_catchP
      (uid <- getsP (fun p => option_map User.id (user (world p))) ;;
       res <- select_scanners_like uid (like_pattern searchName) ;;
       match data res with
       | Some (r :: l) =>
           inWorld (setScanners (r :: l)) ;;
           inWorld (setScannerSearchInput [])
       | _ =>
           inWorld (setError (not_found_message searchName)) ;;
           inWorld (setTimeout ClearError 3000)
       end)%page
      (fun err =>
         inWorld (console_error (lit "Error searching scanner:") err) ;;
         inWorld (setError (lit "Failed to search scanner")))%page.

(** Lines 436-443: Enter in the search box, or the Search button. *)
Definition submitScannerSearch : P unit :=
  (s <- getsP (fun p => State.scannerSearchInput (state (world p))) ;;
   searchScannerInfo s)%page.

(** A page over world [w] whose [ILIKE] is [f], with no search made yet. *)
Definition page_of (f : jsstring -> jsstring -> bool) (w : World) : Page :=
  {| world := w; ilike := f; search_fault := fun _ _ => None;
     searches := [] |}.

(** ** Names for what the handlers say and send *)

(** The messages of lines 179 and 183. *)
Definition permission_denied_message : jsstring :=
  lit "Camera permission denied. Please allow camera access in your browser settings and try again.".

Definition camera_failure_message : jsstring :=
  lit "Failed to access camera. Please check your permissions and device settings.".

(** The steps of [startCamera] before the registration, when none of them
    fails and [cameraId] is the camera chosen. *)
Definition started (cameraId : jsstring) : M unit :=
  setCameraActive true ;; setScanStatus StatusIdle ;; setError [] ;;
  ensure_engine ;; call GetCameras ;;
  call (EngineStart cameraId scanConfig) ;;
  modify (with_ref (Some {| Html5Qrcode.isScanning := true |})).

(** The user a store request is made for, when it names one. *)
Definition request_user (r : Request) : option (option jsstring) :=
  match r with
  | SelectProductBySerial _ => None
  | InsertScanHistory row => Some (Some (ScanHistory.user_id row))
  | SelectActiveScanners u => Some (Some u)
  | UpsertScanner p => Some (Some (ScannerPayload.user_id p))
  | DeleteScanner _ u => Some u
  end.

(** A call that is no store request, or a request that names no user or
    names [u]. *)
Definition for_user (u : option jsstring) (c : Call) : Prop :=
  match c with
  | StoreCall r =>
      match request_user r with
      | Some u' => u' = u
      | None => True
      end
  | _ => True
  end.

(** The rows [loadScanners] asks for: the user's, active. *)
Definition active_rows_of (u : jsstring) (rows : list ScannerRow.t) : list ScannerRow.t :=
  filter (fun r => JS.eqb (ScannerRow.user_id r) u &&
                   match ScannerRow.is_active r with
                   | Some true => true
                   | _ => false
                   end) rows.

(** ** More concrete worlds *)

Definition busy : Thrown :=
  ErrorObject (lit "Could not start video source: camera is in use").

(** [e], but the engine's [start] is rejected with [err]. *)
Definition refusing (err : Thrown) (e : Env) : Env := {|
  fault := fault e;
  confirm := confirm e; new_Html5Qrcode := new_Html5Qrcode e;
  getCameras := getCameras e; start := fun _ _ => Some err; stop := stop e;
  navigator_userAgent := navigator_userAgent e;
  navigator_platform := navigator_platform e;
  toLocaleDateString := toLocaleDateString e;
  JSON_stringify := JSON_stringify e;
  gen_random_uuid := gen_random_uuid e
|}.

(** The camera is in use by another application. *)
Definition busy_camera : World :=
  mounted (refusing busy calm) (Some alice) empty_store.

Definition scanner_bob : ScannerRow.t := {|
  ScannerRow.id := lit "b01";
  ScannerRow.user_id := lit "bob";
  ScannerRow.scanner_name := lit "Camera-12/9/2025";
  ScannerRow.scanner_type := Some (lit "camera");
  ScannerRow.device_info := None;
  ScannerRow.is_active := Some true;
  ScannerRow.created_at := Some 2000%N;
  ScannerRow.last_used_at := Some 2000%N
|}.

Definition scanner_retired : ScannerRow.t := {|
  ScannerRow.id := lit "old";
  ScannerRow.user_id := lit "alice";
  ScannerRow.scanner_name := lit "Camera-1/1/2025";
  ScannerRow.scanner_type := Some (lit "camera");
  ScannerRow.device_info := None;
  ScannerRow.is_active := Some false;
  ScannerRow.created_at := Some 10%N;
  ScannerRow.last_used_at := Some 3000%N
|}.

Definition scanner_unused : ScannerRow.t := {|
  ScannerRow.id := lit "new";
  ScannerRow.user_id := lit "alice";
  ScannerRow.scanner_name := lit "Handheld";
  ScannerRow.scanner_type := Some (lit "manual");
  ScannerRow.device_info := None;
  ScannerRow.is_active := Some true;
  ScannerRow.created_at := Some 4000%N;
  ScannerRow.last_used_at := None
|}.

(** A table with rows of two users, one of Alice's retired and one never
    used. *)
Definition shared_store : Store.t :=
  {| Store.products := [widget]; Store.scan_history := [];
     Store.scanners :=
       [scanner_unused; scanner_def; scanner_bob; scanner_retired; scanner_abc] |}.

(** Alice's component over the shared table, mounted and loaded;
    [confirm] answers [b]. *)
Definition loaded (b : bool) : World :=
  exec userEffect (mounted (answering b calm) (Some alice) shared_store).

(** An [ILIKE] good for the patterns ["%s%"] whose [s] has no wildcard
    and is written in the case of the names: the name includes [s]. *)
Definition includes_like (text pattern : jsstring) : bool :=
  includes text (removelast (tl pattern)).

(** Alice's page over the shared table, loaded. *)
Definition shared_page : Page := page_of includes_like (loaded true).

(** [e], but the date is written [s]. *)
Definition dated (s : jsstring) (e : Env) : Env := {|
  fault := fault e;
  confirm := confirm e; new_Html5Qrcode := new_Html5Qrcode e;
  getCameras := getCameras e; start := start e; stop := stop e;
  navigator_userAgent := navigator_userAgent e;
  navigator_platform := navigator_platform e;
  toLocaleDateString := fun _ => s;
  JSON_stringify := JSON_stringify e;
  gen_random_uuid := gen_random_uuid e
|}.

(** The day after Alice's last profile was made. *)
Definition next_day : World :=
  with_env (dated (lit "12/10/2025") calm) (with_now 9000 (loaded true)).

(** ** Everything that can happen to the component *)

(** The handlers of the JSX, the decode callback, the timer callbacks and
    the two effects. *)
Inductive Event :=
| ClickStart                            (* line 287 *)
| ClickStop                             (* line 300 *)
| Decoded (decodedText : jsstring)      (* line 161 *)
| TypeManual (value : jsstring)         (* line 340 *)
| SubmitManual                          (* line 336 *)
| TimerFired (callback : TimerAction)
| OpenModal                             (* line 273 *)
| CloseModal                            (* lines 421 and 477 *)
| TypeSearch (value : jsstring)         (* line 433 *)
| SubmitSearch                          (* lines 436-443 *)
| ClickDelete (scannerId : jsstring)    (* line 465 *)
| UserSet                               (* lines 30-34 *)
| Unmounted.                            (* lines 257-265 *)

Definition handle (ev : Event) : P unit :=
  match ev with
  | ClickStart => inWorld startCamera
  | ClickStop => inWorld stopCamera
  | Decoded decodedText => inWorld (onDecode decodedText)
  | TypeManual value => inWorld (setManualSN value)
  | SubmitManual => inWorld handleManualSearch
  | TimerFired callback => inWorld (fire callback)
  | OpenModal => inWorld (setShowScannerModal true)
  | CloseModal => inWorld (setShowScannerModal false)
  | TypeSearch value => inWorld (setScannerSearchInput value)
  | SubmitSearch => submitScannerSearch
  | ClickDelete scannerId => inWorld (deleteScannerInfo scannerId)
  | UserSet => inWorld userEffect
  | Unmounted => inWorld unmountCleanup
  end.

(** ** What [trim] leaves *)

(** [s] begins with a code unit that is no whitespace. *)
Definition begins_in_ink (s : jsstring) : Prop :=
  match s with
  | c :: _ => isWhiteSpace c = false
  | [] => False
  end.

(** [core] is [text] without the whitespace around it: it begins and ends
    in something that is no whitespace, and whitespace is all that stands
    before and after it in [text]. *)
Definition trimmed_to (text core : jsstring) : Prop :=
  exists l r,
    text = l ++ core ++ r /\
    Forall (fun c => isWhiteSpace c = true) l /\
    Forall (fun c => isWhiteSpace c = true) r /\
    begins_in_ink core /\ begins_in_ink (rev core).

(** ** The reader element and the engine's constructor *)

(** What the constructor of html5-qrcode throws when the page has no
    element of the id it is given. *)
Definition element_not_found : Thrown :=
  OtherValue (lit "HTML Element with id=qr-reader not found").

(** [<div id="qr-reader">] is rendered in the reader pane only (lines
    282-296).  In [w] the constructor behaves as html5-qrcode's: it throws
    when the page, as rendered from the state of [w], has no such
    element. *)
Definition constructor_needs_reader (w : World) : Prop :=
  cameraPane (render (state w)) = StartButton ->
  new_Html5Qrcode (env w) (lit "qr-reader") = Some element_not_found.

(** [e], but the constructor finds no element. *)
Definition without_reader (e : Env) : Env := {|
  fault := fault e;
  confirm := confirm e;
  new_Html5Qrcode := fun _ => Some element_not_found;
  getCameras := getCameras e; start := start e; stop := stop e;
  navigator_userAgent := navigator_userAgent e;
  navigator_platform := navigator_platform e;
  toLocaleDateString := toLocaleDateString e;
  JSON_stringify := JSON_stringify e;
  gen_random_uuid := gen_random_uuid e
|}.

(** The component as the browser shows it after mounting, on a device
    with a front and a back camera: the start button is on the page, the
    reader element is not. *)
Definition start_button_page : World :=
  mounted (without_reader (enumerating (inr (Some [front_camera; back_camera])) calm))
    (Some alice) empty_store.


(** Alice's page at time [t], after she searched for ["Tablet"], which
    none of her profiles is called, at time 0. *)
Definition searched_tablet_at (t : N) : World :=
  with_now t (world (execP (searchScannerInfo (lit "Tablet")) shared_page)).
(** ** Facts about [trim] and [includes] *)

Section StringFacts.

Lemma eqb_eq (a b : jsstring) : JS.eqb a b = true <-> a = b.
Proof.
  revert b; induction a as [|x a IH]; intros [|y b]; simpl; split;
    try congruence; try reflexivity.
  - intros H. apply andb_true_iff in H as [H1 H2].
    apply N.eqb_eq in H1. apply IH in H2. congruence.
  - intros H. injection H as -> ->. rewrite N.eqb_refl. simpl.
    apply IH. reflexivity.
Qed.

Lemma eqb_refl (a : jsstring) : JS.eqb a a = true.
Proof. apply eqb_eq. reflexivity. Qed.

Lemma trimStart_whitespace (s : jsstring) :
  Forall (fun c => isWhiteSpace c = true) s -> trimStart s = [].
Proof.
  induction 1 as [|c s Hc _ IH]; simpl; [reflexivity|].
  rewrite Hc. exact IH.
Qed.

Lemma trim_whitespace (s : jsstring) :
  Forall (fun c => isWhiteSpace c = true) s -> trim s = [].
Proof.
  intros H. unfold trim, trimEnd.
  rewrite (trimStart_whitespace H). reflexivity.
Qed.

Lemma begins_in_ink_app (s r : jsstring) :
  begins_in_ink s -> begins_in_ink (s ++ r).
Proof. destruct s; simpl; [intros [] | intros H; exact H]. Qed.

Lemma trimStart_ink (l s : jsstring) :
  Forall (fun c => isWhiteSpace c = true) l -> begins_in_ink s ->
  trimStart (l ++ s) = s.
Proof.
  intros Hl Hs. induction Hl as [|c l Hc _ IH]; simpl.
  - destruct s as [|c s]; [destruct Hs|]. simpl in *. rewrite Hs. reflexivity.
  - rewrite Hc. exact IH.
Qed.

(** [trim] gives the text without the whitespace around it. *)
Lemma trim_spec (text core : jsstring) :
  trimmed_to text core -> trim text = core.
Proof.
  intros [l [r [-> [Hl [Hr [Hb He]]]]]]. unfold trim, trimEnd.
  rewrite (@trimStart_ink l (core ++ r) Hl (@begins_in_ink_app core r Hb)).
  rewrite rev_app_distr.
  rewrite (@trimStart_ink (rev r) (rev core) (Forall_rev Hr) He).
  apply rev_involutive.
Qed.

Lemma trimStart_split (s : jsstring) :
  exists l, s = l ++ trimStart s /\
            Forall (fun c => isWhiteSpace c = true) l /\
            (trimStart s = [] \/ begins_in_ink (trimStart s)).
Proof.
  induction s as [|c s [l [E [Hl H]]]]; simpl.
  - exists []. repeat split; [constructor | left; reflexivity].
  - destruct (isWhiteSpace c) eqn:Ec.
    + exists (c :: l). split; [simpl; rewrite <- E; reflexivity|].
      split; [constructor; assumption | exact H].
    + exists []. split; [reflexivity|]. split; [constructor|].
      right. exact Ec.
Qed.

(** Every text is whitespace only, or has a core that [trim] leaves. *)
Lemma trim_cases (text : jsstring) :
  Forall (fun c => isWhiteSpace c = true) text \/ trimmed_to text (trim text).
Proof.
  destruct (trimStart_split text) as [l [E [Hl [H | H]]]].
  - left. rewrite E, H, app_nil_r. exact Hl.
  - right. unfold trim, trimEnd.
    destruct (trimStart_split (rev (trimStart text))) as [r [Er [Hr [H' | H']]]].
    + rewrite H', app_nil_r in Er.
      assert (Hall : Forall (fun c => isWhiteSpace c = true) (trimStart text)).
      { rewrite <- (rev_involutive (trimStart text)), Er. apply Forall_rev, Hr. }
      destruct (trimStart text) as [|c s]; [destruct H|].
      simpl in H. inversion Hall; congruence.
    + exists l, (rev r). split.
      * rewrite <- rev_app_distr, <- Er, rev_involutive. exact E.
      * split; [exact Hl|]. split; [apply Forall_rev, Hr|].
        split; [|rewrite rev_involutive; exact H'].
        set (t := trimStart (rev (trimStart text))) in *.
        assert (Et : trimStart text = rev t ++ rev r).
        { rewrite <- rev_app_distr, <- Er, rev_involutive. reflexivity. }
        destruct (rev t) as [|a u] eqn:Eu.
        -- apply (f_equal (@rev N)) in Eu. rewrite rev_involutive in Eu.
           rewrite Eu in H'. destruct H'.
        -- rewrite Et in H. simpl in H. exact H.
Qed.

Lemma startsWith_app (s p : jsstring) :
  startsWith s p = true <-> exists r, s = p ++ r.
Proof.
  revert s; induction p as [|y p IH]; intros s; simpl.
  - split; [intros _; exists s; reflexivity | reflexivity].
  - destruct s as [|x s].
    + split; [discriminate | intros [r Hr]; discriminate].
    + rewrite andb_true_iff, N.eqb_eq, IH. split.
      * intros [-> [r ->]]. exists r. reflexivity.
      * intros [r Hr]. injection Hr as -> ->. split; [reflexivity|].
        exists r. reflexivity.
Qed.

Lemma includes_app (s p : jsstring) :
  includes s p = true <-> exists l r, s = l ++ p ++ r.
Proof.
  induction s as [|x s IH].
  - simpl. rewrite orb_false_r, startsWith_app. split.
    + intros [r Hr]. exists [], r. exact Hr.
    + intros [l [r Hr]]. destruct l as [|? ?]; [|discriminate].
      exists r. exact Hr.
  - cbn [includes]. rewrite orb_true_iff, startsWith_app, IH. split.
    + intros [[r Hr] | [l [r Hr]]].
      * exists [], r. exact Hr.
      * exists (x :: l), r. rewrite Hr. reflexivity.
    + intros [[|y l] [r Hr]].
      * left. exists r. exact Hr.
      * right. injection Hr as _ Hr. exists l, r. exact Hr.
Qed.

(** A string that includes [a ++ p ++ b] includes [p]. *)
Lemma includes_infix (s a p b : jsstring) :
  includes s (a ++ p ++ b) = true -> includes s p = true.
Proof.
  rewrite !includes_app. intros [l [r ->]].
  exists (l ++ a), (b ++ r). rewrite <- !app_assoc. reflexivity.
Qed.

End StringFacts.

(** * Properties *)

(** Unfold the handlers down to functions on worlds. *)
Ltac handlers :=
  unfold handleManualSearch, searchProduct, saveScanHistory, startCamera,
    stopCamera, deleteScannerInfo, registerCurrentScanner, loadScanners,
    onDecode, fire,
    select_product, insert_scan_history, select_active_scanners,
    upsert_scanner, delete_scanner, issue,
    ensure_engine, Html5Qrcode_getCameras, engine_start, engine_stop,
    setTimeout, console_error, console_log, call,
    setCameraActive, setManualSN, setScannedProduct, setScanStatus, setError,
    setScanners, setShowScannerModal, setLoadingScanners,
    try_catch, try_finally, bind, ret, throw, gets, modify, exec, outcome.

(** The same for the handlers of the page. *)
Ltac page_handlers :=
  unfold handle, submitScannerSearch, searchScannerInfo, select_scanners_like,
    try_catchP, bindP, retP, throwP, getsP, modifyP, inWorld, execP, outcomeP;
  handlers; unfold userEffect, unmountCleanup, setScannerSearchInput, modify.

(** Case analysis on the innermost scrutinee of the goal. *)
Ltac split_match :=
  match goal with
  | |- context [match ?x with _ => _ end] =>
      lazymatch x with
      | context [match _ with _ => _ end] => fail
      | _ => destruct x eqn:?
      end
  end.

(** ** The three outcomes of [searchProduct] *)

Section SearchProduct.

Variable w : World.
Variable serialNumber : jsstring.

(** A failed query: the [catch] block, and nothing else, runs. *)
Lemma searchProduct_fault (e : Thrown) :
  fault (env w) (SelectProductBySerial serialNumber) = Some e ->
  searchProduct serialNumber w =
  (call (StoreCall (SelectProductBySerial serialNumber)) ;;
   setScanStatus StatusError ;;
   setError (lit "Error searching product") ;;
   console_error (lit "Search error:") e) w.
Proof.
  intros H. handlers. cbn. rewrite H. reflexivity.
Qed.

(** No row: the not-found branch. *)
Lemma searchProduct_absent :
  fault (env w) (SelectProductBySerial serialNumber) = None ->
  matching serialNumber (db w) = [] ->
  searchProduct serialNumber w =
  (call (StoreCall (SelectProductBySerial serialNumber)) ;;
   setScanStatus StatusError ;;
   setError (lit "Produk tidak ditemukan di database") ;;
   setScannedProduct None ;;
   setTimeout ResetStatus 2000) w.
Proof.
  intros H Hm. handlers. cbn. rewrite H. cbn. rewrite Hm. reflexivity.
Qed.

(** One row: the success branch. *)
Lemma searchProduct_found (p : Product.t) :
  fault (env w) (SelectProductBySerial serialNumber) = None ->
  matching serialNumber (db w) = [p] ->
  searchProduct serialNumber w =
  (call (StoreCall (SelectProductBySerial serialNumber)) ;;
   setScannedProduct (Some p) ;;
   setScanStatus StatusSuccess ;;
   saveScanHistory serialNumber camera ;;
   setTimeout ResetStatus 2000) w.
Proof.
  intros H Hm. handlers. cbn. rewrite H. cbn. rewrite Hm. cbn.
  destruct (user w) as [usr|]; cbn; [|reflexivity].
  destruct (fault (env w) (InsertScanHistory _)); reflexivity.
Qed.

(** Whatever the outcome, the first call of a lookup is the product query. *)
Lemma searchProduct_calls :
  exists rest,
    calls (exec (searchProduct serialNumber) w) =
    calls w ++ StoreCall (SelectProductBySerial serialNumber) :: rest.
Proof.
  handlers. cbn.
  destruct (fault (env w) (SelectProductBySerial serialNumber)); cbn.
  { eexists. reflexivity. }
  destruct (matching serialNumber (db w)) as [|p [|q l]]; cbn;
    try (eexists; reflexivity).
  destruct (user w) as [usr|]; cbn; [|eexists; reflexivity].
  destruct (fault (env w) (InsertScanHistory _)); cbn;
    rewrite <- app_assoc; eexists; reflexivity.
Qed.

(** A lookup leaves at most its own reset timer behind, due 2 seconds on. *)
Lemma searchProduct_timers :
  timers (exec (searchProduct serialNumber) w) = timers w \/
  timers (exec (searchProduct serialNumber) w) =
    timers w ++ [{| due := now w + 2000; action := ResetStatus |}].
Proof.
  handlers. cbn.
  destruct (fault (env w) (SelectProductBySerial serialNumber)); cbn.
  { left. reflexivity. }
  destruct (matching serialNumber (db w)) as [|p [|q l]]; cbn;
    try (right; reflexivity); try (left; reflexivity).
  destruct (user w) as [usr|]; cbn; [|right; reflexivity].
  destruct (fault (env w) (InsertScanHistory _)); cbn; right; reflexivity.
Qed.

Lemma searchProduct_now :
  now (exec (searchProduct serialNumber) w) = now w.
Proof.
  handlers. cbn.
  destruct (fault (env w) (SelectProductBySerial serialNumber)); cbn.
  { reflexivity. }
  destruct (matching serialNumber (db w)) as [|p [|q l]]; cbn;
    try reflexivity.
  destruct (user w) as [usr|]; cbn; [|reflexivity].
  destruct (fault (env w) (InsertScanHistory _)); reflexivity.
Qed.

End SearchProduct.

(** ** Lookup on a present serial *)

(** C1, as the code has it: a manual search of a serial that the product
    store holds ends in status [success] with the stored record displayed
    and appends exactly one history row, but the method of that row is
    [camera], the constant of line 216, and not [manual]: [searchProduct]
    takes no method tag. *)
Theorem manual_search_records_camera (w : World) (usr : User.t) (p : Product.t) :
  let sn := trim (State.manualSN (state w)) in
  user w = Some usr ->
  truthy sn = true ->
  (forall r, fault (env w) r = None) ->
  matching sn (db w) = [p] ->
  let w' := exec handleManualSearch w in
  State.scanStatus (state w') = StatusSuccess /\
  State.scannedProduct (state w') = Some p /\
  Store.scan_history (db w') =
    Store.scan_history (db w) ++
    [{| ScanHistory.user_id := User.id usr;
        ScanHistory.serial_number := sn;
        ScanHistory.scan_method := camera |}] /\
  ScanHistory.scan_method
    {| ScanHistory.user_id := User.id usr;
       ScanHistory.serial_number := sn;
       ScanHistory.scan_method := camera |} <> manual.
Proof.
  intros sn Hu Hsn Hf Hm w'.
  assert (E : w' = exec (searchProduct sn ;; setManualSN []) w).
  { subst w'. unfold handleManualSearch, exec, bind at 1, gets. fold sn.
    rewrite Hsn. reflexivity. }
  unfold exec, bind in E. rewrite (@searchProduct_found w sn p (Hf _) Hm) in E.
  clearbody sn w'. subst w'. handlers. cbn. rewrite Hu. cbn.
  rewrite Hf. cbn.
  split; [reflexivity|]. split; [reflexivity|]. split; [reflexivity|].
  discriminate.
Qed.

(** Scenario A: ["SN-001"] named ["Widget"], searched by hand. *)
Lemma manual_search_records_camera_scenarioA :
  let w' := exec handleManualSearch scenarioA in
  State.scanStatus (state w') = StatusSuccess /\
  State.scannedProduct (state w') = Some widget /\
  Store.scan_history (db w') =
    [{| ScanHistory.user_id := lit "alice";
        ScanHistory.serial_number := lit "SN-001";
        ScanHistory.scan_method := camera |}] /\
  camera <> manual.
Proof.
  apply (@manual_search_records_camera scenarioA alice widget);
    try reflexivity.
Defined.

(** ** Timers *)

Lemma elapse_no_timer (fuel : nat) (t : N) (w : World) :
  timers w = [] ->
  elapse fuel t w = Some (with_now (N.max (now w) t) w).
Proof.
  intros H. destruct fuel; simpl; rewrite H; reflexivity.
Qed.

(** One pending timer that is not yet due: nothing runs. *)
Lemma elapse_too_early (fuel : nat) (t : N) (w : World) (tm : Timer) :
  timers w = [tm] -> (t < due tm)%N ->
  elapse fuel t w = Some (with_now (N.max (now w) t) w).
Proof.
  intros H Hlt.
  assert (N.leb (due tm) t = false) as E by (apply N.leb_gt; exact Hlt).
  destruct fuel; simpl; rewrite H; simpl; rewrite E; reflexivity.
Qed.

(** One pending timer that is due: its callback runs at its due time, then
    the clock goes on. *)
Lemma elapse_one_due (fuel : nat) (t : N) (w : World) (tm : Timer) :
  timers w = [tm] -> (due tm <= t)%N ->
  elapse (S fuel) t w =
  elapse fuel t
    (exec (fire (action tm)) (with_now (N.max (now w) (due tm)) (with_timers [] w))).
Proof.
  intros H Hle.
  assert (N.leb (due tm) t = true) as E by (apply N.leb_le; exact Hle).
  simpl. rewrite H. simpl. rewrite E. reflexivity.
Qed.

Lemma next_timer_In (ts : list Timer) (t : Timer) (r : list Timer) :
  next_timer ts = Some (t, r) -> In t ts.
Proof.
  revert t r. induction ts as [|x ts IH]; intros t r H; [discriminate|].
  simpl in H. destruct (next_timer ts) as [[t' r']|].
  - destruct (N.leb (due x) (due t')); injection H as <- <-.
    + left. reflexivity.
    + right. apply (IH t' r'). reflexivity.
  - injection H as <- <-. left. reflexivity.
Qed.

(** A head that is due no later than the others is the next to fire. *)
Lemma next_timer_head (t : Timer) (r : list Timer) :
  (forall t', In t' r -> (due t <= due t')%N) ->
  next_timer (t :: r) = Some (t, r).
Proof.
  intros H. simpl. destruct (next_timer r) as [[t' r']|] eqn:E.
  - apply next_timer_In in E as Hin.
    apply H, N.leb_le in Hin. rewrite Hin. reflexivity.
  - destruct r as [|x r]; [reflexivity|]. simpl in E.
    destruct (next_timer r) as [[t' r']|]; [|discriminate].
    destruct (N.leb (due x) (due t')); discriminate.
Qed.

Lemma elapse_head_due (fuel : nat) (t : N) (w : World) (tm : Timer) (r : list Timer) :
  timers w = tm :: r ->
  (forall t', In t' r -> (due tm <= due t')%N) ->
  (due tm <= t)%N ->
  elapse (S fuel) t w =
  elapse fuel t
    (exec (fire (action tm)) (with_now (N.max (now w) (due tm)) (with_timers r w))).
Proof.
  intros H Hmin Hle.
  assert (N.leb (due tm) t = true) as E by (apply N.leb_le; exact Hle).
  simpl. rewrite H, (next_timer_head tm r Hmin). simpl. rewrite E. reflexivity.
Qed.

Lemma elapse_none_due (fuel : nat) (t : N) (w : World) :
  (forall tm, In tm (timers w) -> (t < due tm)%N) ->
  elapse fuel t w = Some (with_now (N.max (now w) t) w).
Proof.
  intros H.
  destruct (next_timer (timers w)) as [[tm r]|] eqn:E.
  - apply next_timer_In in E as Hin. apply H, N.leb_gt in Hin.
    destruct fuel; simpl; rewrite E, Hin; reflexivity.
  - destruct fuel; simpl; rewrite E; reflexivity.
Qed.

Lemma next_timer_None (ts : list Timer) : next_timer ts = None -> ts = [].
Proof.
  destruct ts as [|x ts]; [reflexivity|]. simpl.
  destruct (next_timer ts) as [[u r]|]; [|discriminate].
  destruct (N.leb (due x) (due u)); discriminate.
Qed.

(** The next timer to fire is due no later than any other. *)
Lemma next_timer_min (ts : list Timer) (t : Timer) (r : list Timer) :
  next_timer ts = Some (t, r) ->
  forall t', In t' ts -> (due t <= due t')%N.
Proof.
  revert t r. induction ts as [|x ts IH]; intros t r H t' Hin; [destruct Hin|].
  simpl in H. destruct (next_timer ts) as [[u r']|] eqn:E.
  - destruct (N.leb (due x) (due u)) eqn:L; injection H as <- <-.
    + apply N.leb_le in L. destruct Hin as [<- | Hin]; [lia|].
      pose proof (IH u r' eq_refl t' Hin). lia.
    + apply N.leb_gt in L. destruct Hin as [<- | Hin]; [lia|].
      apply (IH u r' eq_refl t' Hin).
  - rewrite (next_timer_None _ E) in *. injection H as <- <-.
    destruct Hin as [<- | []]. lia.
Qed.

(** Taking the next timer out keeps the others, each once. *)
Lemma next_timer_perm (ts : list Timer) (t : Timer) (r : list Timer) :
  next_timer ts = Some (t, r) ->
  (forall x, In x ts <-> x = t \/ In x r) /\
  forall f : Timer -> bool,
    List.length (filter f ts) = List.length (filter f (t :: r)).
Proof.
  revert t r. induction ts as [|x ts IH]; intros t r H; [discriminate|].
  simpl in H. destruct (next_timer ts) as [[u r']|] eqn:E.
  - destruct (IH u r' eq_refl) as [Hin Hlen].
    destruct (N.leb (due x) (due u)); injection H as <- <-.
    + split; [intros y; simpl; intuition congruence | reflexivity].
    + split.
      * intros y. simpl. rewrite Hin. intuition congruence.
      * intros f. simpl. specialize (Hlen f). simpl in Hlen.
        destruct (f x), (f u); simpl in *; lia.
  - rewrite (next_timer_None _ E) in *. injection H as <- <-.
    split; [|reflexivity].
    intros y. simpl. split; (intros [-> | []]; left; reflexivity).
Qed.

(** What firing a timer callback adds: calls at the end of the calls made,
    among them the product query of a decode with something to look up,
    and at most the reset timer of a lookup; the clock stands still. *)
Lemma fire_adds (a : TimerAction) (v : World) :
  let v' := exec (fire a) v in
  now v' = now v /\
  (timers v' = timers v \/
   timers v' = timers v ++ [{| due := now v + 2000; action := ResetStatus |}]) /\
  exists sent,
    calls v' = calls v ++ sent /\
    forall decodedText,
      a = DebouncedLookup decodedText -> truthy (trim decodedText) = true ->
      exists rest,
        sent = StoreCall (SelectProductBySerial (trim decodedText)) :: rest.
Proof.
  destruct a as [|decodedText|]; cbn [fire].
  - cbv zeta. split; [reflexivity|]. split; [left; reflexivity|].
    exists []. split; [symmetry; apply app_nil_r|]. intros t H. discriminate.
  - destruct (truthy (trim decodedText)) eqn:E.
    + cbv zeta. split; [apply searchProduct_now|].
      split; [apply searchProduct_timers|].
      destruct (searchProduct_calls v (trim decodedText)) as [rest Hc].
      eexists. split; [exact Hc|].
      intros t Ht _. injection Ht as <-. exists rest. reflexivity.
    + cbv zeta. split; [reflexivity|]. split; [left; reflexivity|].
      exists []. split; [symmetry; apply app_nil_r|].
      intros t Ht Htr. injection Ht as <-. congruence.
  - cbv zeta. split; [reflexivity|]. split; [left; reflexivity|].
    exists []. split; [symmetry; apply app_nil_r|]. intros t H. discriminate.
Qed.

(** Whatever is pending, given a turn for each timer that is due, the
    clock reaches a time less than 2 seconds ahead, every due callback has
    run by then, and every decode among them that had something to look up
    has sent its product query. *)
Lemma elapse_fires_due (n : nat) :
  forall (v : World) (t : N),
    (t < now v + 2000)%N ->
    List.length (filter (fun tm => N.leb (due tm) t) (timers v)) <= n ->
    exists v2 sent,
      elapse n t v = Some v2 /\
      calls v2 = calls v ++ sent /\
      forall tm decodedText,
        In tm (timers v) -> (due tm <= t)%N ->
        action tm = DebouncedLookup decodedText ->
        truthy (trim decodedText) = true ->
        In (StoreCall (SelectProductBySerial (trim decodedText))) sent.
Proof.
  induction n as [|n IH]; intros v t Ht Hn.
  - exists (with_now (N.max (now v) t) v), []. split; [|split].
    + apply elapse_none_due. intros tm Hin.
      destruct (N.leb (due tm) t) eqn:L; [|apply N.leb_gt; exact L].
      assert (In tm (filter (fun tm => N.leb (due tm) t) (timers v)))
        by (apply filter_In; split; assumption).
      destruct (filter _ (timers v)); [contradiction | simpl in Hn; lia].
    + symmetry. apply app_nil_r.
    + intros tm d Hin Hd _ _. apply N.leb_le in Hd.
      assert (In tm (filter (fun tm => N.leb (due tm) t) (timers v)))
        by (apply filter_In; split; assumption).
      destruct (filter _ (timers v)); [contradiction | simpl in Hn; lia].
  - destruct (next_timer (timers v)) as [[tm r]|] eqn:E.
    + destruct (N.leb (due tm) t) eqn:L.
      * destruct (next_timer_perm _ E) as [Hin Hlen].
        specialize (Hlen (fun tm => N.leb (due tm) t)).
        simpl in Hlen. rewrite L in Hlen. simpl in Hlen.
        destruct (fire_adds (action tm)
                    (with_now (N.max (now v) (due tm)) (with_timers r v)))
          as [Hnow [Htm [sent0 [Hc0 Hq]]]].
        set (v' := exec (fire (action tm))
                     (with_now (N.max (now v) (due tm)) (with_timers r v))) in *.
        cbn [now timers calls with_now with_timers] in Hnow, Htm, Hc0.
        assert (Hcount : List.length (filter (fun tm => N.leb (due tm) t) (timers v')) <= n).
        { destruct Htm as [-> | ->].
          - lia.
          - rewrite filter_app, length_app. cbn.
            replace (N.leb (N.max (now v) (due tm) + 2000) t) with false
              by (symmetry; apply N.leb_gt; lia).
            simpl. lia. }
        destruct (IH v' t) as [v2 [sent [He [Hc Hall]]]];
          [rewrite Hnow; lia | exact Hcount |].
        exists v2, (sent0 ++ sent). split; [|split].
        -- simpl. rewrite E, L. exact He.
        -- rewrite Hc, Hc0. symmetry. apply app_assoc.
        -- intros tm' d Hin' Hd Ha Htr. apply in_or_app.
           apply Hin in Hin'. destruct Hin' as [-> | Hin'].
           ++ left. destruct (Hq d Ha Htr) as [rest ->]. left. reflexivity.
           ++ right. apply (Hall tm' d); try assumption.
              destruct Htm as [-> | ->];
                [exact Hin' | apply in_or_app; left; exact Hin'].
      * exists (with_now (N.max (now v) t) v), []. split; [|split].
        -- simpl. rewrite E, L. reflexivity.
        -- symmetry. apply app_nil_r.
        -- intros tm' d Hin' Hd _ _. apply N.leb_gt in L.
           pose proof (next_timer_min _ E tm' Hin'). lia.
    + exists (with_now (N.max (now v) t) v), []. split; [|split].
      * simpl. rewrite E. reflexivity.
      * symmetry. apply app_nil_r.
      * intros tm' d Hin' _ _ _.
        rewrite (next_timer_None _ E) in Hin'. destruct Hin'.
Qed.

(** ** The automatic return to [idle] *)

(** C3, as the code has it: when the product query fails, the [catch]
    block of [searchProduct] sets status [error] and sets no timer, so with
    no further decode or search the status is still [error] after 2
    seconds, and after any time at all; the found and not-found branches
    are the ones that set the 2-second reset. *)
Theorem failed_query_never_returns_to_idle
    (w : World) (serialNumber : jsstring) (e : Thrown) (fuel : nat) (t : N) :
  fault (env w) (SelectProductBySerial serialNumber) = Some e ->
  timers w = [] ->
  let w1 := exec (searchProduct serialNumber) w in
  State.scanStatus (state w1) = StatusError /\
  timers w1 = [] /\
  exists w2, elapse fuel t w1 = Some w2 /\
             State.scanStatus (state w2) = StatusError.
Proof.
  intros Hf Ht w1.
  assert (E : w1 = exec (call (StoreCall (SelectProductBySerial serialNumber)) ;;
                         setScanStatus StatusError ;;
                         setError (lit "Error searching product") ;;
                         console_error (lit "Search error:") e) w).
  { subst w1. unfold exec. rewrite (searchProduct_fault w serialNumber Hf).
    reflexivity. }
  clearbody w1. subst w1. handlers. cbn.
  split; [reflexivity|]. split; [exact Ht|].
  eexists. split.
  - apply elapse_no_timer. exact Ht.
  - reflexivity.
Qed.

(** The store is unreachable when ["SN-001"] is searched. *)
Lemma failed_query_never_returns_to_idle_offline :
  let w1 := exec (searchProduct (lit "SN-001")) offline in
  State.scanStatus (state w1) = StatusError /\
  timers w1 = [] /\
  exists w2, elapse 5 2000 w1 = Some w2 /\
             State.scanStatus (state w2) = StatusError.
Proof.
  apply (@failed_query_never_returns_to_idle offline (lit "SN-001")
           failed_to_fetch 5 2000);
    reflexivity.
Defined.

(** The found and the not-found branch both set the reset timer. *)
Lemma found_or_absent_sets_reset (w : World) (serialNumber : jsstring) :
  fault (env w) (SelectProductBySerial serialNumber) = None ->
  List.length (matching serialNumber (db w)) <= 1 ->
  timers (exec (searchProduct serialNumber) w) =
  timers w ++ [{| due := now w + 2000; action := ResetStatus |}].
Proof.
  intros Hf Hm.
  destruct (matching serialNumber (db w)) as [|p [|q l]] eqn:E.
  - unfold exec. rewrite (searchProduct_absent w serialNumber Hf E).
    reflexivity.
  - unfold exec. rewrite (searchProduct_found w serialNumber Hf E).
    handlers. cbn. destruct (user w); cbn; [|reflexivity].
    destruct (fault (env w) (InsertScanHistory _)); reflexivity.
  - simpl in Hm. lia.
Qed.

(** C10: the callback of the reset timer sets the scan status to [idle]
    and leaves the displayed product and the error message alone, in any
    world.  After a lookup that found product [p], made with no timer
    pending (none of a decode, of an earlier lookup or of a scanner
    search), it fires 2 seconds later: the status is then [idle], the
    displayed product is still [p], and the error message and every other
    cell of the component are as the lookup left them, as are the store,
    the console and the calls made. *)
Theorem reset_after_success_keeps_product
    (w : World) (serialNumber : jsstring) (p : Product.t) :
  fault (env w) (SelectProductBySerial serialNumber) = None ->
  matching serialNumber (db w) = [p] ->
  timers w = [] ->
  let w1 := exec (searchProduct serialNumber) w in
  (forall w0,
     State.scanStatus (state (exec (fire ResetStatus) w0)) = StatusIdle /\
     State.scannedProduct (state (exec (fire ResetStatus) w0)) =
       State.scannedProduct (state w0) /\
     State.error (state (exec (fire ResetStatus) w0)) = State.error (state w0)) /\
  State.scanStatus (state w1) = StatusSuccess /\
  exists w2,
    elapse 1 (now w + 2000) w1 = Some w2 /\
    State.scanStatus (state w2) = StatusIdle /\
    State.scannedProduct (state w2) = Some p /\
    State.scannedProduct (state w2) = State.scannedProduct (state w1) /\
    State.error (state w2) = State.error (state w1) /\
    State.cameraActive (state w2) = State.cameraActive (state w1) /\
    State.manualSN (state w2) = State.manualSN (state w1) /\
    State.scanners (state w2) = State.scanners (state w1) /\
    State.showScannerModal (state w2) = State.showScannerModal (state w1) /\
    State.scannerSearchInput (state w2) = State.scannerSearchInput (state w1) /\
    State.loadingScanners (state w2) = State.loadingScanners (state w1) /\
    db w2 = db w1 /\ console w2 = console w1 /\ calls w2 = calls w1 /\
    html5QrCodeRef w2 = html5QrCodeRef w1 /\ timers w2 = [].
Proof.
  intros Hf Hm Ht w1.
  assert (Hnow : now w1 = now w) by apply searchProduct_now.
  assert (Htm : timers w1 = [{| due := now w + 2000; action := ResetStatus |}]).
  { subst w1. rewrite found_or_absent_sets_reset, Ht; try assumption.
    - reflexivity.
    - rewrite Hm. simpl. lia. }
  assert (Hst : State.scanStatus (state w1) = StatusSuccess /\
                State.scannedProduct (state w1) = Some p).
  { subst w1. unfold exec. rewrite (searchProduct_found w serialNumber Hf Hm).
    handlers. cbn. destruct (user w); cbn.
    - destruct (fault (env w) (InsertScanHistory _)); split; reflexivity.
    - split; reflexivity. }
  destruct Hst as [Hs Hp].
  split; [intros w0; repeat split; reflexivity|].
  split; [exact Hs|].
  clearbody w1.
  eexists. split.
  - rewrite (elapse_one_due 0 w1 Htm); [|simpl; lia].
    apply elapse_no_timer. reflexivity.
  - cbn. rewrite Hp. repeat split; reflexivity.
Qed.

Lemma reset_after_success_keeps_product_scenarioA :
  let w1 := exec (searchProduct (lit "SN-001")) scenarioA in
  (forall w0,
     State.scanStatus (state (exec (fire ResetStatus) w0)) = StatusIdle /\
     State.scannedProduct (state (exec (fire ResetStatus) w0)) =
       State.scannedProduct (state w0) /\
     State.error (state (exec (fire ResetStatus) w0)) = State.error (state w0)) /\
  State.scanStatus (state w1) = StatusSuccess /\
  exists w2,
    elapse 1 2000 w1 = Some w2 /\
    State.scanStatus (state w2) = StatusIdle /\
    State.scannedProduct (state w2) = Some widget /\
    State.scannedProduct (state w2) = State.scannedProduct (state w1) /\
    State.error (state w2) = State.error (state w1) /\
    State.cameraActive (state w2) = State.cameraActive (state w1) /\
    State.manualSN (state w2) = State.manualSN (state w1) /\
    State.scanners (state w2) = State.scanners (state w1) /\
    State.showScannerModal (state w2) = State.showScannerModal (state w1) /\
    State.scannerSearchInput (state w2) = State.scannerSearchInput (state w1) /\
    State.loadingScanners (state w2) = State.loadingScanners (state w1) /\
    db w2 = db w1 /\ console w2 = console w1 /\ calls w2 = calls w1 /\
    html5QrCodeRef w2 = html5QrCodeRef w1 /\ timers w2 = [].
Proof.
  apply (@reset_after_success_keeps_product scenarioA (lit "SN-001") widget);
    reflexivity.
Defined.

(** ** The decode callback *)

(** The deferred callback of a whitespace-only text does nothing. *)
Lemma fire_blank (w : World) (decodedText : jsstring) :
  Forall (fun c => isWhiteSpace c = true) decodedText ->
  fire (DebouncedLookup decodedText) w = (Returned tt, w).
Proof.
  intros H. unfold fire. rewrite (trim_whitespace H). reflexivity.
Qed.

(** C5, as the claim states it, fails: a decode callback that carries three
    spaces finds the session [idle] and leaves it [detecting], at the very
    instant of the callback, with the 300 ms timer still pending. *)
Lemma blank_decode_leaves_idle :
  let w0 := mounted calm (Some alice) empty_store in
  let w1 := exec (onDecode blank) w0 in
  Forall (fun c => isWhiteSpace c = true) blank /\
  State.scanStatus (state w0) = StatusIdle /\
  State.scanStatus (state w1) <> StatusIdle /\
  now w1 = now w0 /\
  timers w1 = [{| due := 300; action := DebouncedLookup blank |}].
Proof.
  cbn. split; [repeat constructor|].
  split; [reflexivity|]. split; [discriminate|]. split; reflexivity.
Qed.

(** C6: a decode callback issues no lookup itself; it sets one timer, due a
    fixed 300 ms later.  When that timer fires, in whatever world, a text
    whose core (the text without the whitespace around it) is [core] is
    looked up by [core], the product query being the first call made, and
    a text of whitespace only is dropped; every text is of one of the two
    kinds.  Whatever else is pending, the query of [core] has been sent
    when the clock reaches 300 ms after the decode.  With nothing else
    pending, nothing is sent to the store before the 300 ms are over, the
    query is the first call made when they are, and for whitespace only no
    call is ever made. *)
Theorem decode_defers_lookup_300ms (w : World) (decodedText : jsstring) :
  let w1 := exec (onDecode decodedText) w in
  let pending := {| due := now w + 300; action := DebouncedLookup decodedText |} in
  calls w1 = calls w /\
  db w1 = db w /\
  timers w1 = timers w ++ [pending] /\
  (forall core w', trimmed_to decodedText core ->
     fire (action pending) w' = searchProduct core w' /\
     exists rest,
       calls (exec (fire (action pending)) w') =
       calls w' ++ StoreCall (SelectProductBySerial core) :: rest) /\
  (Forall (fun c => isWhiteSpace c = true) decodedText ->
   forall w', fire (action pending) w' = (Returned tt, w')) /\
  (forall core, trimmed_to decodedText core ->
     exists w2 sent,
       elapse (S (List.length (timers w))) (now w + 300) w1 = Some w2 /\
       calls w2 = calls w ++ sent /\
       In (StoreCall (SelectProductBySerial core)) sent) /\
  (Forall (fun c => isWhiteSpace c = true) decodedText \/
   exists core, trimmed_to decodedText core) /\
  (timers w = [] ->
   (forall fuel t, (t < now w + 300)%N ->
      exists w2, elapse fuel t w1 = Some w2 /\ calls w2 = calls w /\ db w2 = db w) /\
   (forall core, trimmed_to decodedText core ->
      exists w2 rest,
        elapse 1 (now w + 300) w1 = Some w2 /\
        calls w2 = calls w ++ StoreCall (SelectProductBySerial core) :: rest) /\
   (Forall (fun c => isWhiteSpace c = true) decodedText ->
      forall fuel t,
        exists w2, elapse (S fuel) t w1 = Some w2 /\
                   calls w2 = calls w /\ db w2 = db w /\
                   ((now w + 300 <= t)%N -> timers w2 = []))).
Proof.
  intros w1 pending.
  assert (Hc : calls w1 = calls w) by reflexivity.
  assert (Hd : db w1 = db w) by reflexivity.
  assert (Hn : now w1 = now w) by reflexivity.
  assert (Ht : timers w1 = timers w ++ [pending]) by reflexivity.
  assert (Hink : forall core, trimmed_to decodedText core ->
                   trim decodedText = core /\ truthy core = true).
  { intros core Hcore. split; [apply trim_spec; exact Hcore|].
    destruct Hcore as [_ [_ [_ [_ [_ [Hb _]]]]]].
    destruct core; [destruct Hb | reflexivity]. }
  clearbody w1.
  split; [exact Hc|]. split; [exact Hd|]. split; [exact Ht|].
  split; [|split; [|split; [|split]]].
  - intros core w' Hcore. destruct (Hink core Hcore) as [Htrim Htr].
    assert (Hf : fire (action pending) w' = searchProduct core w').
    { subst pending. cbn [action fire]. rewrite Htrim, Htr. reflexivity. }
    split; [exact Hf|].
    unfold exec. rewrite Hf. apply searchProduct_calls.
  - intros Hws w'. apply fire_blank. exact Hws.
  - intros core Hcore. destruct (Hink core Hcore) as [Htrim Htr].
    destruct (@elapse_fires_due (S (List.length (timers w))) w1 (now w + 300)%N)
      as [w2 [sent [He [Hs Hall]]]].
    + rewrite Hn. lia.
    + etransitivity; [apply filter_length_le|].
      rewrite Ht, length_app. simpl. lia.
    + exists w2, sent. split; [exact He|]. split; [rewrite Hs, Hc; reflexivity|].
      rewrite <- Htrim. apply (Hall pending decodedText).
      * rewrite Ht. apply in_or_app. right. left. reflexivity.
      * subst pending. cbn [due]. lia.
      * reflexivity.
      * rewrite Htrim. exact Htr.
  - destruct (trim_cases decodedText) as [Hws | Hcore];
      [left; exact Hws | right; exists (trim decodedText); exact Hcore].
  - intros Hnone. rewrite Hnone in Ht. simpl in Ht.
    split; [|split].
    + intros fuel t Hlt. eexists. split.
      * apply (elapse_too_early fuel w1 Ht). simpl. exact Hlt.
      * split; [exact Hc | exact Hd].
    + intros core Hcore. destruct (Hink core Hcore) as [Htrim Htr].
      rewrite (elapse_one_due 0 w1 Ht); [|simpl; lia].
      subst pending. cbn [action due fire]. rewrite Htrim, Htr.
      set (w1' := with_now _ _).
      destruct (searchProduct_calls w1' core) as [rest Hrest].
      assert (Hnow' : now w1' = (now w + 300)%N).
      { subst w1'. cbn. rewrite Hn. lia. }
      destruct (searchProduct_timers w1' core) as [Hs|Hs].
      * eexists. exists rest. split.
        -- apply elapse_no_timer. rewrite Hs. reflexivity.
        -- cbn. rewrite Hrest. subst w1'. cbn. rewrite Hc. reflexivity.
      * eexists. exists rest. split.
        -- apply (@elapse_too_early 0 _ _ _ Hs). cbn [due].
           rewrite Hnow'. lia.
        -- cbn. rewrite Hrest. subst w1'. cbn. rewrite Hc. reflexivity.
    + intros Hws fuel t.
      destruct (N.leb (now w + 300) t) eqn:E.
      * apply N.leb_le in E.
        rewrite (elapse_one_due fuel w1 Ht); [|simpl; exact E].
        subst pending. cbn [action due]. unfold exec. rewrite (fire_blank _ Hws).
        eexists. split; [apply elapse_no_timer; reflexivity|].
        cbn. split; [exact Hc|]. split; [exact Hd|]. reflexivity.
      * apply N.leb_gt in E. eexists. split.
        -- apply (elapse_too_early (S fuel) w1 Ht). simpl. exact E.
        -- cbn. split; [exact Hc|]. split; [exact Hd|]. intros Hle. lia.
Qed.

(** [" SN-001 "] is decoded in scenario A: nothing is sent before 300 ms,
    and at 300 ms the first call is the query of ["SN-001"], the text
    without the space on either side. *)
Lemma decode_defers_lookup_300ms_scenarioA :
  let w1 := exec (onDecode (lit " SN-001 ")) scenarioA in
  trimmed_to (lit " SN-001 ") (lit "SN-001") /\
  calls w1 = calls scenarioA /\
  (exists w2, elapse 1 299 w1 = Some w2 /\
              calls w2 = calls scenarioA /\ db w2 = db scenarioA) /\
  (exists w2 rest,
     elapse 1 (now scenarioA + 300) w1 = Some w2 /\
     calls w2 = calls scenarioA ++
                StoreCall (SelectProductBySerial (lit "SN-001")) :: rest).
Proof.
  assert (Hcore : trimmed_to (lit " SN-001 ") (lit "SN-001")).
  { exists [32%N], [32%N]. vm_compute.
    repeat split; repeat constructor. }
  pose proof (@decode_defers_lookup_300ms scenarioA (lit " SN-001 ")) as H.
  cbv zeta in H. destruct H as [Hc [_ [_ [_ [_ [_ [_ H]]]]]]].
  destruct (H ltac:(vm_compute; reflexivity)) as [He [Hq _]].
  split; [exact Hcore|]. split; [exact Hc|]. split.
  - apply (He 1%nat 299%N). vm_compute. reflexivity.
  - apply (Hq (lit "SN-001") Hcore).
Defined.

(** ["SN-001"] is decoded in scenario A: the product query goes out when
    the 300 ms are over, and finds the product. *)
Lemma decode_then_lookup_scenarioA :
  let w1 := exec (onDecode (lit " SN-001 ")) scenarioA in
  exists w2,
    elapse 1 300 w1 = Some w2 /\
    calls w2 =
      [StoreCall (SelectProductBySerial (lit "SN-001"));
       StoreCall (InsertScanHistory
         {| ScanHistory.user_id := lit "alice";
            ScanHistory.serial_number := lit "SN-001";
            ScanHistory.scan_method := camera |})] /\
    State.scanStatus (state w2) = StatusSuccess /\
    timers w2 = [{| due := 2300; action := ResetStatus |}].
Proof. eexists. vm_compute. repeat split; reflexivity. Qed.

(** ** Starting the camera *)

(** Every message that includes ["No cameras"] includes ["camera"]: the
    test of line 180 is only reached by messages that fail it. *)
Lemma No_cameras_includes_camera (msg : jsstring) :
  includes msg (lit "No cameras") = true ->
  includes msg (lit "camera") = true.
Proof.
  change (lit "No cameras") with (lit "No " ++ lit "camera" ++ lit "s").
  apply includes_infix.
Qed.

(** C2, as the code has it: when no camera is enumerated, [startCamera]
    throws ['No cameras found on this device'], which includes ['camera'],
    so the first test of the [catch] block takes it: the message shown is
    the permission-denied one and does not contain ["No camera found"].
    The camera is left inactive. *)
Theorem no_camera_shows_permission_denied (w : World) :
  engine_ready w ->
  getCameras (env w) = inr (Some []) \/ getCameras (env w) = inr None ->
  let w' := exec startCamera w in
  State.cameraActive (state w') = false /\
  State.error (state w') =
    lit "Camera permission denied. Please allow camera access in your browser settings and try again." /\
  includes (State.error (state w')) (lit "No camera found") = false.
Proof.
  intros Hready Hcams w'. subst w'. unfold engine_ready in Hready.
  assert (Hinc : includes (lit "No cameras found on this device") (lit "camera") = true)
    by reflexivity.
  handlers. cbn.
  destruct (html5QrCodeRef w) as [q|] eqn:Eq; cbn.
  - destruct Hcams as [-> | ->]; cbn; rewrite Hinc; cbn;
      (split; [reflexivity|]; split; reflexivity).
  - rewrite (Hready eq_refl). cbn.
    destruct Hcams as [-> | ->]; cbn; rewrite Hinc; cbn;
      (split; [reflexivity|]; split; reflexivity).
Qed.

Lemma no_camera_shows_permission_denied_scenarioC :
  let w' := exec startCamera scenarioC in
  State.cameraActive (state w') = false /\
  State.error (state w') =
    lit "Camera permission denied. Please allow camera access in your browser settings and try again." /\
  includes (State.error (state w')) (lit "No camera found") = false.
Proof.
  apply (@no_camera_shows_permission_denied scenarioC).
  - intros _. reflexivity.
  - left. reflexivity.
Defined.

(** The [catch] block of [startCamera] never takes its second branch. *)
Lemma no_camera_branch_is_dead (msg : jsstring) (A : Type) (x y z : A) :
  (if includes msg (lit "camera") || includes msg (lit "permission")
      || includes msg (lit "Permission denied")
   then x else if includes msg (lit "No cameras") then y else z) =
  (if includes msg (lit "camera") || includes msg (lit "permission")
      || includes msg (lit "Permission denied")
   then x else z).
Proof.
  destruct (includes msg (lit "camera")) eqn:E; [reflexivity|].
  destruct (includes msg (lit "No cameras")) eqn:E2.
  - apply No_cameras_includes_camera in E2. congruence.
  - reflexivity.
Qed.

(** Whatever happens, [startCamera] does not end with the no-camera
    message on display. *)
Lemma startCamera_never_shows_no_camera (w : World) :
  includes (State.error (state (exec startCamera w))) (lit "No camera found") = false.
Proof.
  unfold startCamera, exec, try_catch.
  match goal with |- context [match ?b w with _ => _ end] => destruct (b w) as [[[]|e] w1] eqn:Body end.
  - revert Body. handlers. cbn.
    repeat (split_match; cbn); intros Body; inversion Body; subst; reflexivity.
  - rewrite no_camera_branch_is_dead.
    destruct (includes _ _ || _ || _); handlers; cbn; reflexivity.
Qed.

Lemma nth_error_last (A : Type) (l : list A) (d : A) :
  l <> [] -> nth_error l (List.length l - 1) = Some (last l d).
Proof.
  induction l as [|x l IH]; intros H; [congruence|].
  destruct l as [|y l]; [reflexivity|].
  simpl List.length. replace (S (S (List.length l)) - 1) with (S (List.length (y :: l) - 1))
    by (simpl; lia).
  cbn [nth_error]. rewrite IH by discriminate. reflexivity.
Qed.

(** What [startCamera] does once it holds an engine: when a non-empty list
    of cameras is enumerated, it calls the engine's [start] once, right
    after the enumeration, with the id of the camera at index [length - 1]
    (the last one, not the first) and with 10 frames per second and a 300
    by 300 detection box; when that call succeeds the engine is scanning
    and the camera is shown active. *)
Theorem startCamera_selects_last_camera
    (w : World) (cams : list CameraDevice.t) (d : CameraDevice.t) :
  engine_ready w ->
  getCameras (env w) = inr (Some cams) ->
  cams <> [] ->
  let w' := exec startCamera w in
  let chosen := last cams d in
  nth_error cams (List.length cams - 1) = Some chosen /\
  fps scanConfig = 10%N /\
  qrbox_width scanConfig = qrbox_height scanConfig /\
  (exists pre rest,
     calls w' = calls w ++ pre ++
       GetCameras :: EngineStart (CameraDevice.id chosen) scanConfig :: rest /\
     (pre = [] \/ pre = [NewHtml5Qrcode (lit "qr-reader")]) /\
     Forall (fun c => exists r, c = StoreCall r) rest) /\
  (start (env w) (CameraDevice.id chosen) scanConfig = None ->
     html5QrCodeRef w' = Some {| Html5Qrcode.isScanning := true |} /\
     State.cameraActive (state w') = true).
Proof.
  intros Hready Hcams Hne w' chosen.
  pose proof (nth_error_last d Hne) as Hnth. fold chosen in Hnth.
  split; [exact Hnth|]. split; [reflexivity|]. split; [reflexivity|].
  subst w'. clearbody chosen. unfold engine_ready in Hready.
  destruct cams as [|c0 cs]; [congruence|].
  handlers. cbn.
  destruct (html5QrCodeRef w) as [q|] eqn:Eq; cbn.
  - rewrite Hcams. cbn. cbn in Hnth. rewrite Hnth. cbn. rewrite Eq. cbn.
    split.
    + exists []. cbn.
      repeat (split_match; cbn);
        rewrite <- ?app_assoc; cbn;
        eexists; (split; [reflexivity|]); (split; [left; reflexivity|]);
        repeat constructor; eexists; reflexivity.
    + intros Hs. rewrite Hs. cbn.
      repeat (split_match; cbn); split; reflexivity.
  - rewrite (Hready eq_refl). cbn. rewrite Hcams. cbn. cbn in Hnth.
    rewrite Hnth. cbn.
    split.
    + exists [NewHtml5Qrcode (lit "qr-reader")]. cbn.
      repeat (split_match; cbn);
        rewrite <- ?app_assoc; cbn;
        eexists; (split; [reflexivity|]); (split; [right; reflexivity|]);
        repeat constructor; eexists; reflexivity.
    + intros Hs. rewrite Hs. cbn.
      repeat (split_match; cbn); split; reflexivity.
Qed.

Lemma startCamera_selects_last_camera_two_cameras :
  let w' := exec startCamera two_cameras in
  nth_error [front_camera; back_camera] 1 = Some back_camera /\
  fps scanConfig = 10%N /\
  qrbox_width scanConfig = qrbox_height scanConfig /\
  (exists pre rest,
     calls w' = [] ++ pre ++
       GetCameras :: EngineStart (lit "cam-back") scanConfig :: rest /\
     (pre = [] \/ pre = [NewHtml5Qrcode (lit "qr-reader")]) /\
     Forall (fun c => exists r, c = StoreCall r) rest) /\
  (start (env two_cameras) (lit "cam-back") scanConfig = None ->
     html5QrCodeRef w' = Some {| Html5Qrcode.isScanning := true |} /\
     State.cameraActive (state w') = true).
Proof.
  apply (@startCamera_selects_last_camera two_cameras
           [front_camera; back_camera] front_camera).
  - intros _. reflexivity.
  - reflexivity.
  - discriminate.
Defined.

(** C7, as the code has it: on the page with the start button, where the
    reader element is not rendered, the constructor of line 143 throws, so
    [startCamera] ends before it has enumerated a camera: the only call
    made is the constructor's, no camera is selected and the engine is not
    started, whatever cameras the device has.  The camera is shown off
    again, the general failure message is set, the error is logged, and
    the next click finds the page as this one did. *)
Theorem start_button_never_starts_camera (w : World) :
  html5QrCodeRef w = None ->
  State.cameraActive (state w) = false ->
  constructor_needs_reader w ->
  let w' := exec startCamera w in
  outcome startCamera w = Returned tt /\
  calls w' = calls w ++ [NewHtml5Qrcode (lit "qr-reader")] /\
  (forall cameraId config,
     In (EngineStart cameraId config) (calls w') ->
     In (EngineStart cameraId config) (calls w)) /\
  (In GetCameras (calls w') -> In GetCameras (calls w)) /\
  html5QrCodeRef w' = None /\
  scanning w' = false /\
  State.cameraActive (state w') = false /\
  State.scanStatus (state w') = StatusIdle /\
  State.error (state w') = camera_failure_message /\
  console w' = console w ++
    [{| level := LevelError; text := lit "Camera error:"; value := element_not_found |}] /\
  db w' = db w /\ timers w' = timers w /\
  constructor_needs_reader w'.
Proof.
  intros Href Hoff Hneeds w'.
  assert (Hthrows : new_Html5Qrcode (env w) (lit "qr-reader") = Some element_not_found).
  { apply Hneeds. unfold render. cbn. rewrite Hoff. reflexivity. }
  assert (E : startCamera w =
              (Returned tt,
               exec (setCameraActive true ;; setScanStatus StatusIdle ;;
                     setError [] ;; call (NewHtml5Qrcode (lit "qr-reader")) ;;
                     setError camera_failure_message ;;
                     setCameraActive false ;;
                     console_error (lit "Camera error:") element_not_found) w)).
  { handlers. cbn. rewrite Href. cbn. rewrite Hthrows. reflexivity. }
  unfold outcome. subst w'. unfold exec at 1 2 3 4 5 6 7 8 9 10 11 12.
  rewrite E. cbn [fst snd].
  split; [reflexivity|].
  assert (Hcalls : calls (exec (setCameraActive true ;; setScanStatus StatusIdle ;;
                     setError [] ;; call (NewHtml5Qrcode (lit "qr-reader")) ;;
                     setError camera_failure_message ;;
                     setCameraActive false ;;
                     console_error (lit "Camera error:") element_not_found) w)
                   = calls w ++ [NewHtml5Qrcode (lit "qr-reader")]) by reflexivity.
  split; [exact Hcalls|].
  split.
  { intros c cfg. rewrite Hcalls. intros H. apply in_app_or in H.
    destruct H as [H | [H | []]]; [exact H | discriminate]. }
  split.
  { rewrite Hcalls. intros H. apply in_app_or in H.
    destruct H as [H | [H | []]]; [exact H | discriminate]. }
  split; [exact Href|].
  split; [unfold scanning; cbn; rewrite Href; reflexivity|].
  split; [reflexivity|]. split; [reflexivity|]. split; [reflexivity|].
  split; [reflexivity|]. split; [reflexivity|]. split; [reflexivity|].
  intros _. exact Hthrows.
Qed.

(** The component has just been mounted on a device with a front and a
    back camera, and the start button is clicked: neither camera is
    selected, the engine's [start] is not called, and the general failure
    message is shown in place of the reader. *)
Lemma start_button_never_starts_camera_two_cameras :
  let w' := exec startCamera start_button_page in
  getCameras (env start_button_page) = inr (Some [front_camera; back_camera]) /\
  cameraPane (render (state start_button_page)) = StartButton /\
  calls w' = [NewHtml5Qrcode (lit "qr-reader")] /\
  html5QrCodeRef w' = None /\
  State.cameraActive (state w') = false /\
  cameraPane (render (state w')) = StartButton /\
  errorBox (render (state w')) = Some camera_failure_message.
Proof.
  destruct (@start_button_never_starts_camera start_button_page)
    as [_ [Hc [_ [_ [Hr [_ [Ha [_ [He _]]]]]]]]].
  - reflexivity.
  - reflexivity.
  - intros _. reflexivity.
  - cbv zeta. split; [reflexivity|]. split; [reflexivity|].
    split; [exact Hc|]. split; [exact Hr|]. split; [exact Ha|].
    split; [vm_compute; reflexivity|]. vm_compute. reflexivity.
Defined.

(** ** Stopping the camera *)

(** Whatever the engine answers, the cells end as lines 199-200 set them. *)
Lemma stopCamera_state (w : World) :
  state (exec stopCamera w) =
  state (exec (setCameraActive false ;; setScanStatus StatusIdle) w).
Proof.
  handlers. cbn. repeat (split_match; cbn); reflexivity.
Qed.

(** C8: [stopCamera] always returns normally and leaves the camera
    inactive and the status [idle], with the error message on display
    untouched.  With no capture active it calls nothing and logs nothing.
    With a capture active, a failure of the engine's [stop] is written to
    the console with [console.log] and goes no further.  A second
    [stopCamera], whatever the engine then answers, leaves the component's
    state as the first one did. *)
Theorem stopCamera_total_and_idempotent (w : World) :
  let w' := exec stopCamera w in
  outcome stopCamera w = Returned tt /\
  State.cameraActive (state w') = false /\
  State.scanStatus (state w') = StatusIdle /\
  State.error (state w') = State.error (state w) /\
  State.scannedProduct (state w') = State.scannedProduct (state w) /\
  (scanning w = false ->
     calls w' = calls w /\ console w' = console w /\
     html5QrCodeRef w' = html5QrCodeRef w) /\
  (scanning w = true ->
     calls w' = calls w ++ [EngineStop] /\
     forall err, stop (env w) = Some err ->
       console w' = console w ++
         [{| level := LevelLog; text := lit "Error stopping camera:"; value := err |}]) /\
  (forall e', state (exec stopCamera (with_env e' w')) = state w').
Proof.
  intros w'.
  split.
  { handlers. cbn. repeat (split_match; cbn); reflexivity. }
  assert (Hst : state w' = state (exec (setCameraActive false ;; setScanStatus StatusIdle) w))
    by apply stopCamera_state.
  split; [rewrite Hst; reflexivity|].
  split; [rewrite Hst; reflexivity|].
  split; [rewrite Hst; reflexivity|].
  split; [rewrite Hst; reflexivity|].
  split; [|split].
  - subst w'. unfold scanning. handlers. cbn.
    destruct (html5QrCodeRef w) as [[[]]|] eqn:E; cbn; intros H;
      try discriminate; rewrite ?E; repeat split; reflexivity.
  - subst w'. unfold scanning. handlers. cbn.
    destruct (html5QrCodeRef w) as [[[]]|]; cbn; intros H;
      try discriminate.
    destruct (stop (env w)) as [e|]; cbn; split; try reflexivity.
    + intros err Herr. injection Herr as ->. reflexivity.
    + intros err Herr. discriminate.
  - intros e'. rewrite stopCamera_state. clearbody w'.
    handlers. cbn. rewrite Hst. reflexivity.
Qed.

(** Stopping an idle component, and stopping a camera whose [stop] throws. *)
Lemma stopCamera_total_and_idempotent_both :
  (let w := mounted calm (Some alice) empty_store in
   let w' := exec stopCamera w in
   outcome stopCamera w = Returned tt /\
   State.cameraActive (state w') = false /\
   State.scanStatus (state w') = StatusIdle /\
   calls w' = [] /\ console w' = []) /\
  (let w := stuck_camera in
   let w' := exec stopCamera w in
   outcome stopCamera w = Returned tt /\
   State.cameraActive (state w') = false /\
   State.scanStatus (state w') = StatusIdle /\
   State.error (state w') = State.error (state w) /\
   calls w' = calls w ++ [EngineStop] /\
   console w' = console w ++
     [{| level := LevelLog; text := lit "Error stopping camera:";
         value := OtherValue (lit "Cannot stop, scanner is not running or paused.") |}]).
Proof.
  split.
  - destruct (stopCamera_total_and_idempotent (mounted calm (Some alice) empty_store))
      as [H1 [H2 [H3 [_ [_ [H6 _]]]]]].
    assert (Hs : scanning (mounted calm (Some alice) empty_store) = false)
      by (vm_compute; reflexivity).
    destruct (H6 Hs) as [Hc [Hl _]].
    cbv zeta. split; [exact H1|]. split; [exact H2|]. split; [exact H3|].
    split; [exact Hc | exact Hl].
  - destruct (stopCamera_total_and_idempotent stuck_camera)
      as [H1 [H2 [H3 [H4 [_ [_ [H7 _]]]]]]].
    assert (Hs : scanning stuck_camera = true) by (vm_compute; reflexivity).
    destruct (H7 Hs) as [Hc Hl].
    cbv zeta. split; [exact H1|]. split; [exact H2|]. split; [exact H3|].
    split; [exact H4|]. split; [exact Hc|].
    apply Hl. vm_compute. reflexivity.
Defined.

(** ** Deleting a scanner profile *)

(** C9: [deleteScannerInfo] asks [confirm] first.  When the answer is no,
    nothing but the prompt happens: no request is sent, and the store, the
    local list and the rest of the component are as before.  When the
    answer is yes and the store's delete succeeds, the only request sent is
    that delete, scoped to the user (no list is fetched again), and the
    local list is the old one without the entries of the deleted id. *)
Theorem deleteScannerInfo_asks_first (w : World) (scannerId : jsstring) :
  let w' := exec (deleteScannerInfo scannerId) w in
  (confirm (env w) delete_prompt = false ->
     w' = with_calls (calls w ++ [ConfirmCall delete_prompt]) w) /\
  (confirm (env w) delete_prompt = true ->
   forall usr,
     user w = Some usr ->
     fault (env w) (DeleteScanner scannerId (Some (User.id usr))) = None ->
     calls w' = calls w ++
       [ConfirmCall delete_prompt;
        StoreCall (DeleteScanner scannerId (Some (User.id usr)))] /\
     State.scanners (state w') =
       filter (fun s => negb (JS.eqb (ScannerRow.id s) scannerId))
              (State.scanners (state w)) /\
     (forall s, In s (State.scanners (state w')) <->
                In s (State.scanners (state w)) /\ ScannerRow.id s <> scannerId) /\
     Store.scanners (db w') =
       filter (fun r => negb (JS.eqb (ScannerRow.id r) scannerId &&
                              JS.eqb (ScannerRow.user_id r) (User.id usr)))
              (Store.scanners (db w)) /\
     State.error (state w') = []).
Proof.
  intros w'. subst w'. split.
  - intros Hno. handlers. cbn. rewrite Hno. reflexivity.
  - intros Hyes usr Hu Hf. handlers. cbn. rewrite Hyes. cbn.
    rewrite Hu. cbn. rewrite Hf. cbn. rewrite <- app_assoc.
    split; [reflexivity|]. split; [reflexivity|].
    split; [|split; reflexivity].
    intros s. rewrite filter_In, negb_true_iff. split.
    + intros [Hin Hne]. split; [exact Hin|].
      intros Heq. apply eqb_eq in Heq. congruence.
    + intros [Hin Hne]. split; [exact Hin|].
      destruct (JS.eqb (ScannerRow.id s) scannerId) eqn:E; [|reflexivity].
      apply eqb_eq in E. contradiction.
Qed.

(** Scenario D: scanner ["abc"], declined; and the same, confirmed. *)
Lemma deleteScannerInfo_asks_first_scenarioD :
  (let w := managing false in
   exec (deleteScannerInfo (lit "abc")) w =
   with_calls (calls w ++ [ConfirmCall delete_prompt]) w) /\
  (let w := managing true in
   let w' := exec (deleteScannerInfo (lit "abc")) w in
   calls w' = [ConfirmCall delete_prompt;
               StoreCall (DeleteScanner (lit "abc") (Some (lit "alice")))] /\
   State.scanners (state w') = [scanner_def] /\
   Store.scanners (db w') = [scanner_def]).
Proof.
  split.
  - apply (proj1 (deleteScannerInfo_asks_first (managing false) (lit "abc"))).
    reflexivity.
  - destruct (proj2 (deleteScannerInfo_asks_first (managing true) (lit "abc"))
                eq_refl alice eq_refl eq_refl) as [H1 [H2 [_ [H4 _]]]].
    cbv zeta. split; [exact H1|]. split; [exact H2 | exact H4].
Defined.

(** ** Registering the camera as a scanner profile *)

Section Upsert.

Variable rows : list ScannerRow.t.
Variable newId : jsstring.
Variable t : N.
Variable p : ScannerPayload.t.

Hypothesis fresh : forall r, In r rows -> ScannerRow.id r <> newId.

Lemma fresh_id_not_found : existsb (same_id newId) rows = false.
Proof.
  destruct (existsb (same_id newId) rows) eqn:E; [|reflexivity].
  apply existsb_exists in E as [r [Hin Hr]].
  unfold same_id in Hr. apply eqb_eq in Hr. destruct (fresh r Hin Hr).
Qed.

Variable old : ScannerRow.t.

Hypothesis old_in : In old rows.
Hypothesis old_owner : ScannerRow.user_id old = ScannerPayload.user_id p.
Hypothesis old_name : ScannerRow.scanner_name old = ScannerPayload.scanner_name p.

Lemma same_name_found :
  existsb (same_owner_and_name (ScannerPayload.user_id p) (ScannerPayload.scanner_name p))
          rows = true.
Proof.
  apply existsb_exists. exists old. split; [exact old_in|].
  unfold same_owner_and_name. rewrite old_owner, old_name, !eqb_refl.
  reflexivity.
Qed.

(** Resolved on the primary key, an upsert of a payload without [id] that
    meets a row of the same owner and name is a unique violation. *)
Lemma upsert_on_primary_key_violates :
  upsert_rows OnPrimaryKey newId t p rows = inl unique_violation.
Proof.
  unfold upsert_rows. rewrite fresh_id_not_found, same_name_found.
  reflexivity.
Qed.

(** Resolved on (owner, name), the same upsert updates the row in place. *)
Lemma upsert_on_owner_and_name_replaces :
  exists rows',
    upsert_rows OnOwnerAndName newId t p rows = inr rows' /\
    List.length rows' = List.length rows /\
    In (updated_row old p) rows'.
Proof.
  unfold upsert_rows. rewrite same_name_found. eexists. split; [reflexivity|].
  split; [apply length_map|].
  apply in_map_iff. exists old. split; [|exact old_in].
  unfold same_owner_and_name at 1. rewrite old_owner, old_name, !eqb_refl.
  reflexivity.
Qed.

End Upsert.

(** The payload of lines 117-124. *)
Lemma registerCurrentScanner_payload_eq (w : World) (usr : User.t) :
  ScannerPayload.user_id (registration_payload usr w) = User.id usr /\
  ScannerPayload.scanner_name (registration_payload usr w) = scannerName_at w /\
  ScannerPayload.is_active (registration_payload usr w) = true /\
  ScannerPayload.last_used_at (registration_payload usr w) = now w.
Proof. repeat split; reflexivity. Qed.

(** C4, as the code has it: the [upsert] of line 117 names no conflict
    columns and its payload has no [id], so the store resolves it on the
    primary key with a newly generated [id].  For a user who already has a
    profile of the same name, the insert meets [UNIQUE(user_id,
    scanner_name)] and fails: the table is unchanged (the profile is not
    replaced, its last-used time is not set), the list is not reloaded,
    and the component shows ['Failed to register scanner']. *)
Theorem register_same_name_fails (w : World) (usr : User.t) (old : ScannerRow.t) :
  user w = Some usr ->
  In old (Store.scanners (db w)) ->
  ScannerRow.user_id old = User.id usr ->
  ScannerRow.scanner_name old = scannerName_at w ->
  (forall r, In r (Store.scanners (db w)) ->
             ScannerRow.id r <> gen_random_uuid (env w)) ->
  let w' := exec registerCurrentScanner w in
  db w' = db w /\
  State.error (state w') = lit "Failed to register scanner" /\
  calls w' = calls w ++ [StoreCall (UpsertScanner (registration_payload usr w))] /\
  (fault (env w) (UpsertScanner (registration_payload usr w)) = None ->
   console w' = console w ++
     [{| level := LevelError; text := lit "Error registering scanner:";
         value := unique_violation |}]).
Proof.
  intros Hu Hin Ho Hn Hfresh w'.
  pose proof (@upsert_on_primary_key_violates (Store.scanners (db w))
                (gen_random_uuid (env w)) (now w) (registration_payload usr w)
                Hfresh old Hin Ho Hn) as Hup.
  assert (E : w' = exec (call (StoreCall (UpsertScanner (registration_payload usr w))) ;;
                         console_error (lit "Error registering scanner:")
                           match fault (env w) (UpsertScanner (registration_payload usr w)) with
                           | Some e => e
                           | None => unique_violation
                           end ;;
                         setError (lit "Failed to register scanner")) w).
  { subst w'. handlers. cbn -[upsert_rows registration_payload].
    rewrite Hu. cbn -[upsert_rows registration_payload].
    destruct (fault (env w) (UpsertScanner (registration_payload usr w)));
      cbn -[upsert_rows registration_payload]; [reflexivity|].
    rewrite Hup. reflexivity. }
  clearbody w'. subst w'. handlers. cbn.
  split; [reflexivity|]. split; [reflexivity|]. split; [reflexivity|].
  intros ->. reflexivity.
Qed.

(** Alice's second start of the day: the profile of the morning stays as
    it was, last used at 1000. *)
Lemma register_same_name_fails_same_day :
  let w' := exec registerCurrentScanner same_day in
  db w' = two_scanners /\
  State.error (state w') = lit "Failed to register scanner" /\
  calls w' = [] ++ [StoreCall (UpsertScanner (registration_payload alice same_day))] /\
  (fault (env same_day) (UpsertScanner (registration_payload alice same_day)) = None ->
   console w' = [] ++
     [{| level := LevelError; text := lit "Error registering scanner:";
         value := unique_violation |}]).
Proof.
  apply (@register_same_name_fails same_day alice scanner_abc).
  - reflexivity.
  - left. reflexivity.
  - reflexivity.
  - reflexivity.
  - intros r [<- | [<- | []]]; vm_compute; discriminate.
Defined.

(** The first start of a day, for comparison: the profile is inserted,
    active and last used now. *)
Lemma register_first_time_inserts :
  let w := with_now 5000 (mounted calm (Some alice) empty_store) in
  let w' := exec registerCurrentScanner w in
  Store.scanners (db w') =
    [new_row (gen_random_uuid calm) 5000 (registration_payload alice w)] /\
  State.scanners (state w') = Store.scanners (db w') /\
  State.error (state w') = [].
Proof. vm_compute. repeat split; reflexivity. Qed.

(** ** When the status becomes [detecting] *)

(** [startCamera] leaves the status [idle], however it ends: line 139
    runs before anything can throw. *)
Lemma startCamera_status (w : World) :
  State.scanStatus (state (exec startCamera w)) = StatusIdle.
Proof.
  unfold startCamera, exec, try_catch.
  match goal with
  | |- context [match ?b w with _ => _ end] =>
      destruct (b w) as [[[]|e] w1] eqn:Body
  end.
  - revert Body. handlers. cbn -[upsert_rows registration_payload].
    repeat (split_match; cbn -[upsert_rows registration_payload]);
      intros Body; inversion Body; subst; reflexivity.
  - rewrite no_camera_branch_is_dead.
    assert (Hw1 : State.scanStatus (state w1) = StatusIdle).
    { revert Body. handlers. cbn -[upsert_rows registration_payload].
      repeat (split_match; cbn -[upsert_rows registration_payload]);
        intros Body; inversion Body; subst; reflexivity. }
    destruct (includes _ _ || _ || _); handlers; cbn; exact Hw1.
Qed.

(** A lookup leaves the status [success] or [error]. *)
Lemma searchProduct_status (w : World) (serialNumber : jsstring) :
  State.scanStatus (state (exec (searchProduct serialNumber) w)) = StatusSuccess \/
  State.scanStatus (state (exec (searchProduct serialNumber) w)) = StatusError.
Proof.
  handlers. cbn. repeat (split_match; cbn);
    (left; reflexivity) || (right; reflexivity).
Qed.

(** The handlers that do not touch the status. *)
Lemma status_untouched (w : World) :
  (forall sn m, State.scanStatus (state (exec (saveScanHistory sn m) w)) =
                State.scanStatus (state w)) /\
  State.scanStatus (state (exec loadScanners w)) = State.scanStatus (state w) /\
  State.scanStatus (state (exec registerCurrentScanner w)) =
    State.scanStatus (state w) /\
  (forall scannerId,
     State.scanStatus (state (exec (deleteScannerInfo scannerId) w)) =
     State.scanStatus (state w)) /\
  State.scanStatus (state (exec userEffect w)) = State.scanStatus (state w) /\
  State.scanStatus (state (exec unmountCleanup w)) = State.scanStatus (state w).
Proof.
  repeat split; intros; handlers; unfold userEffect, unmountCleanup; handlers;
    cbn -[upsert_rows registration_payload];
    repeat (split_match; cbn -[upsert_rows registration_payload]); reflexivity.
Qed.

(** C5, amended: the status moves into [detecting] exactly when a decode
    callback fires, whatever the decoded text, and it does so at once.
    Every decode callback sets [detecting] as it fires: the clock has not
    moved and the 300 ms timer it sets is still pending, so the delay
    precedes the lookup and not the transition; the displayed product,
    the error message and the camera flag are as before.  And nothing else
    does: after any other handler, timer callback or effect of the
    component, the status is [detecting] only if it was before. *)
Theorem detecting_exactly_on_decode :
  (forall (w : World) (decodedText : jsstring),
     let w1 := exec (onDecode decodedText) w in
     State.scanStatus (state w1) = StatusDetecting /\
     now w1 = now w /\
     timers w1 = timers w ++
       [{| due := now w + 300; action := DebouncedLookup decodedText |}] /\
     State.scannedProduct (state w1) = State.scannedProduct (state w) /\
     State.error (state w1) = State.error (state w) /\
     State.cameraActive (state w1) = State.cameraActive (state w)) /\
  (forall (p : Page) (decodedText : jsstring),
     world (execP (handle (Decoded decodedText)) p) =
     exec (onDecode decodedText) (world p)) /\
  (forall (p : Page) (ev : Event),
     State.scanStatus (state (world (execP (handle ev) p))) = StatusDetecting ->
     State.scanStatus (state (world p)) = StatusDetecting \/
     exists decodedText, ev = Decoded decodedText).
Proof.
  split; [|split].
  - intros w decodedText. handlers. cbn. repeat split; reflexivity.
  - intros p decodedText. reflexivity.
  - intros p ev H.
    assert (L : forall (m : M unit),
              world (execP (inWorld m) p) = exec m (world p)).
    { intros m. unfold execP, inWorld, exec. destruct (m (world p)). reflexivity. }
    destruct (status_untouched (world p)) as [_ [_ [_ [Hd [Hu Hm]]]]].
    destruct ev; cbn [handle] in H; rewrite ?L in H.
    + rewrite startCamera_status in H. discriminate.
    + rewrite stopCamera_state in H. discriminate.
    + right. eexists. reflexivity.
    + left. exact H.
    + left. revert H. unfold handleManualSearch, exec, bind, gets.
      destruct (truthy _); [|intros H; exact H].
      pose proof (searchProduct_status (world p)
                    (trim (State.manualSN (state (world p))))) as Hs.
      unfold exec in Hs. destruct (searchProduct _ _) as [[[]|e] w1]; cbn in *;
        intros H; destruct Hs as [Hs | Hs]; congruence.
    + left. destruct callback; cbn [fire] in H.
      * discriminate.
      * destruct (truthy _); [|exact H].
        destruct (searchProduct_status (world p) (trim decodedText)); congruence.
      * exact H.
    + left. exact H.
    + left. exact H.
    + left. exact H.
    + left. revert H. page_handlers. cbn.
      repeat (split_match; cbn); intros H; exact H.
    + left. rewrite Hd in H. exact H.
    + left. rewrite Hu in H. exact H.
    + left. rewrite Hm in H. exact H.
Qed.


(** * Further properties of the component *)

(** ** What a lookup leaves alone *)

(** [searchProduct] never throws, and beyond the status, the product, the
    error message, the history table, its timer, the console and the calls
    it changes nothing. *)
Lemma searchProduct_frame (w : World) (serialNumber : jsstring) :
  let w' := exec (searchProduct serialNumber) w in
  outcome (searchProduct serialNumber) w = Returned tt /\
  env w' = env w /\ user w' = user w /\ html5QrCodeRef w' = html5QrCodeRef w /\
  Store.products (db w') = Store.products (db w) /\
  Store.scanners (db w') = Store.scanners (db w) /\
  State.cameraActive (state w') = State.cameraActive (state w) /\
  State.manualSN (state w') = State.manualSN (state w) /\
  State.scanners (state w') = State.scanners (state w) /\
  State.showScannerModal (state w') = State.showScannerModal (state w) /\
  State.scannerSearchInput (state w') = State.scannerSearchInput (state w) /\
  State.loadingScanners (state w') = State.loadingScanners (state w).
Proof.
  handlers. cbn. repeat (split_match; cbn); repeat split;
    try reflexivity; congruence.
Qed.

(** ** A serial that the store does not hold *)

(** X1: A lookup of a serial with no row in [products] sends the product query
    and nothing else (no history row is written), shows status [error] with
    the message of line 222 and no product.  With no timer pending before
    the lookup (none of a decode, of an earlier lookup or of a scanner
    search), two seconds later the status is [idle] again, while the
    message is still set and still no product is shown. *)
Theorem lookup_of_absent_serial (w : World) (serialNumber : jsstring) :
  fault (env w) (SelectProductBySerial serialNumber) = None ->
  matching serialNumber (db w) = [] ->
  timers w = [] ->
  let w1 := exec (searchProduct serialNumber) w in
  State.scanStatus (state w1) = StatusError /\
  State.error (state w1) = lit "Produk tidak ditemukan di database" /\
  State.scannedProduct (state w1) = None /\
  calls w1 = calls w ++ [StoreCall (SelectProductBySerial serialNumber)] /\
  db w1 = db w /\
  (forall fuel t, (t < now w + 2000)%N ->
     exists w2, elapse fuel t w1 = Some w2 /\
                State.scanStatus (state w2) = StatusError) /\
  exists w2,
    elapse 1 (now w + 2000) w1 = Some w2 /\
    State.scanStatus (state w2) = StatusIdle /\
    State.error (state w2) = lit "Produk tidak ditemukan di database" /\
    State.scannedProduct (state w2) = None /\
    errorBox (render (state w2)) = Some (lit "Produk tidak ditemukan di database").
Proof.
  intros Hf Hm Ht w1.
  assert (E : w1 = exec (call (StoreCall (SelectProductBySerial serialNumber)) ;;
                         setScanStatus StatusError ;;
                         setError (lit "Produk tidak ditemukan di database") ;;
                         setScannedProduct None ;;
                         setTimeout ResetStatus 2000) w).
  { subst w1. unfold exec. rewrite (searchProduct_absent w serialNumber Hf Hm).
    reflexivity. }
  assert (Htm : timers w1 = [{| due := now w + 2000; action := ResetStatus |}]).
  { rewrite E. handlers. cbn. rewrite Ht. reflexivity. }
  assert (Hst : state w1 =
    state (exec (setScanStatus StatusError ;;
                 setError (lit "Produk tidak ditemukan di database") ;;
                 setScannedProduct None) w)).
  { rewrite E. reflexivity. }
  assert (Hc : calls w1 = calls w ++ [StoreCall (SelectProductBySerial serialNumber)])
    by (rewrite E; reflexivity).
  assert (Hd : db w1 = db w) by (rewrite E; reflexivity).
  clearbody w1. clear E.
  split; [rewrite Hst; reflexivity|]. split; [rewrite Hst; reflexivity|].
  split; [rewrite Hst; reflexivity|]. split; [exact Hc|]. split; [exact Hd|].
  split.
  - intros fuel t Hlt. eexists. split.
    + apply (elapse_too_early fuel w1 Htm). simpl. exact Hlt.
    + cbn. rewrite Hst. reflexivity.
  - eexists. split.
    + rewrite (elapse_one_due 0 w1 Htm); [|simpl; lia].
      apply elapse_no_timer. reflexivity.
    + cbn. rewrite Hst. cbn. repeat split; reflexivity.
Qed.

(** Scenario B of the specification: ["SN-999"] is not in the store. *)
Lemma lookup_of_absent_serial_scenarioB :
  let w1 := exec (searchProduct (lit "SN-999")) scenarioA in
  State.scanStatus (state w1) = StatusError /\
  State.error (state w1) = lit "Produk tidak ditemukan di database" /\
  State.scannedProduct (state w1) = None /\
  calls w1 = [] ++ [StoreCall (SelectProductBySerial (lit "SN-999"))] /\
  db w1 = db scenarioA /\
  (forall fuel t, (t < 0 + 2000)%N ->
     exists w2, elapse fuel t w1 = Some w2 /\
                State.scanStatus (state w2) = StatusError) /\
  exists w2,
    elapse 1 2000 w1 = Some w2 /\
    State.scanStatus (state w2) = StatusIdle /\
    State.error (state w2) = lit "Produk tidak ditemukan di database" /\
    State.scannedProduct (state w2) = None /\
    errorBox (render (state w2)) = Some (lit "Produk tidak ditemukan di database").
Proof.
  apply (@lookup_of_absent_serial scenarioA (lit "SN-999")); reflexivity.
Defined.

(** ** A failed query over a displayed product *)

(** X2: When the product query fails, the product displayed before stays
    displayed (the not-found branch clears it, the [catch] block does
    not).  The error message is then set but not rendered, since the error
    box is only rendered without a product; with no product displayed the
    message is rendered. *)
Theorem failed_query_keeps_displayed_product
    (w : World) (serialNumber : jsstring) (e : Thrown) :
  fault (env w) (SelectProductBySerial serialNumber) = Some e ->
  let w' := exec (searchProduct serialNumber) w in
  State.scannedProduct (state w') = State.scannedProduct (state w) /\
  State.error (state w') = lit "Error searching product" /\
  productCard (render (state w')) = State.scannedProduct (state w) /\
  (forall p, State.scannedProduct (state w) = Some p ->
             errorBox (render (state w')) = None) /\
  (State.scannedProduct (state w) = None ->
   errorBox (render (state w')) = Some (lit "Error searching product")).
Proof.
  intros Hf w'.
  assert (E : w' = exec (call (StoreCall (SelectProductBySerial serialNumber)) ;;
                         setScanStatus StatusError ;;
                         setError (lit "Error searching product") ;;
                         console_error (lit "Search error:") e) w).
  { subst w'. unfold exec. rewrite (searchProduct_fault w serialNumber Hf).
    reflexivity. }
  clearbody w'. subst w'. handlers. cbn.
  split; [reflexivity|]. split; [reflexivity|]. split; [reflexivity|].
  split.
  - intros p Hp. rewrite Hp. reflexivity.
  - intros Hp. rewrite Hp. reflexivity.
Qed.

(** The widget is on display when the store goes away. *)
Lemma failed_query_keeps_displayed_product_widget :
  let w := with_env (failing_store failed_to_fetch calm)
             (exec (searchProduct (lit "SN-001")) scenarioA) in
  let w' := exec (searchProduct (lit "SN-999")) w in
  State.scannedProduct (state w') = State.scannedProduct (state w) /\
  State.error (state w') = lit "Error searching product" /\
  productCard (render (state w')) = Some widget /\
  errorBox (render (state w')) = None.
Proof.
  destruct (@failed_query_keeps_displayed_product
              (with_env (failing_store failed_to_fetch calm)
                 (exec (searchProduct (lit "SN-001")) scenarioA))
              (lit "SN-999") failed_to_fetch eq_refl) as [H1 [H2 [H3 [H4 _]]]].
  cbv zeta. split; [exact H1|]. split; [exact H2|]. split; [exact H3|].
  apply (H4 widget). vm_compute. reflexivity.
Defined.

(** ** The manual search form *)

(** X3: Submitting the form with an empty or whitespace-only input does
    nothing at all: no request, no change, and the input is not cleared.
    Otherwise the lookup is made for the trimmed input, starting with the
    product query, and the input is cleared. *)
Theorem manual_search_trims_or_ignores (w : World) :
  let sn := State.manualSN (state w) in
  let w' := exec handleManualSearch w in
  outcome handleManualSearch w = Returned tt /\
  (Forall (fun c => isWhiteSpace c = true) sn -> w' = w) /\
  (truthy (trim sn) = true ->
   State.manualSN (state w') = [] /\
   exists rest,
     calls w' = calls w ++ StoreCall (SelectProductBySerial (trim sn)) :: rest).
Proof.
  intros sn w'. subst w'.
  destruct (searchProduct_frame w (trim sn)) as [Ho _].
  destruct (searchProduct_calls w (trim sn)) as [rest Hc].
  unfold handleManualSearch, exec, outcome, bind, gets in *. fold sn.
  split; [|split].
  - destruct (truthy (trim sn)); [|reflexivity].
    destruct (searchProduct (trim sn) w) as [[[]|e] w1]; cbn in *;
      [reflexivity | discriminate].
  - intros Hws. rewrite (trim_whitespace Hws). reflexivity.
  - intros Htr. rewrite Htr.
    destruct (searchProduct (trim sn) w) as [[[]|e] w1]; cbn in *;
      [|discriminate].
    split; [reflexivity|]. exists rest. exact Hc.
Qed.

(** The input holds [" SN-001 "]; and the input holds three spaces. *)
Lemma manual_search_trims_or_ignores_examples :
  (let w := exec (setManualSN (lit " SN-001 ")) scenarioA in
   let w' := exec handleManualSearch w in
   State.manualSN (state w') = [] /\
   exists rest,
     calls w' = [] ++ StoreCall (SelectProductBySerial (lit "SN-001")) :: rest) /\
  (let w := exec (setManualSN blank) scenarioA in
   exec handleManualSearch w = w).
Proof.
  split.
  - destruct (manual_search_trims_or_ignores
                (exec (setManualSN (lit " SN-001 ")) scenarioA)) as [_ [_ H]].
    apply H. reflexivity.
  - destruct (manual_search_trims_or_ignores
                (exec (setManualSN blank) scenarioA)) as [_ [H _]].
    apply H. repeat constructor.
Defined.

(** ** The history write *)

(** X4: [saveScanHistory] is best effort.  It never throws and never touches
    the component's state, the timers or the console.  Without a user it
    sends nothing.  With a user it sends one insert that carries the
    user's id, the serial and the method it was given; the row is appended
    when the store accepts it, and when the store answers with an error
    the table is unchanged and nothing is shown or logged. *)
Theorem saveScanHistory_best_effort
    (w : World) (serialNumber : jsstring) (method : ScanMethod) :
  let w' := exec (saveScanHistory serialNumber method) w in
  outcome (saveScanHistory serialNumber method) w = Returned tt /\
  state w' = state w /\ timers w' = timers w /\ console w' = console w /\
  (user w = None -> w' = w) /\
  (forall usr, user w = Some usr ->
     let row := {| ScanHistory.user_id := User.id usr;
                   ScanHistory.serial_number := serialNumber;
                   ScanHistory.scan_method := method |} in
     calls w' = calls w ++ [StoreCall (InsertScanHistory row)] /\
     (fault (env w) (InsertScanHistory row) = None ->
        Store.scan_history (db w') = Store.scan_history (db w) ++ [row]) /\
     (fault (env w) (InsertScanHistory row) <> None -> db w' = db w)).
Proof.
  intros w'. subst w'. handlers. cbn.
  destruct (user w) as [usr|] eqn:Eu; cbn.
  - destruct (fault (env w) (InsertScanHistory _)) eqn:Ef; cbn;
      (split; [reflexivity|]); (split; [reflexivity|]);
      (split; [reflexivity|]); (split; [reflexivity|]);
      (split; [discriminate|]);
      intros usr' Hu; injection Hu as <-; cbn; rewrite Ef; cbn;
      (split; [reflexivity|]); split; intros H; try reflexivity;
      try discriminate; congruence.
  - split; [reflexivity|]. split; [reflexivity|]. split; [reflexivity|].
    split; [reflexivity|]. split; [reflexivity|].
    intros usr' H. discriminate.
Qed.

(** Alice's excel import writes an [excel] row; and a write that fails. *)
Lemma saveScanHistory_best_effort_examples :
  (let w' := exec (saveScanHistory (lit "SN-001") excel) scenarioA in
   Store.scan_history (db w') =
     [{| ScanHistory.user_id := lit "alice";
         ScanHistory.serial_number := lit "SN-001";
         ScanHistory.scan_method := excel |}]) /\
  (let w' := exec (saveScanHistory (lit "SN-001") manual) offline in
   db w' = db offline /\ state w' = state offline /\ console w' = []).
Proof.
  split.
  - destruct (saveScanHistory_best_effort scenarioA (lit "SN-001") excel)
      as [_ [_ [_ [_ [_ H]]]]].
    destruct (H alice eq_refl) as [_ [Hrow _]].
    apply Hrow. reflexivity.
  - destruct (saveScanHistory_best_effort offline (lit "SN-001") manual)
      as [_ [Hs [_ [Hc [_ H]]]]].
    destruct (H alice eq_refl) as [_ [_ Hdb]].
    cbv zeta. split; [apply Hdb; discriminate|]. split; [exact Hs | exact Hc].
Defined.

(** ** The outcomes of a lookup, cell by cell *)

Lemma saveScanHistory_frame (w : World) (serialNumber : jsstring) (method : ScanMethod) :
  let w' := exec (saveScanHistory serialNumber method) w in
  outcome (saveScanHistory serialNumber method) w = Returned tt /\
  state w' = state w /\ timers w' = timers w /\ now w' = now w /\
  console w' = console w /\ env w' = env w /\ user w' = user w /\
  html5QrCodeRef w' = html5QrCodeRef w.
Proof.
  handlers. cbn. repeat (split_match; cbn); repeat split;
    try reflexivity; congruence.
Qed.

Lemma searchProduct_found_cells (w : World) (serialNumber : jsstring) (p : Product.t) :
  fault (env w) (SelectProductBySerial serialNumber) = None ->
  matching serialNumber (db w) = [p] ->
  let w' := exec (searchProduct serialNumber) w in
  state w' = state (exec (setScannedProduct (Some p) ;; setScanStatus StatusSuccess) w) /\
  timers w' = timers w ++ [{| due := now w + 2000; action := ResetStatus |}] /\
  now w' = now w /\ console w' = console w.
Proof.
  intros Hf Hm w'. subst w'. unfold exec.
  rewrite (searchProduct_found w serialNumber Hf Hm).
  handlers. cbn. destruct (user w); cbn; [|repeat split; reflexivity].
  destruct (fault (env w) (InsertScanHistory _)); repeat split; reflexivity.
Qed.

(** [matching] reads the [products] table only. *)
Lemma matching_products (sn : jsstring) (d d' : Store.t) :
  Store.products d' = Store.products d -> matching sn d' = matching sn d.
Proof. intros H. unfold matching. rewrite H. reflexivity. Qed.

Lemma stopCamera_frame (w : World) :
  let w' := exec stopCamera w in
  timers w' = timers w /\ now w' = now w /\ db w' = db w /\
  env w' = env w /\ user w' = user w.
Proof.
  handlers. cbn. repeat (split_match; cbn); repeat split; reflexivity.
Qed.

(** ** Stopping the camera with a decode pending *)

(** X5: [stopCamera] cancels nothing: a lookup that a decode has scheduled
    still runs when its 300 ms are over, although the camera is stopped by
    then, and its result is put on display.  The camera pane shows the
    start button, so no status banner goes with it. *)
Theorem stop_does_not_cancel_pending_lookup
    (w : World) (decodedText : jsstring) (p : Product.t) :
  timers w = [] ->
  truthy (trim decodedText) = true ->
  fault (env w) (SelectProductBySerial (trim decodedText)) = None ->
  matching (trim decodedText) (db w) = [p] ->
  let w1 := exec stopCamera (exec (onDecode decodedText) w) in
  State.cameraActive (state w1) = false /\
  State.scanStatus (state w1) = StatusIdle /\
  timers w1 = [{| due := now w + 300; action := DebouncedLookup decodedText |}] /\
  exists w2 rest,
    elapse 1 (now w + 300) w1 = Some w2 /\
    calls w2 = calls w1 ++
      StoreCall (SelectProductBySerial (trim decodedText)) :: rest /\
    State.cameraActive (state w2) = false /\
    State.scanStatus (state w2) = StatusSuccess /\
    State.scannedProduct (state w2) = Some p /\
    productCard (render (state w2)) = Some p /\
    cameraPane (render (state w2)) = StartButton.
Proof.
  intros Ht Htr Hf Hm w1.
  set (w0 := exec (onDecode decodedText) w) in *.
  destruct (stopCamera_frame w0) as [Htm [Hnow [Hdb [Henv _]]]].
  fold w1 in Htm, Hnow, Hdb, Henv.
  pose proof (stopCamera_state w0) as Hst. fold w1 in Hst.
  assert (Htm1 : timers w1 = [{| due := now w + 300; action := DebouncedLookup decodedText |}]).
  { rewrite Htm. subst w0. handlers. cbn. rewrite Ht. reflexivity. }
  assert (Hnow1 : now w1 = now w) by (rewrite Hnow; reflexivity).
  assert (Hdb1 : db w1 = db w) by (rewrite Hdb; reflexivity).
  assert (Henv1 : env w1 = env w) by (rewrite Henv; reflexivity).
  clearbody w1.
  split; [rewrite Hst; reflexivity|]. split; [rewrite Hst; reflexivity|].
  split; [exact Htm1|].
  rewrite (elapse_one_due 0 w1 Htm1); [|simpl; lia].
  cbn [action due fire]. rewrite Htr.
  set (w1' := with_now _ _).
  assert (Hf' : fault (env w1') (SelectProductBySerial (trim decodedText)) = None).
  { subst w1'. cbn. rewrite Henv1. exact Hf. }
  assert (Hm' : matching (trim decodedText) (db w1') = [p]).
  { subst w1'. cbn. rewrite Hdb1. exact Hm. }
  destruct (searchProduct_found_cells w1' (trim decodedText) Hf' Hm')
    as [Hs [Hts [Hn _]]].
  destruct (searchProduct_calls w1' (trim decodedText)) as [rest Hc].
  eexists. exists rest. split.
  - apply (@elapse_too_early 0 _ _ _ Hts). cbn [due]. subst w1'. cbn.
    rewrite Hnow1. lia.
  - cbn. rewrite Hc, Hs. subst w1'. cbn. rewrite Hst. cbn.
    repeat split; reflexivity.
Qed.

(** ["SN-001"] is decoded and Alice stops the camera at once. *)
Lemma stop_does_not_cancel_pending_lookup_scenarioA :
  let w1 := exec stopCamera (exec (onDecode (lit "SN-001")) scenarioA) in
  State.cameraActive (state w1) = false /\
  State.scanStatus (state w1) = StatusIdle /\
  timers w1 = [{| due := 0 + 300; action := DebouncedLookup (lit "SN-001") |}] /\
  exists w2 rest,
    elapse 1 (0 + 300) w1 = Some w2 /\
    calls w2 = calls w1 ++
      StoreCall (SelectProductBySerial (lit "SN-001")) :: rest /\
    State.cameraActive (state w2) = false /\
    State.scanStatus (state w2) = StatusSuccess /\
    State.scannedProduct (state w2) = Some widget /\
    productCard (render (state w2)) = Some widget /\
    cameraPane (render (state w2)) = StartButton.
Proof.
  apply (@stop_does_not_cancel_pending_lookup scenarioA (lit "SN-001") widget);
    reflexivity.
Defined.

(** ** Decodes and lookups that overlap *)

Lemma searchProduct_env_db (w : World) (serialNumber : jsstring) :
  let w' := exec (searchProduct serialNumber) w in
  env w' = env w /\ Store.products (db w') = Store.products (db w).
Proof.
  destruct (searchProduct_frame w serialNumber) as [_ [He [_ [_ [Hp _]]]]].
  split; assumption.
Qed.

(** X6: The 300 ms delay removes no duplicate: two decodes, the second less
    than 300 ms after the first, lead to two lookups, each 300 ms after
    its decode and in the order of the decodes. *)
Theorem two_decodes_two_lookups (w : World) (a b : jsstring) (d : N) :
  timers w = [] ->
  truthy (trim a) = true ->
  truthy (trim b) = true ->
  (d < 300)%N ->
  exists w1,
    elapse 0 (now w + d) (exec (onDecode a) w) = Some w1 /\
    calls w1 = calls w /\
    exists w3 rest1 rest2,
      elapse 2 (now w + d + 300) (exec (onDecode b) w1) = Some w3 /\
      calls w3 = calls w ++
        StoreCall (SelectProductBySerial (trim a)) :: rest1 ++
        StoreCall (SelectProductBySerial (trim b)) :: rest2.
Proof.
  intros Ht Ha Hb Hd.
  set (ta := {| due := now w + 300; action := DebouncedLookup a |}).
  set (tb := {| due := now w + d + 300; action := DebouncedLookup b |}).
  assert (Ht0 : timers (exec (onDecode a) w) = [ta]).
  { handlers. cbn. rewrite Ht. reflexivity. }
  eexists. split.
  { apply (elapse_too_early 0 _ Ht0). subst ta. cbn [due]. lia. }
  split; [reflexivity|].
  set (w2 := exec (onDecode b) _).
  assert (Ht2 : timers w2 = [ta; tb]).
  { subst w2. handlers. cbn. rewrite Ht. cbn.
    replace (N.max (now w) (now w + d)) with (now w + d)%N by lia.
    reflexivity. }
  assert (Hn2 : now w2 = (now w + d)%N).
  { subst w2. handlers. cbn. lia. }
  assert (Hc2 : calls w2 = calls w) by reflexivity.
  clearbody w2.
  (* the first timer fires *)
  rewrite (@elapse_head_due 1 _ w2 ta [tb] Ht2);
    [| intros t' [<- | []]; subst ta tb; cbn [due]; lia
     | subst ta; cbn [due]; lia].
  cbn [action due fire ta]. rewrite Ha.
  set (wa' := with_now _ _).
  assert (Hna' : now wa' = (now w + 300)%N).
  { subst wa'. cbn. rewrite Hn2. lia. }
  destruct (searchProduct_calls wa' (trim a)) as [rest1 Hca].
  pose proof (searchProduct_now wa' (trim a)) as Hna.
  set (wa := exec (searchProduct (trim a)) wa') in *.
  assert (Hta : exists r, timers wa = tb :: r /\
            forall t', In t' r -> ((now w + 2300)%N = due t')).
  { destruct (searchProduct_timers wa' (trim a)) as [Hs|Hs]; fold wa in Hs;
      rewrite Hs; subst wa'; cbn.
    - exists []. split; [reflexivity|]. intros t' [].
    - eexists. split; [reflexivity|].
      intros t' [<- | []]. cbn [due]. rewrite Hn2. lia. }
  destruct Hta as [r [Hta Hr]].
  assert (Hcwa : calls wa = calls w ++ StoreCall (SelectProductBySerial (trim a)) :: rest1).
  { rewrite Hca. subst wa'. cbn. rewrite Hc2. reflexivity. }
  clearbody wa. clear Hca.
  (* the second timer fires *)
  rewrite (@elapse_head_due 0 _ wa tb r Hta);
    [| intros t' Hin; rewrite <- (Hr t' Hin); subst tb; cbn [due]; lia
     | subst tb; cbn [due]; lia].
  cbn [action due fire tb]. rewrite Hb.
  set (wb' := with_now _ _).
  assert (Hnb' : now wb' = (now w + d + 300)%N).
  { subst wb'. cbn. rewrite Hna, Hna'. lia. }
  destruct (searchProduct_calls wb' (trim b)) as [rest2 Hcb].
  set (wb := exec (searchProduct (trim b)) wb') in *.
  assert (Htb : forall tm, In tm (timers wb) -> (now w + d + 300 < due tm)%N).
  { destruct (searchProduct_timers wb' (trim b)) as [Hs|Hs]; fold wb in Hs;
      rewrite Hs; subst wb'; cbn.
    - intros tm Hin. rewrite <- (Hr tm Hin). lia.
    - intros tm Hin. apply in_app_or in Hin as [Hin | [<- | []]].
      + rewrite <- (Hr tm Hin). lia.
      + cbn [due]. rewrite Hna, Hna'. lia. }
  eexists. exists rest1, rest2. split.
  - apply elapse_none_due. exact Htb.
  - cbn. rewrite Hcb. subst wb'. cbn. rewrite Hcwa.
    rewrite <- app_assoc. reflexivity.
Qed.

(** Scenario E of the specification: the same code, decoded twice 100 ms
    apart. *)
Lemma two_decodes_two_lookups_scenarioE :
  exists w1,
    elapse 0 (0 + 100) (exec (onDecode (lit "SN-001")) scenarioA) = Some w1 /\
    calls w1 = [] /\
    exists w3 rest1 rest2,
      elapse 2 (0 + 100 + 300) (exec (onDecode (lit "SN-001")) w1) = Some w3 /\
      calls w3 = [] ++
        StoreCall (SelectProductBySerial (lit "SN-001")) :: rest1 ++
        StoreCall (SelectProductBySerial (lit "SN-001")) :: rest2.
Proof.
  apply (@two_decodes_two_lookups scenarioA (lit "SN-001") (lit "SN-001") 100);
    reflexivity.
Defined.

(** X7: No reset timer is ever cancelled: when a second product is found [d]
    ms after a first one, with [d] under 2 seconds, the reset timer of the
    first lookup returns the status to [idle] 2 seconds after the first,
    that is after the second result has shown [success] for [2000 - d] ms
    only.  The second product stays on display, and the second reset is
    still pending. *)
Theorem earlier_reset_cuts_later_result_short
    (w : World) (a b : jsstring) (pa pb : Product.t) (d : N) :
  timers w = [] ->
  fault (env w) (SelectProductBySerial a) = None ->
  fault (env w) (SelectProductBySerial b) = None ->
  matching a (db w) = [pa] ->
  matching b (db w) = [pb] ->
  (0 < d < 2000)%N ->
  exists w1,
    elapse 0 (now w + d) (exec (searchProduct a) w) = Some w1 /\
    State.scanStatus (state w1) = StatusSuccess /\
    let w2 := exec (searchProduct b) w1 in
    State.scanStatus (state w2) = StatusSuccess /\
    State.scannedProduct (state w2) = Some pb /\
    exists w3,
      elapse 1 (now w + 2000) w2 = Some w3 /\
      now w3 = (now w + 2000)%N /\
      State.scanStatus (state w3) = StatusIdle /\
      State.scannedProduct (state w3) = Some pb /\
      timers w3 = [{| due := now w + d + 2000; action := ResetStatus |}].
Proof.
  intros Ht Hfa Hfb Hma Hmb Hd.
  destruct (searchProduct_found_cells w a Hfa Hma) as [Hs [Hts [Hn _]]].
  destruct (searchProduct_env_db w a) as [He Hp].
  set (wa := exec (searchProduct a) w) in *.
  rewrite Ht in Hts. simpl in Hts.
  clearbody wa.
  eexists. split.
  { apply (elapse_too_early 0 wa Hts). cbn [due]. lia. }
  set (w1 := with_now _ wa).
  assert (Hfb1 : fault (env w1) (SelectProductBySerial b) = None).
  { subst w1. cbn. rewrite He. exact Hfb. }
  assert (Hmb1 : matching b (db w1) = [pb]).
  { subst w1. cbn. rewrite (matching_products b _ _ Hp). exact Hmb. }
  destruct (searchProduct_found_cells w1 b Hfb1 Hmb1) as [Hs2 [Hts2 [Hn2 _]]].
  assert (Hn1 : now w1 = (now w + d)%N).
  { subst w1. cbn. rewrite Hn. lia. }
  assert (Ht1 : timers w1 = [{| due := now w + 2000; action := ResetStatus |}]).
  { subst w1. cbn. exact Hts. }
  split; [subst w1; cbn; rewrite Hs; reflexivity|].
  cbv zeta.
  set (w2 := exec (searchProduct b) w1) in *.
  rewrite Ht1, Hn1 in Hts2. simpl in Hts2. rewrite Hn1 in Hn2.
  clearbody w2.
  split; [rewrite Hs2; reflexivity|]. split; [rewrite Hs2; reflexivity|].
  rewrite (@elapse_head_due 0 _ w2 _ _ Hts2);
    [| intros t' [<- | []]; cbn [due]; lia | cbn [due]; lia].
  cbn [action due fire].
  eexists. split.
  - apply elapse_none_due. cbn. intros tm [<- | []]. cbn [due]. lia.
  - cbn. rewrite Hs2, Hn2. cbn.
    split; [lia|]. repeat split; reflexivity.
Qed.

(** The widget is found twice, 1.5 seconds apart: the second result is
    back to [idle] half a second later. *)
Lemma earlier_reset_cuts_later_result_short_widget :
  exists w1,
    elapse 0 (0 + 1500) (exec (searchProduct (lit "SN-001")) scenarioA) = Some w1 /\
    State.scanStatus (state w1) = StatusSuccess /\
    let w2 := exec (searchProduct (lit "SN-001")) w1 in
    State.scanStatus (state w2) = StatusSuccess /\
    State.scannedProduct (state w2) = Some widget /\
    exists w3,
      elapse 1 (0 + 2000) w2 = Some w3 /\
      now w3 = (0 + 2000)%N /\
      State.scanStatus (state w3) = StatusIdle /\
      State.scannedProduct (state w3) = Some widget /\
      timers w3 = [{| due := 0 + 1500 + 2000; action := ResetStatus |}].
Proof.
  apply (@earlier_reset_cuts_later_result_short scenarioA
           (lit "SN-001") (lit "SN-001") widget widget 1500);
    try reflexivity.
  split; reflexivity.
Defined.

(** ** The end states of [startCamera] *)

Lemma registerCurrentScanner_frame (w : World) :
  let w' := exec registerCurrentScanner w in
  outcome registerCurrentScanner w = Returned tt /\
  env w' = env w /\ user w' = user w /\ html5QrCodeRef w' = html5QrCodeRef w /\
  timers w' = timers w /\ now w' = now w /\
  State.cameraActive (state w') = State.cameraActive (state w) /\
  State.scanStatus (state w') = State.scanStatus (state w) /\
  State.scannedProduct (state w') = State.scannedProduct (state w) /\
  (State.error (state w') = State.error (state w) \/
   State.error (state w') = lit "Failed to register scanner").
Proof.
  handlers. cbn -[upsert_rows registration_payload].
  repeat (split_match; cbn -[upsert_rows registration_payload]);
    repeat split; try reflexivity; try congruence;
    try (left; reflexivity); right; reflexivity.
Qed.

(** What a start that succeeds has done when it comes to registering. *)
Lemma startCamera_started
    (w : World) (cams : list CameraDevice.t) (d : CameraDevice.t) :
  engine_ready w ->
  getCameras (env w) = inr (Some cams) ->
  cams <> [] ->
  start (env w) (CameraDevice.id (last cams d)) scanConfig = None ->
  startCamera w =
  registerCurrentScanner (exec (started (CameraDevice.id (last cams d))) w).
Proof.
  intros Hready Hcams Hne Hstart.
  pose proof (nth_error_last d Hne) as Hnth.
  unfold engine_ready in Hready.
  destruct cams as [|c0 cs]; [congruence|].
  unfold startCamera, started, try_catch at 1.
  unfold ensure_engine, Html5Qrcode_getCameras, engine_start,
    setCameraActive, setScanStatus, setError, call, modify, gets, throw,
    bind, ret, exec.
  cbn -[registerCurrentScanner last].
  cbn -[last] in Hnth.
  destruct (html5QrCodeRef w) as [q|] eqn:Eq; cbn -[registerCurrentScanner last];
    rewrite ?(Hready eq_refl); cbn -[registerCurrentScanner last];
    rewrite Hcams; cbn -[registerCurrentScanner last];
    rewrite Hnth; cbn -[registerCurrentScanner last];
    rewrite ?Eq; cbn -[registerCurrentScanner last];
    rewrite Hstart; cbn -[registerCurrentScanner last];
    match goal with
    | |- context [registerCurrentScanner ?W] =>
        destruct (registerCurrentScanner_frame W) as [Hx _];
        unfold outcome in Hx;
        destruct (registerCurrentScanner W) as [[[]|e] w1];
        cbn in Hx; [reflexivity | discriminate]
    end.
Qed.

Lemma started_cells (w : World) (cameraId : jsstring) :
  engine_ready w ->
  let w0 := exec (started cameraId) w in
  env w0 = env w /\ now w0 = now w /\ db w0 = db w /\ user w0 = user w /\
  console w0 = console w /\ timers w0 = timers w /\
  html5QrCodeRef w0 = Some {| Html5Qrcode.isScanning := true |} /\
  state w0 = state (exec (setCameraActive true ;; setScanStatus StatusIdle ;;
                          setError []) w) /\
  exists pre, calls w0 = calls w ++ pre /\
              Forall (fun c => forall r, c <> StoreCall r) pre.
Proof.
  intros Hready. unfold engine_ready in Hready. unfold started. handlers. cbn.
  destruct (html5QrCodeRef w) eqn:Eq; cbn; rewrite ?(Hready eq_refl); cbn;
    repeat split; rewrite <- ?app_assoc;
    eexists; (split; [reflexivity|]); repeat constructor; discriminate.
Qed.

(** The messages of a start that ends with the camera off. *)
Lemma startCamera_ends_consistently_aux (w : World) :
  (State.cameraActive (state (exec startCamera w)) = false ->
     State.error (state (exec startCamera w)) = permission_denied_message \/
     State.error (state (exec startCamera w)) = camera_failure_message) /\
  outcome startCamera w = Returned tt.
Proof.
  unfold startCamera, exec, outcome, try_catch.
  match goal with
  | |- context [match ?b w with _ => _ end] =>
      destruct (b w) as [[[]|e] w1] eqn:Body
  end.
  - split; [|reflexivity]. unfold snd. revert Body. handlers.
    cbn -[upsert_rows registration_payload].
    repeat (split_match; cbn -[upsert_rows registration_payload]);
      intros Body; inversion Body; subst; cbn; intros H; discriminate.
  - rewrite no_camera_branch_is_dead.
    destruct (includes _ _ || _ || _); handlers; cbn;
      (split; [|reflexivity]); intros _;
      [left | right]; reflexivity.
Qed.

(** X8: [startCamera] never throws, and it ends in one of two ways.  Either
    the camera is shown inactive, one of two messages is set (the
    permission one or the general one) and the error was written to the
    console, with nothing sent to the store; or the camera is shown
    active, the engine is scanning, the status is [idle], and the message
    is empty or the one of a failed registration. *)
Theorem startCamera_ends_consistently (w : World) :
  let w' := exec startCamera w in
  outcome startCamera w = Returned tt /\
  (State.cameraActive (state w') = false ->
     (State.error (state w') = permission_denied_message \/
      State.error (state w') = camera_failure_message) /\
     db w' = db w /\
     exists err,
       console w' = console w ++
         [{| level := LevelError; text := lit "Camera error:"; value := err |}]) /\
  (State.cameraActive (state w') = true ->
     scanning w' = true /\
     State.scanStatus (state w') = StatusIdle /\
     (State.error (state w') = [] \/
      State.error (state w') = lit "Failed to register scanner")).
Proof.
  unfold startCamera, exec, outcome, try_catch.
  match goal with
  | |- context [match ?b w with _ => _ end] =>
      destruct (b w) as [[[]|e] w1] eqn:Body
  end.
  - split; [reflexivity|]. unfold snd. revert Body. handlers.
    cbn -[upsert_rows registration_payload scanning].
    repeat (split_match; cbn -[upsert_rows registration_payload scanning]);
      intros Body; inversion Body; subst; unfold scanning; cbn; split;
      try (intros H; discriminate);
      intros _; repeat split; try reflexivity;
      try (left; reflexivity); right; reflexivity.
  - rewrite no_camera_branch_is_dead.
    assert (Hw1 : db w1 = db w /\ console w1 = console w).
    { revert Body. handlers. cbn -[upsert_rows registration_payload].
      repeat (split_match; cbn -[upsert_rows registration_payload]);
        intros Body; inversion Body; subst; cbn; split; reflexivity. }
    destruct Hw1 as [Hd Hc].
    destruct (includes _ _ || _ || _); handlers; cbn;
      (split; [reflexivity|]); (split; [|intros H; discriminate]);
      intros _; rewrite Hd, Hc;
      (split; [(left; reflexivity) || (right; reflexivity)|]);
      (split; [reflexivity|]); eexists; reflexivity.
Qed.

(** ** A start that is rejected *)

(** X9: When the engine cannot be made, the enumeration is rejected or the
    engine's [start] is rejected, with error [e], the camera is shown
    inactive, [e] is written to the console and nothing is sent to the
    store.  The message depends on the text line 176 makes of [e] alone
    (the message of an [Error], the string of any other value): the
    permission message when it includes ['camera'], ['permission'] or
    ['Permission denied'], the general one otherwise. *)
Theorem startCamera_rejected (w : World) (e : Thrown) :
  (html5QrCodeRef w = None /\ new_Html5Qrcode (env w) (lit "qr-reader") = Some e) \/
  (engine_ready w /\ getCameras (env w) = inl e) \/
  (engine_ready w /\
   exists cams d, getCameras (env w) = inr (Some cams) /\ cams <> [] /\
     start (env w) (CameraDevice.id (last cams d)) scanConfig = Some e) ->
  let w' := exec startCamera w in
  let msg := errorMessage e in
  State.cameraActive (state w') = false /\
  State.error (state w') =
    (if includes msg (lit "camera") || includes msg (lit "permission")
        || includes msg (lit "Permission denied")
     then permission_denied_message else camera_failure_message) /\
  console w' = console w ++
    [{| level := LevelError; text := lit "Camera error:"; value := e |}] /\
  db w' = db w /\
  State.scanners (state w') = State.scanners (state w) /\
  Forall (fun c => forall r, c <> StoreCall r) (skipn (List.length (calls w)) (calls w')).
Proof.
  intros H w' msg. subst w' msg. unfold engine_ready in H.
  assert (Hskip : forall (l l' : list Call), skipn (List.length l) (l ++ l') = l').
  { intros l l'. induction l; [reflexivity | exact IHl]. }
  unfold startCamera, exec, try_catch.
  match goal with
  | |- context [match ?b w with _ => _ end] =>
      assert (Body : exists l, b w = (Threw e, l) /\ db l = db w /\
                console l = console w /\
                State.scanners (state l) = State.scanners (state w) /\
                exists cs, calls l = calls w ++ cs /\
                           Forall (fun c => forall r, c <> StoreCall r) cs)
  end.
  { handlers. cbn.
    destruct H as [[Hr Hn] | [[Hr Hg] | [Hr [cams [d [Hg [Hne Hs]]]]]]].
    - rewrite Hr. cbn. rewrite Hn. cbn. eexists. split; [reflexivity|].
      repeat split. eexists. split; [reflexivity|].
      repeat constructor; discriminate.
    - destruct (html5QrCodeRef w) eqn:Eq; cbn; rewrite ?(Hr eq_refl); cbn;
        rewrite Hg; cbn; (eexists; split; [reflexivity|]);
        repeat split; rewrite <- ?app_assoc;
        (eexists; split; [reflexivity|]); repeat constructor; discriminate.
    - pose proof (nth_error_last d Hne) as Hnth.
      destruct cams as [|c0 cs]; [congruence|]. cbn -[last] in Hnth.
      destruct (html5QrCodeRef w) eqn:Eq; cbn -[last]; rewrite ?(Hr eq_refl);
        cbn -[last]; rewrite Hg; cbn -[last]; rewrite Hnth; cbn -[last];
        rewrite ?Eq; cbn -[last]; rewrite Hs; cbn -[last];
        (eexists; split; [reflexivity|]);
        repeat split; rewrite <- ?app_assoc;
        (eexists; split; [reflexivity|]); repeat constructor; discriminate. }
  destruct Body as [l [-> [Hd [Hc [Hl [cs [Hcs Hf]]]]]]].
  rewrite no_camera_branch_is_dead.
  destruct (includes _ _ || _ || _); handlers; cbn;
    rewrite Hd, Hc, Hl, Hcs, Hskip; repeat split; try reflexivity; exact Hf.
Qed.

(** The camera is in use by another application: the engine's [start]
    says so, and the user is told to grant permission. *)
Lemma startCamera_rejected_busy :
  let w := busy_camera in
  let w' := exec startCamera w in
  State.cameraActive (state w') = false /\
  State.error (state w') = permission_denied_message /\
  console w' = [] ++ [{| level := LevelError; text := lit "Camera error:"; value := busy |}] /\
  db w' = db w.
Proof.
  intros w.
  destruct (@startCamera_rejected w busy) as [H1 [H2 [H3 [H4 _]]]].
  - right. right. split; [intros _; reflexivity|].
    exists [{| CameraDevice.id := lit "cam0"; CameraDevice.label := lit "Back" |}],
           {| CameraDevice.id := lit "cam0"; CameraDevice.label := lit "Back" |}.
    split; [reflexivity|]. split; [discriminate | reflexivity].
  - cbv zeta. split; [exact H1|]. split; [exact H2|]. split; [exact H3 | exact H4].
Defined.

(** ** A start that succeeds *)

Lemma startCamera_success_cells
    (w : World) (cams : list CameraDevice.t) (d : CameraDevice.t) :
  engine_ready w ->
  getCameras (env w) = inr (Some cams) ->
  cams <> [] ->
  start (env w) (CameraDevice.id (last cams d)) scanConfig = None ->
  let w' := exec startCamera w in
  html5QrCodeRef w' = Some {| Html5Qrcode.isScanning := true |} /\
  env w' = env w /\ user w' = user w /\ timers w' = timers w /\ now w' = now w /\
  State.cameraActive (state w') = true /\
  State.scanStatus (state w') = StatusIdle /\
  State.scannedProduct (state w') = State.scannedProduct (state w) /\
  (State.error (state w') = [] \/
   State.error (state w') = lit "Failed to register scanner").
Proof.
  intros Hready Hcams Hne Hstart w'. subst w'. unfold exec.
  rewrite (startCamera_started d Hready Hcams Hne Hstart).
  destruct (started_cells (CameraDevice.id (last cams d)) Hready)
    as [He0 [Hn0 [_ [Hu0 [_ [Ht0 [Hr0 [Hs0 _]]]]]]]].
  set (w0 := exec (started (CameraDevice.id (last cams d))) w) in *.
  destruct (registerCurrentScanner_frame w0)
    as [_ [He [Hu [Hr [Ht [Hn [Hc [Hs [Hp Herr]]]]]]]]].
  unfold exec in *. fold w0.
  rewrite He, Hu, Hr, Ht, Hn, Hc, Hs, Hp, He0, Hn0, Hu0, Ht0, Hr0, Hs0.
  rewrite Hs0 in Herr.
  repeat split; try reflexivity. exact Herr.
Qed.

(** X10: When the camera has started and the registration request then fails,
    the camera stays on: it is shown active and the engine is scanning.
    The failure is logged and ['Failed to register scanner'] is set; the
    table and the listed scanners are as before. *)
Theorem failed_registration_leaves_camera_on
    (w : World) (cams : list CameraDevice.t) (d : CameraDevice.t)
    (usr : User.t) (e : Thrown) :
  engine_ready w ->
  getCameras (env w) = inr (Some cams) ->
  cams <> [] ->
  start (env w) (CameraDevice.id (last cams d)) scanConfig = None ->
  user w = Some usr ->
  (forall r, fault (env w) r = Some e) ->
  let w' := exec startCamera w in
  State.cameraActive (state w') = true /\
  scanning w' = true /\
  State.scanStatus (state w') = StatusIdle /\
  State.error (state w') = lit "Failed to register scanner" /\
  console w' = console w ++
    [{| level := LevelError; text := lit "Error registering scanner:"; value := e |}] /\
  db w' = db w /\
  State.scanners (state w') = State.scanners (state w) /\
  cameraPane (render (state w')) = QrReader [].
Proof.
  intros Hready Hcams Hne Hstart Hu Hf w'.
  destruct (startCamera_success_cells d Hready Hcams Hne Hstart)
    as [Hr [_ [_ [_ [_ [Hc [Hs _]]]]]]].
  fold w' in Hr, Hc, Hs.
  assert (E : State.error (state w') = lit "Failed to register scanner" /\
              console w' = console w ++
                [{| level := LevelError; text := lit "Error registering scanner:";
                    value := e |}] /\
              db w' = db w /\
              State.scanners (state w') = State.scanners (state w)).
  { subst w'. unfold exec.
    rewrite (startCamera_started d Hready Hcams Hne Hstart).
    unfold engine_ready in Hready. unfold started.
    handlers. cbn -[upsert_rows registration_payload].
    destruct (html5QrCodeRef w) eqn:Eq; cbn -[upsert_rows registration_payload];
      rewrite ?(Hready eq_refl); cbn -[upsert_rows registration_payload];
      rewrite Hu; cbn -[upsert_rows registration_payload];
      rewrite Hf; cbn; repeat split; reflexivity. }
  destruct E as [He [Hl [Hd Hsc]]].
  clearbody w'. unfold scanning. rewrite Hr. cbn. rewrite Hc, Hs.
  cbn. repeat split; assumption.
Qed.

(** Alice starts the camera while the store cannot be reached. *)
Lemma failed_registration_leaves_camera_on_offline :
  let w := mounted (failing_store failed_to_fetch calm) (Some alice) empty_store in
  let w' := exec startCamera w in
  State.cameraActive (state w') = true /\
  scanning w' = true /\
  State.scanStatus (state w') = StatusIdle /\
  State.error (state w') = lit "Failed to register scanner" /\
  console w' = [] ++
    [{| level := LevelError; text := lit "Error registering scanner:";
        value := failed_to_fetch |}] /\
  db w' = empty_store /\
  State.scanners (state w') = [] /\
  cameraPane (render (state w')) = QrReader [].
Proof.
  apply (@failed_registration_leaves_camera_on
           (mounted (failing_store failed_to_fetch calm) (Some alice) empty_store)
           [{| CameraDevice.id := lit "cam0"; CameraDevice.label := lit "Back" |}]
           {| CameraDevice.id := lit "cam0"; CameraDevice.label := lit "Back" |}
           alice failed_to_fetch).
  - intros _. reflexivity.
  - reflexivity.
  - discriminate.
  - reflexivity.
  - reflexivity.
  - intros r. reflexivity.
Defined.

(** ** Start, then stop *)

(** X11: After a start that succeeded, a stop that succeeds releases the
    camera: one [stop] goes to the engine, the engine no longer scans, the
    camera is shown inactive with the start button, and the status is
    [idle]. *)
Theorem start_then_stop_releases_camera
    (w : World) (cams : list CameraDevice.t) (d : CameraDevice.t) :
  engine_ready w ->
  getCameras (env w) = inr (Some cams) ->
  cams <> [] ->
  start (env w) (CameraDevice.id (last cams d)) scanConfig = None ->
  stop (env w) = None ->
  let w1 := exec startCamera w in
  let w2 := exec stopCamera w1 in
  scanning w1 = true /\
  outcome stopCamera w1 = Returned tt /\
  calls w2 = calls w1 ++ [EngineStop] /\
  scanning w2 = false /\
  State.cameraActive (state w2) = false /\
  State.scanStatus (state w2) = StatusIdle /\
  cameraPane (render (state w2)) = StartButton /\
  console w2 = console w1.
Proof.
  intros Hready Hcams Hne Hstart Hstop w1 w2.
  destruct (startCamera_success_cells d Hready Hcams Hne Hstart)
    as [Hr [He _]].
  fold w1 in Hr, He.
  pose proof (stopCamera_state w1) as Hst. fold w2 in Hst.
  assert (Hsc : scanning w1 = true) by (unfold scanning; rewrite Hr; reflexivity).
  assert (H2 : outcome stopCamera w1 = Returned tt /\
               calls w2 = calls w1 ++ [EngineStop] /\
               html5QrCodeRef w2 = Some {| Html5Qrcode.isScanning := false |} /\
               console w2 = console w1).
  { subst w2. clearbody w1. handlers. cbn. rewrite Hr. cbn.
    rewrite He, Hstop. cbn. repeat split; reflexivity. }
  destruct H2 as [Ho [Hc [Hr2 Hl]]].
  clearbody w2 w1.
  split; [exact Hsc|]. split; [exact Ho|]. split; [exact Hc|].
  split; [unfold scanning; rewrite Hr2; reflexivity|].
  unfold render. rewrite Hst. cbn. repeat split. exact Hl.
Qed.

Lemma start_then_stop_releases_camera_two_cameras :
  let w1 := exec startCamera two_cameras in
  let w2 := exec stopCamera w1 in
  scanning w1 = true /\
  outcome stopCamera w1 = Returned tt /\
  calls w2 = calls w1 ++ [EngineStop] /\
  scanning w2 = false /\
  State.cameraActive (state w2) = false /\
  State.scanStatus (state w2) = StatusIdle /\
  cameraPane (render (state w2)) = StartButton /\
  console w2 = console w1.
Proof.
  apply (@start_then_stop_releases_camera two_cameras
           [front_camera; back_camera] front_camera).
  - intros _. reflexivity.
  - reflexivity.
  - discriminate.
  - reflexivity.
  - reflexivity.
Defined.

(** ** The order of the scanner list *)

Section LastUsedOrder.

Let before (a b : ScannerRow.t) : Prop := last_used_before a b = true.

Lemma last_used_before_total (a b : ScannerRow.t) :
  last_used_before a b = false -> last_used_before b a = true.
Proof.
  unfold last_used_before.
  destruct (ScannerRow.last_used_at a), (ScannerRow.last_used_at b);
    try discriminate; try reflexivity.
  intros H. apply N.leb_gt in H. apply N.leb_le. lia.
Qed.

Lemma last_used_before_trans (a b c : ScannerRow.t) :
  last_used_before a b = true -> last_used_before b c = true ->
  last_used_before a c = true.
Proof.
  unfold last_used_before.
  destruct (ScannerRow.last_used_at a), (ScannerRow.last_used_at b),
    (ScannerRow.last_used_at c); try discriminate; try reflexivity.
  intros H1 H2. apply N.leb_le in H1, H2. apply N.leb_le. lia.
Qed.

Lemma insert_ordered_perm (r : ScannerRow.t) (l : list ScannerRow.t) :
  Permutation (insert_ordered r l) (r :: l).
Proof.
  induction l as [|x l IH]; simpl; [reflexivity|].
  destruct (last_used_before r x); [reflexivity|].
  rewrite IH. apply perm_swap.
Qed.

Lemma order_by_last_used_perm (l : list ScannerRow.t) :
  Permutation (order_by_last_used l) l.
Proof.
  induction l as [|x l IH]; simpl; [reflexivity|].
  rewrite insert_ordered_perm. apply perm_skip. exact IH.
Qed.

Lemma insert_ordered_sorted (r : ScannerRow.t) (l : list ScannerRow.t) :
  StronglySorted before l -> StronglySorted before (insert_ordered r l).
Proof.
  induction 1 as [|x l Hs IH Hx]; simpl.
  - repeat constructor.
  - destruct (last_used_before r x) eqn:E.
    + constructor; [constructor; assumption|].
      constructor; [exact E|].
      apply Forall_forall. intros y Hy.
      rewrite Forall_forall in Hx.
      apply (last_used_before_trans r x y E (Hx y Hy)).
    + constructor; [exact IH|].
      apply Forall_forall. intros y Hy.
      apply (Permutation_in _ (insert_ordered_perm r l)) in Hy.
      destruct Hy as [<- | Hy].
      * apply last_used_before_total. exact E.
      * rewrite Forall_forall in Hx. apply Hx. exact Hy.
Qed.

Lemma order_by_last_used_sorted (l : list ScannerRow.t) :
  StronglySorted before (order_by_last_used l).
Proof.
  induction l as [|x l IH]; simpl; [constructor|].
  apply insert_ordered_sorted. exact IH.
Qed.

(** Before a list all of whose rows may follow [r], [r] goes first. *)
Lemma insert_ordered_first (r : ScannerRow.t) (l : list ScannerRow.t) :
  Forall (before r) l -> insert_ordered r l = r :: l.
Proof.
  destruct 1 as [|x l Hx _]; simpl; [reflexivity|].
  unfold before in Hx. rewrite Hx. reflexivity.
Qed.

(** Dropping rows from an ordered list and putting a row in commute. *)
Lemma filter_insert_ordered (keep : ScannerRow.t -> bool)
    (r : ScannerRow.t) (l : list ScannerRow.t) :
  StronglySorted before l ->
  filter keep (insert_ordered r l) =
  if keep r then insert_ordered r (filter keep l) else filter keep l.
Proof.
  induction 1 as [|x l Hs IH Hx]; simpl.
  - destruct (keep r); reflexivity.
  - destruct (last_used_before r x) eqn:E.
    + assert (Hall : Forall (before r) (filter keep (x :: l))).
      { apply Forall_forall. intros y Hy. apply filter_In in Hy as [Hy _].
        destruct Hy as [<- | Hy]; [exact E|].
        rewrite Forall_forall in Hx.
        apply (last_used_before_trans r x y E (Hx y Hy)). }
      simpl. simpl in Hall. destruct (keep r).
      * rewrite (insert_ordered_first Hall). reflexivity.
      * reflexivity.
    + simpl. rewrite IH. destruct (keep x), (keep r); simpl;
        rewrite ?E; reflexivity.
Qed.

Lemma filter_order_by_last_used (keep : ScannerRow.t -> bool) (l : list ScannerRow.t) :
  filter keep (order_by_last_used l) = order_by_last_used (filter keep l).
Proof.
  induction l as [|x l IH]; simpl; [reflexivity|].
  rewrite (filter_insert_ordered keep x (order_by_last_used_sorted l)), IH.
  destruct (keep x); reflexivity.
Qed.

End LastUsedOrder.

Lemma active_rows_of_In (u : jsstring) (rows : list ScannerRow.t) (r : ScannerRow.t) :
  In r (active_rows_of u rows) <->
  In r rows /\ ScannerRow.user_id r = u /\ ScannerRow.is_active r = Some true.
Proof.
  unfold active_rows_of. rewrite filter_In, andb_true_iff, eqb_eq.
  destruct (ScannerRow.is_active r) as [[|]|]; intuition congruence.
Qed.

(** ** Loading the scanner list *)

Lemma loadScanners_loaded (w : World) (usr : User.t) :
  user w = Some usr ->
  fault (env w) (SelectActiveScanners (User.id usr)) = None ->
  loadScanners w =
  (call (StoreCall (SelectActiveScanners (User.id usr))) ;;
   setScanners (order_by_last_used
                  (active_rows_of (User.id usr) (Store.scanners (db w)))) ;;
   setLoadingScanners false) w.
Proof.
  intros Hu Hf. handlers. cbn. rewrite Hu. cbn. rewrite Hf. reflexivity.
Qed.

(** X12: With a user, and the store answering, [loadScanners] lists exactly the
    user's active profiles: each of them once, none of another user, none
    inactive; the most recently used come first and those never used come
    last.  It sends the one query, changes no table and ends with the
    loading flag down.  The effect of lines 30-34 does the same: its guard
    on [user] repeats the one inside. *)
Theorem loadScanners_lists_own_active_profiles (w : World) (usr : User.t) :
  user w = Some usr ->
  fault (env w) (SelectActiveScanners (User.id usr)) = None ->
  let w' := exec loadScanners w in
  let listed := State.scanners (state w') in
  (forall r, In r listed <->
             In r (Store.scanners (db w)) /\
             ScannerRow.user_id r = User.id usr /\
             ScannerRow.is_active r = Some true) /\
  Permutation listed (active_rows_of (User.id usr) (Store.scanners (db w))) /\
  StronglySorted (fun a b => last_used_before a b = true) listed /\
  State.loadingScanners (state w') = false /\
  db w' = db w /\
  calls w' = calls w ++ [StoreCall (SelectActiveScanners (User.id usr))] /\
  userEffect w = loadScanners w.
Proof.
  intros Hu Hf w' listed.
  assert (E : listed = order_by_last_used
                (active_rows_of (User.id usr) (Store.scanners (db w)))).
  { subst listed w'. unfold exec. rewrite (loadScanners_loaded w Hu Hf).
    reflexivity. }
  assert (E2 : State.loadingScanners (state w') = false /\ db w' = db w /\
               calls w' = calls w ++ [StoreCall (SelectActiveScanners (User.id usr))]).
  { subst w'. unfold exec. rewrite (loadScanners_loaded w Hu Hf).
    repeat split; reflexivity. }
  clearbody listed w'. subst listed.
  split.
  { intros r. rewrite <- active_rows_of_In. split; intros H.
    - apply (Permutation_in _ (order_by_last_used_perm _) H).
    - apply (Permutation_in _ (Permutation_sym (order_by_last_used_perm _)) H). }
  split; [apply order_by_last_used_perm|].
  split; [apply order_by_last_used_sorted|].
  destruct E2 as [H1 [H2 H3]].
  split; [exact H1|]. split; [exact H2|]. split; [exact H3|].
  unfold userEffect, bind, gets. rewrite Hu. reflexivity.
Qed.

(** Alice's profiles in the shared table: the retired one and Bob's are
    left out, the one never used comes last. *)
Lemma loadScanners_lists_own_active_profiles_shared :
  let w := mounted calm (Some alice) shared_store in
  let w' := exec loadScanners w in
  let listed := State.scanners (state w') in
  listed = [scanner_abc; scanner_def; scanner_unused] /\
  (forall r, In r listed <->
             In r (Store.scanners (db w)) /\
             ScannerRow.user_id r = User.id alice /\
             ScannerRow.is_active r = Some true) /\
  StronglySorted (fun a b => last_used_before a b = true) listed /\
  State.loadingScanners (state w') = false.
Proof.
  destruct (@loadScanners_lists_own_active_profiles
              (mounted calm (Some alice) shared_store) alice eq_refl eq_refl)
    as [H1 [_ [H3 [H4 _]]]].
  cbv zeta. split; [reflexivity|]. split; [exact H1|]. split; [exact H3 | exact H4].
Defined.

(** X13: [loadScanners] tells nobody when it fails.  Without a user it does
    nothing at all.  When the store answers the query with an error, the
    list is left as it was, no message is set, nothing is logged, and the
    loading flag is down again; it never throws. *)
Theorem loadScanners_fails_silently (w : World) :
  let w' := exec loadScanners w in
  outcome loadScanners w = Returned tt /\
  (user w <> None -> State.loadingScanners (state w') = false) /\
  (user w = None -> w' = w) /\
  (forall usr e,
     user w = Some usr ->
     fault (env w) (SelectActiveScanners (User.id usr)) = Some e ->
     State.scanners (state w') = State.scanners (state w) /\
     State.error (state w') = State.error (state w) /\
     console w' = console w /\
     db w' = db w /\
     errorBox (render (state w')) = errorBox (render (state w))).
Proof.
  intros w'. subst w'. handlers. cbn.
  destruct (user w) as [usr|] eqn:Eu; cbn.
  - destruct (fault (env w) (SelectActiveScanners (User.id usr))) eqn:Ef; cbn;
      (split; [reflexivity|]);
      (split; [reflexivity|]);
      (split; [discriminate|]);
      intros usr' e' Hu Hf; injection Hu as <-; rewrite Ef in Hf;
      try discriminate; cbn; repeat split; reflexivity.
  - split; [reflexivity|]. split; [congruence|].
    split; [reflexivity|]. intros usr e H. discriminate.
Qed.

Lemma loadScanners_fails_silently_offline :
  let w := with_env (failing_store failed_to_fetch calm) (loaded true) in
  let w' := exec loadScanners w in
  State.scanners (state w') = [scanner_abc; scanner_def; scanner_unused] /\
  State.error (state w') = [] /\
  console w' = [] /\
  State.loadingScanners (state w') = false.
Proof.
  destruct (loadScanners_fails_silently
              (with_env (failing_store failed_to_fetch calm) (loaded true)))
    as [_ [Hl [_ H]]].
  destruct (H alice failed_to_fetch eq_refl eq_refl) as [H1 [H2 [H3 _]]].
  cbv zeta. split; [exact H1|]. split; [exact H2|]. split; [exact H3|].
  apply Hl. discriminate.
Defined.

(** ** Deleting a scanner profile, continued *)

Lemma filter_filter_and (A : Type) (f g : A -> bool) (l : list A) :
  filter f (filter g l) = filter (fun x => g x && f x) l.
Proof.
  induction l as [|x l IH]; simpl; [reflexivity|].
  destruct (g x); simpl; [destruct (f x)|]; rewrite IH; reflexivity.
Qed.

(** A delete that is confirmed and that the store accepts. *)
Lemma deleteScannerInfo_deleted (w : World) (scannerId : jsstring) (usr : User.t) :
  confirm (env w) delete_prompt = true ->
  user w = Some usr ->
  fault (env w) (DeleteScanner scannerId (Some (User.id usr))) = None ->
  deleteScannerInfo scannerId w =
  (call (ConfirmCall delete_prompt) ;;
   call (StoreCall (DeleteScanner scannerId (Some (User.id usr)))) ;;
   modify (fun w0 => with_db
     {| Store.products := Store.products (db w0);
        Store.scan_history := Store.scan_history (db w0);
        Store.scanners :=
          filter (fun r => negb (same_id scannerId r &&
                                 JS.eqb (ScannerRow.user_id r) (User.id usr)))
                 (Store.scanners (db w0)) |} w0) ;;
   setScanners (filter (fun s => negb (JS.eqb (ScannerRow.id s) scannerId))
                       (State.scanners (state w))) ;;
   setError []) w.
Proof.
  intros Hc Hu Hf. handlers. cbn. rewrite Hc. cbn. rewrite Hu. cbn.
  rewrite Hf. reflexivity.
Qed.


(** X14: When the delete request fails, nothing is deleted anywhere: the table
    and the listed scanners are as before, the failure is logged and
    ['Failed to delete scanner'] is set. *)
Theorem failed_delete_changes_nothing
    (w : World) (scannerId : jsstring) (usr : User.t) (e : Thrown) :
  confirm (env w) delete_prompt = true ->
  user w = Some usr ->
  fault (env w) (DeleteScanner scannerId (Some (User.id usr))) = Some e ->
  let w' := exec (deleteScannerInfo scannerId) w in
  outcome (deleteScannerInfo scannerId) w = Returned tt /\
  db w' = db w /\
  State.scanners (state w') = State.scanners (state w) /\
  State.error (state w') = lit "Failed to delete scanner" /\
  console w' = console w ++
    [{| level := LevelError; text := lit "Error deleting scanner:"; value := e |}].
Proof.
  intros Hc Hu Hf w'. subst w'. handlers. cbn. rewrite Hc. cbn.
  rewrite Hu. cbn. rewrite Hf. cbn. repeat split; reflexivity.
Qed.

Lemma failed_delete_changes_nothing_offline :
  let w := with_env (failing_store failed_to_fetch (answering true calm)) (loaded true) in
  let w' := exec (deleteScannerInfo (lit "abc")) w in
  outcome (deleteScannerInfo (lit "abc")) w = Returned tt /\
  db w' = shared_store /\
  State.scanners (state w') = [scanner_abc; scanner_def; scanner_unused] /\
  State.error (state w') = lit "Failed to delete scanner" /\
  console w' = [] ++
    [{| level := LevelError; text := lit "Error deleting scanner:";
        value := failed_to_fetch |}].
Proof.
  apply (@failed_delete_changes_nothing
           (with_env (failing_store failed_to_fetch (answering true calm)) (loaded true))
           (lit "abc") alice failed_to_fetch); reflexivity.
Defined.

(** Leaving rows out keeps a list a permutation of the rows kept, and
    keeps it sorted. *)
Lemma filter_perm (A : Type) (f : A -> bool) (l l' : list A) :
  Permutation l l' -> Permutation (filter f l) (filter f l').
Proof.
  induction 1 as [|x l l' _ IH|x y l|l l1 l2 _ IH1 _ IH2]; simpl.
  - constructor.
  - destruct (f x); [constructor|]; exact IH.
  - destruct (f x), (f y); try apply Permutation_refl. apply perm_swap.
  - exact (Permutation_trans IH1 IH2).
Qed.

Lemma filter_sorted (A : Type) (R : A -> A -> Prop) (f : A -> bool) (l : list A) :
  StronglySorted R l -> StronglySorted R (filter f l).
Proof.
  induction 1 as [|x l _ IH Hall]; simpl; [constructor|].
  destruct (f x); [|exact IH]. constructor; [exact IH|].
  rewrite Forall_forall in *. intros y Hy. apply filter_In in Hy as [Hy _].
  apply Hall, Hy.
Qed.

(** X15: After a delete that succeeds, the list kept in the component is what
    a reload would show, provided it was so before: if the list held the
    user's active profiles, each once, the most recently used first, in
    whichever order the store gave those that tie, then the list with the
    deleted id filtered out holds the user's active profiles of the table
    after the delete, each once, the most recently used first; it has the
    rows a reload fetches, and none of them has the deleted id. *)
Theorem delete_agrees_with_reload
    (w : World) (scannerId : jsstring) (usr : User.t) :
  confirm (env w) delete_prompt = true ->
  user w = Some usr ->
  fault (env w) (DeleteScanner scannerId (Some (User.id usr))) = None ->
  Permutation (State.scanners (state w))
    (active_rows_of (User.id usr) (Store.scanners (db w))) ->
  StronglySorted (fun a b => last_used_before a b = true) (State.scanners (state w)) ->
  let w' := exec (deleteScannerInfo scannerId) w in
  let listed := State.scanners (state w') in
  Permutation listed (active_rows_of (User.id usr) (Store.scanners (db w'))) /\
  StronglySorted (fun a b => last_used_before a b = true) listed /\
  (fault (env w) (SelectActiveScanners (User.id usr)) = None ->
   Permutation listed (State.scanners (state (exec loadScanners w')))) /\
  (forall r, In r listed -> ScannerRow.id r <> scannerId) /\
  (forall r, In r listed <->
             In r (State.scanners (state w)) /\ ScannerRow.id r <> scannerId).
Proof.
  intros Hc Hu Hfd Hperm Hsorted w' listed. subst listed.
  assert (E : w' = exec (deleteScannerInfo scannerId) w) by reflexivity.
  unfold exec in E. rewrite (deleteScannerInfo_deleted w scannerId Hc Hu Hfd) in E.
  assert (Hl : State.scanners (state w') =
               filter (fun s => negb (JS.eqb (ScannerRow.id s) scannerId))
                      (State.scanners (state w))) by (rewrite E; reflexivity).
  assert (Hdb : Store.scanners (db w') =
                filter (fun r => negb (same_id scannerId r &&
                                       JS.eqb (ScannerRow.user_id r) (User.id usr)))
                       (Store.scanners (db w))) by (rewrite E; reflexivity).
  assert (Hu' : user w' = Some usr) by (rewrite E; exact Hu).
  assert (Hfs' : fault (env w') = fault (env w)) by (rewrite E; reflexivity).
  clearbody w'. clear E.
  assert (HP : Permutation (State.scanners (state w'))
                 (active_rows_of (User.id usr) (Store.scanners (db w')))).
  { rewrite Hl, Hdb.
    replace (active_rows_of (User.id usr) (filter _ (Store.scanners (db w))))
      with (filter (fun s => negb (JS.eqb (ScannerRow.id s) scannerId))
              (active_rows_of (User.id usr) (Store.scanners (db w)))).
    - apply filter_perm, Hperm.
    - unfold active_rows_of. rewrite !filter_filter_and.
      apply filter_ext_in. intros r _. unfold same_id.
      destruct (JS.eqb (ScannerRow.user_id r) (User.id usr));
        destruct (JS.eqb (ScannerRow.id r) scannerId);
        destruct (ScannerRow.is_active r) as [[|]|]; reflexivity. }
  split; [exact HP|].
  split; [rewrite Hl; apply filter_sorted, Hsorted|].
  split.
  { intros Hfs. unfold exec. rewrite (loadScanners_loaded w' Hu').
    - cbn. apply (Permutation_trans HP), Permutation_sym, order_by_last_used_perm.
    - rewrite Hfs'. exact Hfs. }
  split.
  - intros r Hr. rewrite Hl in Hr. apply filter_In in Hr as [_ Hr].
    apply negb_true_iff in Hr. intros Heq. apply eqb_eq in Heq. congruence.
  - intros r. rewrite Hl, filter_In, negb_true_iff. split; intros [H1 H2].
    + split; [exact H1|]. intros Heq. apply eqb_eq in Heq. congruence.
    + split; [exact H1|]. destruct (JS.eqb (ScannerRow.id r) scannerId) eqn:Eq;
        [apply eqb_eq in Eq; contradiction | reflexivity].
Qed.

(** Alice deletes ["def"] from her loaded list. *)
Lemma delete_agrees_with_reload_shared :
  let w := loaded true in
  let w' := exec (deleteScannerInfo (lit "def")) w in
  State.scanners (state w') = [scanner_abc; scanner_unused] /\
  Permutation (State.scanners (state w'))
    (active_rows_of (lit "alice") (Store.scanners (db w'))) /\
  StronglySorted (fun a b => last_used_before a b = true) (State.scanners (state w')) /\
  (forall r, In r (State.scanners (state w')) -> ScannerRow.id r <> lit "def").
Proof.
  split; [reflexivity|].
  destruct (@delete_agrees_with_reload (loaded true) (lit "def") alice)
    as [H1 [H2 [_ [H3 _]]]].
  - reflexivity.
  - reflexivity.
  - reflexivity.
  - replace (State.scanners (state (loaded true)))
      with (order_by_last_used
              (active_rows_of (User.id alice) (Store.scanners (db (loaded true)))))
      by (vm_compute; reflexivity).
    apply order_by_last_used_perm.
  - vm_compute. repeat constructor.
  - cbv zeta. split; [exact H1|]. split; [exact H2 | exact H3].
Defined.

(** ** The first start of a day *)

Lemma no_same_name_not_found (rows : list ScannerRow.t) (uid name : jsstring) :
  (forall r, In r rows ->
     ~ (ScannerRow.user_id r = uid /\ ScannerRow.scanner_name r = name)) ->
  existsb (same_owner_and_name uid name) rows = false.
Proof.
  intros H. destruct (existsb _ rows) eqn:E; [|reflexivity].
  apply existsb_exists in E as [r [Hin Hr]].
  unfold same_owner_and_name in Hr. apply andb_true_iff in Hr as [H1 H2].
  apply eqb_eq in H1, H2. destruct (H r Hin (conj H1 H2)).
Qed.

(** A registration that the store accepts as an insert. *)
Lemma registerCurrentScanner_inserted (w : World) (usr : User.t) :
  user w = Some usr ->
  (forall r, fault (env w) r = None) ->
  (forall r, In r (Store.scanners (db w)) ->
     ~ (ScannerRow.user_id r = User.id usr /\
        ScannerRow.scanner_name r = scannerName_at w)) ->
  (forall r, In r (Store.scanners (db w)) ->
     ScannerRow.id r <> gen_random_uuid (env w)) ->
  let rows' := Store.scanners (db w) ++
    [new_row (gen_random_uuid (env w)) (now w) (registration_payload usr w)] in
  registerCurrentScanner w =
  (call (StoreCall (UpsertScanner (registration_payload usr w))) ;;
   modify (fun w0 => with_db
     {| Store.products := Store.products (db w0);
        Store.scan_history := Store.scan_history (db w0);
        Store.scanners := rows' |} w0) ;;
   setLoadingScanners true ;;
   call (StoreCall (SelectActiveScanners (User.id usr))) ;;
   setScanners (order_by_last_used (active_rows_of (User.id usr) rows')) ;;
   setLoadingScanners false ;;
   setShowScannerModal false) w.
Proof.
  intros Hu Hf Hname Hfresh rows'.
  assert (Hup : upsert_rows OnPrimaryKey (gen_random_uuid (env w)) (now w)
                  (registration_payload usr w) (Store.scanners (db w)) = inr rows').
  { unfold upsert_rows.
    change (ScannerPayload.user_id (registration_payload usr w)) with (User.id usr).
    change (ScannerPayload.scanner_name (registration_payload usr w))
      with (scannerName_at w).
    rewrite (@fresh_id_not_found _ _ Hfresh).
    rewrite (@no_same_name_not_found _ _ _ Hname). reflexivity. }
  subst rows'.
  handlers. cbn -[upsert_rows registration_payload].
  rewrite Hu. cbn -[upsert_rows registration_payload].
  rewrite Hf. cbn -[upsert_rows registration_payload].
  rewrite Hup. cbn -[upsert_rows registration_payload].
  rewrite Hu. cbn -[upsert_rows registration_payload].
  rewrite Hf. reflexivity.
Qed.

(** X16: When the camera starts, the store answers, and the user has no
    profile named for today yet, the start ends with the camera on, the
    status [idle] and no message; one profile has been added to the table,
    named ["Camera-"] and the date, of type [camera], active and last used
    now; the profile is in the list the component then holds, which has
    been loaded again, and the modal is closed. *)
Theorem first_start_of_the_day_registers
    (w : World) (cams : list CameraDevice.t) (d : CameraDevice.t) (usr : User.t) :
  engine_ready w ->
  getCameras (env w) = inr (Some cams) ->
  cams <> [] ->
  start (env w) (CameraDevice.id (last cams d)) scanConfig = None ->
  user w = Some usr ->
  (forall r, fault (env w) r = None) ->
  (forall r, In r (Store.scanners (db w)) ->
     ~ (ScannerRow.user_id r = User.id usr /\
        ScannerRow.scanner_name r = scannerName_at w)) ->
  (forall r, In r (Store.scanners (db w)) ->
     ScannerRow.id r <> gen_random_uuid (env w)) ->
  let w' := exec startCamera w in
  let added := new_row (gen_random_uuid (env w)) (now w) (registration_payload usr w) in
  State.cameraActive (state w') = true /\
  scanning w' = true /\
  State.scanStatus (state w') = StatusIdle /\
  State.error (state w') = [] /\
  Store.scanners (db w') = Store.scanners (db w) ++ [added] /\
  ScannerRow.user_id added = User.id usr /\
  ScannerRow.scanner_name added = lit "Camera-" ++ toLocaleDateString (env w) (now w) /\
  ScannerRow.scanner_type added = Some (lit "camera") /\
  ScannerRow.is_active added = Some true /\
  ScannerRow.last_used_at added = Some (now w) /\
  In added (State.scanners (state w')) /\
  (forall r, In r (State.scanners (state w')) <->
             In r (Store.scanners (db w')) /\
             ScannerRow.user_id r = User.id usr /\
             ScannerRow.is_active r = Some true) /\
  State.showScannerModal (state w') = false /\
  State.loadingScanners (state w') = false.
Proof.
  intros Hready Hcams Hne Hstart Hu Hf Hname Hfresh w' added.
  destruct (startCamera_success_cells d Hready Hcams Hne Hstart)
    as [Hr [_ [_ [_ [_ [Hc [Hs _]]]]]]].
  fold w' in Hr, Hc, Hs.
  destruct (started_cells (CameraDevice.id (last cams d)) Hready)
    as [He0 [Hn0 [Hd0 [Hu0 [_ [_ [_ [Hs0 _]]]]]]]].
  set (w0 := exec (started (CameraDevice.id (last cams d))) w) in *.
  assert (Hp0 : registration_payload usr w0 = registration_payload usr w).
  { unfold registration_payload, scannerName_at, deviceInfo_at.
    rewrite He0, Hn0. reflexivity. }
  assert (E : w' = exec registerCurrentScanner w0).
  { subst w' w0. unfold exec.
    rewrite (startCamera_started d Hready Hcams Hne Hstart). reflexivity. }
  unfold exec in E.
  rewrite (@registerCurrentScanner_inserted w0 usr) in E.
  - rewrite Hp0, He0, Hn0, Hd0 in E. fold added in E.
    assert (Hl : State.scanners (state w') =
                 order_by_last_used
                   (active_rows_of (User.id usr) (Store.scanners (db w) ++ [added])))
      by (rewrite E; reflexivity).
    assert (Hdb : Store.scanners (db w') = Store.scanners (db w) ++ [added])
      by (rewrite E; reflexivity).
    assert (Herr : State.error (state w') = []).
    { rewrite E. cbn. rewrite Hs0. reflexivity. }
    assert (Hm : State.showScannerModal (state w') = false /\
                 State.loadingScanners (state w') = false)
      by (rewrite E; split; reflexivity).
    assert (Hall : forall r, In r (State.scanners (state w')) <->
                     In r (Store.scanners (db w')) /\
                     ScannerRow.user_id r = User.id usr /\
                     ScannerRow.is_active r = Some true).
    { intros r. rewrite Hl, Hdb, <- active_rows_of_In. split; intros H.
      - apply (Permutation_in _ (order_by_last_used_perm _) H).
      - apply (Permutation_in _ (Permutation_sym (order_by_last_used_perm _)) H). }
    clearbody w'. clear E.
    split; [exact Hc|]. split; [unfold scanning; rewrite Hr; reflexivity|].
    split; [exact Hs|]. split; [exact Herr|]. split; [exact Hdb|].
    split; [reflexivity|]. split; [reflexivity|]. split; [reflexivity|].
    split; [reflexivity|]. split; [reflexivity|].
    split; [|split; [exact Hall | exact Hm]].
    apply Hall. rewrite Hdb. split; [|split; reflexivity].
    apply in_or_app. right. left. reflexivity.
  - rewrite Hu0. exact Hu.
  - intros r. rewrite He0. apply Hf.
  - intros r. rewrite Hd0. unfold scannerName_at. rewrite He0, Hn0.
    apply Hname.
  - intros r. rewrite Hd0, He0. apply Hfresh.
Qed.

(** Alice starts the camera on a day for which the shared table has no
    profile of hers. *)
Lemma first_start_of_the_day_registers_shared :
  let w := next_day in
  let w' := exec startCamera w in
  exists added,
    State.cameraActive (state w') = true /\
    State.error (state w') = [] /\
    Store.scanners (db w') = Store.scanners shared_store ++ [added] /\
    ScannerRow.scanner_name added = lit "Camera-12/10/2025" /\
    ScannerRow.last_used_at added = Some 9000%N /\
    State.scanners (state w') = [added; scanner_abc; scanner_def; scanner_unused].
Proof.
  intros w.
  destruct (@first_start_of_the_day_registers w
              [{| CameraDevice.id := lit "cam0"; CameraDevice.label := lit "Back" |}]
              {| CameraDevice.id := lit "cam0"; CameraDevice.label := lit "Back" |}
              alice)
    as [H1 [_ [_ [H4 [H5 [_ [H7 [_ [_ [H10 _]]]]]]]]]].
  - intros _. reflexivity.
  - reflexivity.
  - discriminate.
  - reflexivity.
  - reflexivity.
  - intros r. reflexivity.
  - intros r Hin [_ Hn]. revert Hn.
    repeat (destruct Hin as [<- | Hin]; [vm_compute; discriminate|]).
    destruct Hin.
  - intros r Hin.
    repeat (destruct Hin as [<- | Hin]; [vm_compute; discriminate|]).
    destruct Hin.
  - eexists. split; [exact H1|]. split; [exact H4|]. split; [exact H5|].
    split; [exact H7|]. split; [exact H10|]. vm_compute. reflexivity.
Defined.

(** ** Whom the requests are made for *)

Ltac trace_of_handler :=
  handlers; unfold unmountCleanup, userEffect, started; handlers;
  cbn -[upsert_rows registration_payload];
  repeat (split_match; cbn -[upsert_rows registration_payload]);
  rewrite <- ?app_assoc;
  first [ eexists; split; [reflexivity|]
        | exists []; split; [symmetry; apply app_nil_r|] ];
  repeat constructor; cbn; congruence.

(** X17: No handler sends a request in the name of anyone but the logged-in
    user: whatever each handler adds to the calls made, every request in
    it that names a user (a history row, a profile query, an upsert, a
    delete) names the [user.id] of the component; a handler only ever adds
    to the calls. *)
Theorem requests_name_the_logged_in_user (w : World) :
  let mine := Forall (for_user (option_map User.id (user w))) in
  (exists l, calls (exec startCamera w) = calls w ++ l /\ mine l) /\
  (exists l, calls (exec stopCamera w) = calls w ++ l /\ mine l) /\
  (forall sn, exists l, calls (exec (searchProduct sn) w) = calls w ++ l /\ mine l) /\
  (exists l, calls (exec handleManualSearch w) = calls w ++ l /\ mine l) /\
  (forall sn m, exists l,
     calls (exec (saveScanHistory sn m) w) = calls w ++ l /\ mine l) /\
  (exists l, calls (exec loadScanners w) = calls w ++ l /\ mine l) /\
  (exists l, calls (exec registerCurrentScanner w) = calls w ++ l /\ mine l) /\
  (forall scannerId, exists l,
     calls (exec (deleteScannerInfo scannerId) w) = calls w ++ l /\ mine l) /\
  (exists l, calls (exec unmountCleanup w) = calls w ++ l /\ mine l).
Proof.
  intros mine. subst mine.
  split; [trace_of_handler|]. split; [trace_of_handler|].
  split; [intros sn; trace_of_handler|]. split; [trace_of_handler|].
  split; [intros sn m; trace_of_handler|]. split; [trace_of_handler|].
  split; [trace_of_handler|]. split; [intros scannerId; trace_of_handler|].
  trace_of_handler.
Qed.

(** ** Unmounting *)

(** X18: The cleanup at unmount stops the engine when it is scanning, and only
    then; a failure of that [stop] is logged and goes no further.  It
    leaves the component's state, the store and the pending timers as
    they are: no timer is cancelled. *)
Theorem unmount_stops_engine_only (w : World) :
  let w' := exec unmountCleanup w in
  outcome unmountCleanup w = Returned tt /\
  state w' = state w /\ timers w' = timers w /\ db w' = db w /\
  (scanning w = false -> w' = w) /\
  (scanning w = true ->
     calls w' = calls w ++ [EngineStop] /\
     (stop (env w) = None -> scanning w' = false /\ console w' = console w) /\
     (forall e, stop (env w) = Some e ->
        console w' = console w ++
          [{| level := LevelLog; text := lit "Error stopping scanner on unmount:";
              value := e |}])).
Proof.
  intros w'. subst w'. unfold unmountCleanup, scanning. handlers. cbn.
  destruct (html5QrCodeRef w) as [[[|]]|] eqn:Er; cbn.
  - destruct (stop (env w)) as [e|] eqn:Es; cbn; rewrite ?Er; cbn;
      (split; [reflexivity|]); (split; [reflexivity|]);
      (split; [reflexivity|]); (split; [reflexivity|]);
      (split; [discriminate|]); intros _; (split; [reflexivity|]); split;
      try discriminate; try (intros _; split; reflexivity).
    intros e' He. injection He as <-. reflexivity.
  - repeat split; try reflexivity; discriminate.
  - repeat split; try reflexivity; discriminate.
Qed.

(** The component is unmounted with the camera running and a decode
    pending. *)
Lemma unmount_stops_engine_only_running :
  let w := exec (onDecode (lit "SN-001")) (exec startCamera two_cameras) in
  let w' := exec unmountCleanup w in
  calls w' = calls w ++ [EngineStop] /\
  scanning w' = false /\
  state w' = state w /\
  timers w' = [{| due := 300; action := DebouncedLookup (lit "SN-001") |}].
Proof.
  intros w.
  destruct (unmount_stops_engine_only w) as [_ [Hs [Ht [_ [_ H]]]]].
  assert (Hsc : scanning w = true) by (vm_compute; reflexivity).
  destruct (H Hsc) as [Hc [Hok _]].
  assert (Hst : stop (env w) = None) by (vm_compute; reflexivity).
  destruct (Hok Hst) as [H1 _].
  cbv zeta. split; [exact Hc|]. split; [exact H1|]. split; [exact Hs|].
  rewrite Ht. vm_compute. reflexivity.
Defined.

(** ** Searching the scanner profiles *)

Lemma insert_by_created_perm (r : ScannerRow.t) (l : list ScannerRow.t) :
  Permutation (insert_by_created r l) (r :: l).
Proof.
  induction l as [|x l IH]; simpl; [reflexivity|].
  destruct (created_before r x); [reflexivity|].
  rewrite IH. apply perm_swap.
Qed.

Lemma order_by_created_perm (l : list ScannerRow.t) :
  Permutation (order_by_created l) l.
Proof.
  induction l as [|x l IH]; simpl; [reflexivity|].
  rewrite insert_by_created_perm. apply perm_skip. exact IH.
Qed.

Lemma order_by_created_nil (l : list ScannerRow.t) :
  order_by_created l = [] -> l = [].
Proof.
  intros H. apply Permutation_nil.
  rewrite <- H. apply order_by_created_perm.
Qed.

(** X19: A search for nothing, or for whitespace, does nothing: no request is
    sent and nothing on the page changes.  The same holds for the Enter
    key and the Search button while the input is blank. *)
Theorem blank_scanner_search_does_nothing (p : Page) (searchName : jsstring) :
  Forall (fun c => isWhiteSpace c = true) searchName ->
  searchScannerInfo searchName p = (Returned tt, p) /\
  (State.scannerSearchInput (state (world p)) = searchName ->
   submitScannerSearch p = (Returned tt, p)).
Proof.
  intros H. split.
  - unfold searchScannerInfo. rewrite (trim_whitespace H). reflexivity.
  - intros Hin. unfold submitScannerSearch, bindP, getsP. rewrite Hin.
    unfold searchScannerInfo. rewrite (trim_whitespace H). reflexivity.
Qed.

Lemma blank_scanner_search_does_nothing_spaces :
  searchScannerInfo blank shared_page = (Returned tt, shared_page) /\
  (State.scannerSearchInput (state (world shared_page)) = blank ->
   submitScannerSearch shared_page = (Returned tt, shared_page)).
Proof.
  apply (@blank_scanner_search_does_nothing shared_page blank).
  repeat constructor.
Defined.

(** What a search that gets no row back leaves: the message of line 72
    and the callback of line 73, one request sent. *)
Lemma fruitless_scanner_search_page (p : Page) (searchName : jsstring) :
  truthy (trim searchName) = true ->
  let uid := option_map User.id (user (world p)) in
  (uid = None \/
   search_fault p uid (like_pattern searchName) <> None \/
   exists u, uid = Some u /\ like_rows p u (like_pattern searchName) = []) ->
  let p' := execP (searchScannerInfo searchName) p in
  outcomeP (searchScannerInfo searchName) p = Returned tt /\
  world p' = exec (setError (not_found_message searchName) ;;
                   setTimeout ClearError 3000) (world p) /\
  searches p' = searches p ++ [(uid, like_pattern searchName)].
Proof.
  intros Htr uid H p'. subst p' uid.
  unfold searchScannerInfo. rewrite Htr. cbn [negb].
  page_handlers. cbn -[like_rows].
  destruct (search_fault p (option_map User.id (user (world p)))
              (like_pattern searchName)) as [e|] eqn:Ef; cbn -[like_rows].
  { repeat split; reflexivity. }
  destruct (user (world p)) as [usr|] eqn:Eu; cbn -[like_rows].
  - destruct H as [H | [H | [u [Hu Hrows]]]]; try discriminate; try congruence.
    injection Hu as <-.
    match goal with
    | |- context [like_rows ?q (User.id usr) (like_pattern searchName)] =>
        change (like_rows q (User.id usr) (like_pattern searchName))
          with (like_rows p (User.id usr) (like_pattern searchName))
    end.
    rewrite Hrows. cbn. repeat split; reflexivity.
  - repeat split; reflexivity.
Qed.

(** X20: A search that gets no row back says so, and the message goes away
    after 3 seconds.  Whether the user has no profile of that name, the
    request failed, or nobody is logged in, the outcome is the same: the
    message [Scanner "..." not found] with the input as typed, and one
    more timer, due 3 seconds later, whose callback empties the message
    of whatever world it runs in and touches nothing else; the listed
    scanners and the input are untouched, nothing is logged.  One request
    went out, for the pattern made of the input as typed between two [%].
    With nothing else pending, the message stands until the 3 seconds are
    over, and is gone when they are. *)
Theorem fruitless_scanner_search (p : Page) (searchName : jsstring) :
  truthy (trim searchName) = true ->
  let uid := option_map User.id (user (world p)) in
  (uid = None \/
   search_fault p uid (like_pattern searchName) <> None \/
   exists u, uid = Some u /\ like_rows p u (like_pattern searchName) = []) ->
  let p' := execP (searchScannerInfo searchName) p in
  let clear := {| due := now (world p) + 3000; action := ClearError |} in
  outcomeP (searchScannerInfo searchName) p = Returned tt /\
  State.error (state (world p')) = not_found_message searchName /\
  timers (world p') = timers (world p) ++ [clear] /\
  (forall w, exec (fire (action clear)) w = exec (setError []) w /\
             State.error (state (exec (fire (action clear)) w)) = [] /\
             State.scannedProduct (state (exec (fire (action clear)) w)) =
               State.scannedProduct (state w) /\
             State.scanStatus (state (exec (fire (action clear)) w)) =
               State.scanStatus (state w) /\
             timers (exec (fire (action clear)) w) = timers w) /\
  searches p' = searches p ++ [(uid, like_pattern searchName)] /\
  State.scanners (state (world p')) = State.scanners (state (world p)) /\
  State.scannerSearchInput (state (world p')) =
    State.scannerSearchInput (state (world p)) /\
  console (world p') = console (world p) /\
  db (world p') = db (world p) /\
  (timers (world p) = [] ->
   (forall fuel t, (t < now (world p) + 3000)%N ->
      exists w2, elapse fuel t (world p') = Some w2 /\
                 State.error (state w2) = not_found_message searchName) /\
   (forall fuel t, (now (world p) + 3000 <= t)%N ->
      exists w2, elapse (S fuel) t (world p') = Some w2 /\
                 State.error (state w2) = [] /\ timers w2 = [])).
Proof.
  intros Htr uid H p' clear.
  destruct (@fruitless_scanner_search_page p searchName Htr H) as [Ho [Hw Hs]].
  fold uid in Hs. fold p' in Hw, Hs.
  split; [exact Ho|]. rewrite Hw.
  split; [reflexivity|]. split; [reflexivity|].
  split; [intros w; repeat split; reflexivity|].
  split; [exact Hs|].
  split; [reflexivity|]. split; [reflexivity|].
  split; [reflexivity|]. split; [reflexivity|].
  intros Hnone.
  set (w1 := exec (setError (not_found_message searchName) ;;
                   setTimeout ClearError 3000) (world p)).
  assert (Ht : timers w1 = [clear]).
  { subst w1 clear. cbn. rewrite Hnone. reflexivity. }
  assert (He : State.error (state w1) = not_found_message searchName) by reflexivity.
  assert (Hn : now w1 = now (world p)) by reflexivity.
  clearbody w1. split.
  - intros fuel t Hlt.
    rewrite (elapse_too_early fuel w1 Ht) by exact Hlt.
    eexists. split; [reflexivity | exact He].
  - intros fuel t Hle.
    rewrite (elapse_one_due fuel w1 Ht) by exact Hle.
    eexists. split; [apply elapse_no_timer; reflexivity|].
    split; reflexivity.
Qed.

(** Alice searches for ["Tablet"], which none of her profiles is called:
    the message is shown for 3 seconds. *)
Lemma fruitless_scanner_search_tablet :
  let p' := execP (searchScannerInfo (lit "Tablet")) shared_page in
  State.error (state (world p')) = lit "Scanner " ++ [34%N] ++ lit "Tablet" ++ [34%N] ++ lit " not found" /\
  timers (world p') = [{| due := 3000; action := ClearError |}] /\
  searches p' = [(Some (lit "alice"), lit "%Tablet%")] /\
  State.scanners (state (world p')) = [scanner_abc; scanner_def; scanner_unused] /\
  (exists w2, elapse 1 2999 (world p') = Some w2 /\
              State.error (state w2) = not_found_message (lit "Tablet")) /\
  (exists w2, elapse 1 3000 (world p') = Some w2 /\
              State.error (state w2) = [] /\ timers w2 = []).
Proof.
  destruct (@fruitless_scanner_search shared_page (lit "Tablet") eq_refl)
    as [_ [H1 [H2 [_ [H3 [H4 [_ [_ [_ H5]]]]]]]]].
  - right. right. exists (lit "alice"). split; reflexivity.
  - cbv zeta. destruct (H5 eq_refl) as [H6 H7].
    split; [exact H1|]. split; [exact H2|]. split; [exact H3|].
    split; [exact H4|]. split.
    + apply (H6 1%nat 2999%N). reflexivity.
    + apply (H7 0%nat 3000%N). discriminate.
Defined.

(** X24: The callback of a fruitless scanner search empties whichever
    message is shown when it fires.  A product lookup that finds no row
    while that callback is pending shows its message only until the
    callback is due: from then on the message is gone and the error box
    with it, while the status is still [error] and the reset of the
    lookup is still to come. *)
Theorem scanner_search_timer_empties_lookup_message
    (w : World) (serialNumber : jsstring) (d : N) :
  fault (env w) (SelectProductBySerial serialNumber) = None ->
  matching serialNumber (db w) = [] ->
  timers w = [{| due := d; action := ClearError |}] ->
  (d <= now w + 2000)%N ->
  let w1 := exec (searchProduct serialNumber) w in
  State.error (state w1) = lit "Produk tidak ditemukan di database" /\
  errorBox (render (state w1)) = Some (lit "Produk tidak ditemukan di database") /\
  (forall fuel t, (t < d)%N ->
     exists w2, elapse fuel t w1 = Some w2 /\
                State.error (state w2) = lit "Produk tidak ditemukan di database") /\
  (forall fuel t, (d <= t)%N -> (t < now w + 2000)%N ->
     exists w2, elapse (S fuel) t w1 = Some w2 /\
                State.error (state w2) = [] /\
                errorBox (render (state w2)) = None /\
                State.scanStatus (state w2) = StatusError /\
                timers w2 = [{| due := now w + 2000; action := ResetStatus |}]).
Proof.
  intros Hf Hm Ht Hd w1.
  assert (E : w1 = exec (call (StoreCall (SelectProductBySerial serialNumber)) ;;
                         setScanStatus StatusError ;;
                         setError (lit "Produk tidak ditemukan di database") ;;
                         setScannedProduct None ;;
                         setTimeout ResetStatus 2000) w).
  { subst w1. unfold exec. rewrite (searchProduct_absent w serialNumber Hf Hm).
    reflexivity. }
  assert (Htm : timers w1 = [{| due := d; action := ClearError |};
                             {| due := now w + 2000; action := ResetStatus |}]).
  { rewrite E. handlers. cbn. rewrite Ht. reflexivity. }
  assert (Hst : state w1 =
    state (exec (setScanStatus StatusError ;;
                 setError (lit "Produk tidak ditemukan di database") ;;
                 setScannedProduct None) w)).
  { rewrite E. reflexivity. }
  clearbody w1. clear E.
  split; [rewrite Hst; reflexivity|]. split; [rewrite Hst; reflexivity|].
  split.
  - intros fuel t Hlt. eexists. split.
    + apply elapse_none_due. rewrite Htm. intros tm [<- | [<- | []]]; cbn [due]; lia.
    + cbn. rewrite Hst. reflexivity.
  - intros fuel t Hle Hlt.
    rewrite (@elapse_head_due fuel t w1 _ _ Htm);
      [| intros t' [<- | []]; cbn [due]; exact Hd | exact Hle].
    eexists. split.
    + apply (@elapse_too_early fuel t _ {| due := now w + 2000; action := ResetStatus |});
        [reflexivity | exact Hlt].
    + cbn. rewrite Hst. cbn. repeat split; reflexivity.
Qed.

(** Alice searched for ["Tablet"] at 0 and looks ["SN-999"] up at 1500: the
    message of the lookup is gone at 3000, half a second before the
    status is reset. *)
Lemma scanner_search_timer_empties_lookup_message_tablet :
  let w1 := exec (searchProduct (lit "SN-999")) (searched_tablet_at 1500) in
  State.error (state w1) = lit "Produk tidak ditemukan di database" /\
  (exists w2, elapse 1 2999 w1 = Some w2 /\
              State.error (state w2) = lit "Produk tidak ditemukan di database") /\
  (exists w2, elapse 1 3000 w1 = Some w2 /\
              State.error (state w2) = [] /\
              errorBox (render (state w2)) = None /\
              State.scanStatus (state w2) = StatusError /\
              timers w2 = [{| due := 1500 + 2000; action := ResetStatus |}]).
Proof.
  destruct (@scanner_search_timer_empties_lookup_message
              (searched_tablet_at 1500) (lit "SN-999") 3000)
    as [H1 [_ [H2 H3]]].
  - reflexivity.
  - reflexivity.
  - reflexivity.
  - vm_compute. discriminate.
  - cbv zeta. split; [exact H1|]. split.
    + apply (H2 1%nat 2999%N). reflexivity.
    + apply (H3 0%nat 3000%N); [vm_compute; discriminate | reflexivity].
Defined.

(** X21: A search that gets rows back replaces the listed scanners by them and
    empties the search input.  The rows are the user's profiles whose name
    is like the pattern, each once, the inactive ones included; the error
    message is left alone and no callback is set. *)
Theorem fruitful_scanner_search (p : Page) (searchName : jsstring) (usr : User.t) :
  truthy (trim searchName) = true ->
  user (world p) = Some usr ->
  search_fault p (Some (User.id usr)) (like_pattern searchName) = None ->
  like_rows p (User.id usr) (like_pattern searchName) <> [] ->
  let p' := execP (searchScannerInfo searchName) p in
  let listed := State.scanners (state (world p')) in
  outcomeP (searchScannerInfo searchName) p = Returned tt /\
  Permutation listed (like_rows p (User.id usr) (like_pattern searchName)) /\
  (forall r, In r listed <->
             In r (Store.scanners (db (world p))) /\
             ScannerRow.user_id r = User.id usr /\
             ilike p (ScannerRow.scanner_name r) (like_pattern searchName) = true) /\
  State.scannerSearchInput (state (world p')) = [] /\
  State.error (state (world p')) = State.error (state (world p)) /\
  timers (world p') = timers (world p) /\
  searches p' = searches p ++ [(Some (User.id usr), like_pattern searchName)].
Proof.
  intros Htr Hu Hf Hrows p' listed. subst listed p'.
  assert (Hne : order_by_created (like_rows p (User.id usr) (like_pattern searchName)) <> []).
  { intros H. apply Hrows, order_by_created_nil, H. }
  unfold searchScannerInfo. rewrite Htr. cbn [negb].
  page_handlers. cbn -[like_rows]. rewrite Hu. cbn -[like_rows].
  rewrite Hf. cbn -[like_rows].
  match goal with
  | |- context [like_rows ?q (User.id usr) (like_pattern searchName)] =>
      change (like_rows q (User.id usr) (like_pattern searchName))
        with (like_rows p (User.id usr) (like_pattern searchName))
  end.
  destruct (order_by_created _) as [|r l] eqn:E; [congruence|]. cbn.
  split; [reflexivity|].
  assert (HP : Permutation (r :: l) (like_rows p (User.id usr) (like_pattern searchName))).
  { rewrite <- E. apply order_by_created_perm. }
  split; [exact HP|]. split; [|repeat split; reflexivity].
  intros x. split.
  - intros Hx. apply (Permutation_in _ HP) in Hx.
    unfold like_rows in Hx. apply filter_In in Hx as [Hx Hc].
    apply andb_true_iff in Hc as [Hc1 Hc2]. apply eqb_eq in Hc1.
    split; [exact Hx|]. split; assumption.
  - intros [Hx [Hc1 Hc2]]. apply (Permutation_in _ (Permutation_sym HP)).
    unfold like_rows. apply filter_In. split; [exact Hx|].
    rewrite Hc1, eqb_refl, Hc2. reflexivity.
Qed.

(** Alice searches for ["Camera"]: the retired profile is listed too. *)
Lemma fruitful_scanner_search_camera :
  let p := shared_page in
  let p' := execP (submitScannerSearch)
              (with_world (exec (setScannerSearchInput (lit "Camera")) (world p)) p) in
  State.scanners (state (world p')) = [scanner_abc; scanner_def; scanner_retired] /\
  State.scannerSearchInput (state (world p')) = [] /\
  (let q := execP (searchScannerInfo (lit "Camera")) p in
   Permutation (State.scanners (state (world q)))
     (like_rows p (lit "alice") (lit "%Camera%")) /\
   timers (world q) = timers (world p)).
Proof.
  split; [reflexivity|]. split; [reflexivity|].
  destruct (@fruitful_scanner_search shared_page (lit "Camera") alice
              eq_refl eq_refl eq_refl) as [_ [H1 [_ [_ [_ [H2 _]]]]]].
  - vm_compute. discriminate.
  - cbv zeta. split; [exact H1 | exact H2].
Defined.

(** ** What the user sees of a lookup *)

(** X22: The status banners are rendered inside the reader only.  With the
    camera on, a lookup ends under the banner "Barcode Detected!" when the
    product is found and under "Product Not Found" both when there is no
    such product and when the query failed.  With the camera off, as for
    a manual search before any start, no banner is rendered at all,
    whatever the lookup gives. *)
Theorem banner_of_a_lookup (w : World) (serialNumber : jsstring) :
  let w' := exec (searchProduct serialNumber) w in
  (State.cameraActive (state w) = false ->
     cameraPane (render (state w')) = StartButton /\
     cameraPane (render (state (exec handleManualSearch w))) = StartButton) /\
  (State.cameraActive (state w) = true ->
     (forall p, fault (env w) (SelectProductBySerial serialNumber) = None ->
                matching serialNumber (db w) = [p] ->
                cameraPane (render (state w')) = QrReader [BarcodeDetectedBadge]) /\
     (fault (env w) (SelectProductBySerial serialNumber) = None ->
      matching serialNumber (db w) = [] ->
      cameraPane (render (state w')) = QrReader [ProductNotFoundBadge]) /\
     (fault (env w) (SelectProductBySerial serialNumber) <> None ->
      cameraPane (render (state w')) = QrReader [ProductNotFoundBadge])).
Proof.
  intros w'. split.
  - intros Hc. split.
    + destruct (searchProduct_frame w serialNumber) as [_ [_ [_ [_ [_ [_ [Ha _]]]]]]].
      fold w' in Ha. unfold render. rewrite Ha, Hc. reflexivity.
    + unfold handleManualSearch, exec, bind, gets.
      destruct (truthy (trim (State.manualSN (state w)))).
      * destruct (searchProduct_frame w (trim (State.manualSN (state w))))
          as [Ho [_ [_ [_ [_ [_ [Ha _]]]]]]].
        unfold exec, outcome in Ho, Ha.
        destruct (searchProduct _ w) as [[[]|e] w1]; cbn in *; [|discriminate].
        unfold render. cbn. rewrite Ha, Hc. reflexivity.
      * cbn. unfold render. rewrite Hc. reflexivity.
  - intros Hc. split; [|split].
    + intros p Hf Hm.
      destruct (searchProduct_found_cells w serialNumber Hf Hm) as [Hs _].
      fold w' in Hs. unfold render. rewrite Hs. cbn. rewrite Hc. reflexivity.
    + intros Hf Hm. subst w'. unfold exec.
      rewrite (searchProduct_absent w serialNumber Hf Hm).
      unfold render. handlers. cbn. rewrite Hc. reflexivity.
    + intros Hf.
      destruct (fault (env w) (SelectProductBySerial serialNumber)) as [e|] eqn:Ef;
        [|congruence].
      subst w'. unfold exec. rewrite (searchProduct_fault w serialNumber Ef).
      unfold render. handlers. cbn. rewrite Hc. reflexivity.
Qed.

(** A manual search before any start; and a failed query with the camera
    on. *)
Lemma banner_of_a_lookup_examples :
  cameraPane (render (state (exec handleManualSearch scenarioA))) = StartButton /\
  (let w := with_env (failing_store failed_to_fetch calm)
              (exec startCamera two_cameras) in
   cameraPane (render (state (exec (searchProduct (lit "SN-001")) w))) =
   QrReader [ProductNotFoundBadge]).
Proof.
  split.
  - destruct (banner_of_a_lookup scenarioA (lit "SN-001")) as [H _].
    apply (H eq_refl).
  - destruct (banner_of_a_lookup
                (with_env (failing_store failed_to_fetch calm)
                   (exec startCamera two_cameras)) (lit "SN-001")) as [_ H].
    assert (Hc : State.cameraActive
                   (state (with_env (failing_store failed_to_fetch calm)
                             (exec startCamera two_cameras))) = true)
      by (vm_compute; reflexivity).
    destruct (H Hc) as [_ [_ H3]]. apply H3. discriminate.
Defined.

Lemma startCamera_keeps_product (w : World) :
  State.scannedProduct (state (exec startCamera w)) = State.scannedProduct (state w).
Proof.
  unfold startCamera, exec, try_catch.
  match goal with
  | |- context [match ?b w with _ => _ end] =>
      destruct (b w) as [[[]|e] w1] eqn:Body
  end.
  - revert Body. handlers. cbn -[upsert_rows registration_payload].
    repeat (split_match; cbn -[upsert_rows registration_payload]);
      intros Body; inversion Body; subst; reflexivity.
  - rewrite no_camera_branch_is_dead.
    assert (Hw1 : State.scannedProduct (state w1) = State.scannedProduct (state w)).
    { revert Body. handlers. cbn -[upsert_rows registration_payload].
      repeat (split_match; cbn -[upsert_rows registration_payload]);
        intros Body; inversion Body; subst; reflexivity. }
    destruct (includes _ _ || _ || _); handlers; cbn; exact Hw1.
Qed.

(** X23: While a product is displayed, no message of [startCamera] can be
    seen: the product stays displayed through a start, and the error box
    is only rendered without a product.  So a start that fails then shows
    the start button again and no reason. *)
Theorem displayed_product_hides_camera_error (w : World) (p : Product.t) :
  State.scannedProduct (state w) = Some p ->
  let w' := exec startCamera w in
  productCard (render (state w')) = Some p /\
  errorBox (render (state w')) = None /\
  (State.cameraActive (state w') = false ->
     cameraPane (render (state w')) = StartButton /\
     State.error (state w') <> []).
Proof.
  intros Hp w'.
  pose proof (startCamera_keeps_product w) as Hk. fold w' in Hk.
  destruct (startCamera_ends_consistently_aux w) as [Hf _]. fold w' in Hf.
  clearbody w'. unfold render. cbn. rewrite Hk, Hp. cbn.
  split; [reflexivity|]. split; [rewrite andb_false_r; reflexivity|].
  intros Hc. rewrite Hc. split; [reflexivity|].
  destruct (Hf Hc) as [-> | ->]; discriminate.
Qed.

(** The widget is on display when a start finds no camera. *)
Lemma displayed_product_hides_camera_error_widget :
  let w := with_env (enumerating (inr (Some [])) calm)
             (exec (searchProduct (lit "SN-001")) scenarioA) in
  let w' := exec startCamera w in
  productCard (render (state w')) = Some widget /\
  errorBox (render (state w')) = None /\
  cameraPane (render (state w')) = StartButton /\
  State.error (state w') <> [].
Proof.
  intros w.
  destruct (@displayed_product_hides_camera_error w widget eq_refl)
    as [H1 [H2 H3]].
  assert (Hc : State.cameraActive (state (exec startCamera w)) = false)
    by (vm_compute; reflexivity).
  destruct (H3 Hc) as [H4 H5].
  cbv zeta. split; [exact H1|]. split; [exact H2|]. split; [exact H4 | exact H5].
Defined.
